(** * Dynamic RBAC backend: permission resolution, authorization middleware,
      account lockout and session validation.

    Shallow embedding of the parts of the backend that decide whether a
    request is admitted:
      - the Role and User schemas and the User instance methods
        [isLocked], [getAllPermissions], [hasPermission],
        [incLoginAttempts], [resetLoginAttempts], [comparePassword]
        (models/Role.js, models/User.js);
      - [requirePermissions] (middleware/rbac.js);
      - [authenticate] (middleware/auth.js);
      - [login] (the authentication controller);
      - [grantCustomPermissions], [revokeCustomPermissions] (the user
        controller);
      - [isValidObjectId], [isValidEmail] (utils/validators.js) and
        [sendErrorResponse], [sendSuccessResponse], [asyncHandler]
        (utils/responseUtils.js).

    Conventions.
      - A MongoDB ObjectId is represented by what [toString()] returns for
        it: its 24 lower-case hexadecimal digits.  A string of a request is
        cast to an ObjectId where the driver does it (query filters, pushes
        into an ObjectId array); the cast reads upper-case digits as their
        lower-case ones.
      - Collections are lists of documents; [populate] replaces references
        by the documents found, [null] for a role that is not found.
      - [Date] values and [Date.now()] are milliseconds, in [Z]; one request
        reads one clock value.
      - A JavaScript call either returns or throws: [Completion].
      - Strings are ASCII text. *)

From Stdlib Require Import List String Ascii ZArith Bool Lia Arith.
From Stdlib Require Import DecimalString.
Import ListNotations.

Local Open Scope string_scope.
Local Open Scope Z_scope.

Set Implicit Arguments.

(* ================================================================== *)
(** ** JavaScript values used by the code *)

(** Completion of a call: a normal return or a thrown error, identified by
    its [name] property. *)
Inductive Completion (A : Type) : Type :=
| Normal (v : A)
| Throw (name : string).
Arguments Normal {A} v.
Arguments Throw {A} name.

(** Strict equality [===] of two strings. *)
Infix "===" := String.eqb (at level 70, no associativity).

(** Truthiness of an optional string: [undefined] and [''] are falsy. *)
Definition truthy (s : option string) : bool :=
  match s with
  | Some v => negb (v === "")
  | None => false
  end.

(** [Array.prototype.includes] on strings. *)
Definition includes (l : list string) (x : string) : bool :=
  existsb (fun y => y === x) l.

(** [Array.prototype.join]. *)
Definition join (sep : string) (l : list string) : string :=
  String.concat sep l.

(** Decimal rendering of a length inside a template literal. *)
Definition showNat (n : nat) : string :=
  NilEmpty.string_of_uint (Nat.to_uint n).

Fixpoint mapString (f : ascii -> ascii) (s : string) : string :=
  match s with
  | EmptyString => EmptyString
  | String c r => String (f c) (mapString f r)
  end.

Definition code (c : ascii) : nat := nat_of_ascii c.

Definition inRange (lo hi : nat) (c : ascii) : bool :=
  ((lo <=? code c) && (code c <=? hi))%nat.

(** [\s] restricted to the ASCII white space characters. *)
Definition isSpace (c : ascii) : bool :=
  inRange 9 13 c || (code c =? 32)%nat.

(** [String.prototype.toLowerCase] on ASCII text. *)
Definition toLowerCase (s : string) : string :=
  mapString (fun c => if inRange 65 90 c then ascii_of_nat (code c + 32) else c) s.

Fixpoint trimStart (s : string) : string :=
  match s with
  | String c r => if isSpace c then trimStart r else s
  | EmptyString => EmptyString
  end.

Fixpoint trimEnd (s : string) : string :=
  match s with
  | EmptyString => EmptyString
  | String c r =>
      match trimEnd r with
      | EmptyString => if isSpace c then EmptyString else String c EmptyString
      | r' => String c r'
      end
  end.

(** [String.prototype.trim]. *)
Definition trim (s : string) : string := trimEnd (trimStart s).

(** [s.split(sep)] for a one-character separator. *)
Fixpoint split (sep : ascii) (s : string) : list string :=
  match s with
  | EmptyString => [EmptyString]
  | String c r =>
      if Ascii.eqb c sep then EmptyString :: split sep r
      else match split sep r with
           | h :: t => String c h :: t
           | [] => [String c EmptyString]
           end
  end.

(** [s.startsWith(p)]. *)
Definition startsWith (s p : string) : bool := String.prefix p s.

(* ================================================================== *)
(** ** utils/validators.js *)

Definition isHexDigit (c : ascii) : bool :=
  inRange 48 57 c || inRange 97 102 c || inRange 65 70 c.

(** [/^[0-9a-fA-F]{24}$/.test(id)] *)
Definition isValidObjectId (id : string) : bool :=
  (String.length id =? 24)%nat && forallb isHexDigit (list_ascii_of_string id).

Definition notSpaceNorAt (c : ascii) : bool :=
  negb (isSpace c) && negb (Ascii.eqb c "@"%char).

(** Some dot of [d] has at least one character before it and one after. *)
Fixpoint hasInnerDot (seenChar : bool) (d : list ascii) : bool :=
  match d with
  | [] => false
  | c :: r =>
      (seenChar && Ascii.eqb c "."%char && negb (Nat.eqb (List.length r) 0))
      || hasInnerDot true r
  end.

(** [/^[^\s@]+@[^\s@]+\.[^\s@]+$/.test(email)]: one [@], no white space, a
    non-empty local part and a domain with an inner dot. *)
Definition isValidEmail (email : string) : bool :=
  match split "@"%char email with
  | [loc; dom] =>
      negb (loc === "")
      && forallb notSpaceNorAt (list_ascii_of_string loc)
      && forallb notSpaceNorAt (list_ascii_of_string dom)
      && hasInnerDot false (list_ascii_of_string dom)
  | _ => false
  end.

(* ================================================================== *)
(** ** ObjectId *)

Definition ObjectId := string.

(** [new ObjectId(s)] for a 24-digit hexadecimal string: the same twelve
    bytes whatever the case of the digits. *)
Definition castObjectId (s : string) : ObjectId :=
  mapString (fun c => if inRange 65 70 c then ascii_of_nat (code c + 32) else c) s.

(** [ObjectId.prototype.toString]: lower-case hexadecimal. *)
Definition toString (o : ObjectId) : string := o.

(* ================================================================== *)
(** ** models/Permission.js, models/Role.js, models/User.js: documents *)

Module Permission.
Record t : Type := mk {
  _id : ObjectId;
  name : string;
  resource : string;
  action : string
}.
End Permission.

(** A role, with its [permissions] path holding references ([P := ObjectId])
    or populated documents ([P := Permission.t]). *)
Module Role.
Record t (P : Type) : Type := mk {
  _id : ObjectId;
  name : string;
  permissions : list P;
  isSystemRole : bool;
  isActive : bool
}.
Arguments mk {P}.
End Role.

Record CustomPermissions (P : Type) : Type := mkCustom {
  granted : list P;
  revoked : list P
}.
Arguments mkCustom {P}.

(** A user, with its [role] path of type [R] and its permission paths
    holding [P]. *)
Module User.
Record t (R P : Type) : Type := mk {
  _id : ObjectId;
  email : string;
  password : option string;        (* select: false; None when not selected *)
  role : R;
  customPermissions : CustomPermissions P;
  isActive : bool;
  lastLogin : option Z;
  loginAttempts : Z;
  lockUntil : option Z
}.
Arguments mk {R P}.
End User.

Definition RoleDoc : Type := Role.t ObjectId.
Definition UserDoc : Type := User.t ObjectId ObjectId.

(** Documents after [populate]: a dangling role reference leaves [null]. *)
Definition LoadedRole : Type := Role.t Permission.t.
Definition LoadedUser : Type := User.t (option LoadedRole) Permission.t.

Record Database : Type := mkDb {
  permissionsColl : list Permission.t;
  rolesColl : list RoleDoc;
  usersColl : list UserDoc
}.

(** *** populate *)

Definition findPermissionById (db : Database) (id : ObjectId) : option Permission.t :=
  find (fun p => Permission._id p === id) (permissionsColl db).

(** Populating an array path keeps the documents found, in the order of the
    references. *)
Definition populatePermissions (db : Database) (ids : list ObjectId) : list Permission.t :=
  flat_map (fun id => match findPermissionById db id with
                      | Some p => [p]
                      | None => []
                      end) ids.

Definition populateRole (db : Database) (rid : ObjectId) : option LoadedRole :=
  match find (fun r => Role._id r === rid) (rolesColl db) with
  | Some r => Some (Role.mk (Role._id r) (Role.name r)
                      (populatePermissions db (Role.permissions r))
                      (Role.isSystemRole r) (Role.isActive r))
  | None => None
  end.

(** [.populate({path:'role', populate:{path:'permissions'}})
     .populate('customPermissions.granted customPermissions.revoked')] *)
Definition populateUser (db : Database) (u : UserDoc) : LoadedUser :=
  User.mk (User._id u) (User.email u) (User.password u)
    (populateRole db (User.role u))
    (mkCustom (populatePermissions db (granted (User.customPermissions u)))
              (populatePermissions db (revoked (User.customPermissions u))))
    (User.isActive u) (User.lastLogin u) (User.loginAttempts u) (User.lockUntil u).

(* ================================================================== *)
(** ** models/User.js: instance methods *)

(** Capabilities supplied from outside the code. *)
Record Env : Type := mkEnv {
  now : Z;                                   (* Date.now() *)
  MAX_LOGIN_ATTEMPTS : option Z;             (* parseInt(process.env...), None for NaN *)
  LOCKOUT_TIME : option Z;
  jwt_verify : string -> Completion string;  (* jwt.verify(token, secret).userId *)
  bcrypt_compare : string -> option string -> bool; (* bcrypt.compare(candidate, hash) *)
  generateToken : ObjectId -> string
}.

(** [n || d] for a number [n] that may be [NaN]. *)
Definition orDefault (n : option Z) (d : Z) : Z :=
  match n with
  | Some v => if v =? 0 then d else v
  | None => d
  end.

Section UserMethods.
Context {R P : Type}.

(** virtual [isLocked]: [!!(this.lockUntil && this.lockUntil > Date.now())] *)
Definition isLocked (env : Env) (u : User.t R P) : bool :=
  match User.lockUntil u with
  | Some t => now env <? t
  | None => false
  end.

(** Update operators on the two security paths. *)
Inductive UpdateOp : Type :=
| UnsetLockUntil
| UnsetLoginAttempts
| SetLoginAttempts (n : Z)
| SetLockUntil (t : Z)
| IncLoginAttempts (k : Z).

Definition withSecurity (u : User.t R P) (attempts : Z) (lock : option Z) : User.t R P :=
  User.mk (User._id u) (User.email u) (User.password u) (User.role u)
    (User.customPermissions u) (User.isActive u) (User.lastLogin u) attempts lock.

(** Effect of one operator on the stored document; an unset
    [loginAttempts] reads back as the schema default 0. *)
Definition applyOp (u : User.t R P) (op : UpdateOp) : User.t R P :=
  match op with
  | UnsetLockUntil => withSecurity u (User.loginAttempts u) None
  | UnsetLoginAttempts => withSecurity u 0 (User.lockUntil u)
  | SetLoginAttempts n => withSecurity u n (User.lockUntil u)
  | SetLockUntil t => withSecurity u (User.loginAttempts u) (Some t)
  | IncLoginAttempts k => withSecurity u (User.loginAttempts u + k) (User.lockUntil u)
  end.

(** [this.updateOne(update)] on the stored document. *)
Definition updateOne (u : User.t R P) (update : list UpdateOp) : User.t R P :=
  fold_left applyOp update u.

(** [incLoginAttempts]: the update it sends. *)
Definition incLoginAttempts (env : Env) (u : User.t R P) : list UpdateOp :=
  (* this.lockUntil && this.lockUntil < Date.now() *)
  if match User.lockUntil u with
     | Some t => t <? now env
     | None => false
     end
  then [UnsetLockUntil; SetLoginAttempts 1]
  else
    let maxAttempts := orDefault (MAX_LOGIN_ATTEMPTS env) 5 in
    let lockTime := orDefault (LOCKOUT_TIME env) 15 in
    if (maxAttempts <=? User.loginAttempts u + 1) && negb (isLocked env u)
    then [IncLoginAttempts 1; SetLockUntil (now env + lockTime * 60 * 1000)]
    else [IncLoginAttempts 1].

(** [resetLoginAttempts]: the update it sends. *)
Definition resetLoginAttempts (u : User.t R P) : list UpdateOp :=
  [UnsetLoginAttempts; UnsetLockUntil].

(** [comparePassword]: [bcrypt.compare(candidatePassword, this.password)] *)
Definition comparePassword (env : Env) (u : User.t R P) (candidate : string) : bool :=
  bcrypt_compare env candidate (User.password u).
End UserMethods.

Definition samePermission (p q : Permission.t) : bool :=
  toString (Permission._id p) === toString (Permission._id q).

(** [getAllPermissions], on a document whose paths are populated. *)
Definition getAllPermissions (u : LoadedUser) : Completion (list Permission.t) :=
  let rolePermissions :=
    match User.role u with
    | Some r => Role.permissions r
    | None => []
    end in
  let grantedPermissions := granted (User.customPermissions u) in
  let revokedPermissions := revoked (User.customPermissions u) in
  let allPermissions :=
    fold_left (fun acc permission =>
                 if negb (existsb (fun p => samePermission p permission) acc)
                 then (acc ++ [permission])%list else acc)
              grantedPermissions rolePermissions in
  Normal (filter (fun permission =>
                    negb (existsb (fun r => samePermission r permission) revokedPermissions))
                 allPermissions).

(** [hasPermission] *)
Definition hasPermission (u : LoadedUser) (permissionName : string) : Completion bool :=
  match getAllPermissions u with
  | Normal permissions =>
      Normal (existsb (fun p => Permission.name p === permissionName) permissions)
  | Throw e => Throw e
  end.

(* ================================================================== *)
(** ** Requests, responses and the handler monad *)

(** Fields of a JSON body beyond [success] and [message]. *)
Inductive Extra : Type :=
| NoExtra
| DeniedExtra (requiredPermissions userPermissions : list string)
| DataUser (user : UserDoc)
| DataLogin (userId : ObjectId) (token : string).

(** [res.status(status).json({ success, message, ... })] *)
Record Response : Type := mkResponse {
  status : Z;
  success : bool;
  message : string;
  extra : Extra
}.

(** utils/responseUtils.js *)
Definition sendErrorResponse (statusCode : Z) (msg : string) : Response :=
  mkResponse statusCode false msg NoExtra.

Definition sendSuccessResponse (statusCode : Z) (data : Extra) (msg : string) : Response :=
  mkResponse statusCode true msg data.

(** [req.permissionCheck] *)
Record PermissionCheck : Type := mkCheck {
  requiredPermissions : list string;
  userPermissions : list string;
  accessGranted : bool
}.

Record Request : Type := mkReq {
  authorization : option string;         (* req.headers.authorization *)
  cookieToken : option string;           (* req.cookies?.token *)
  paramsId : string;                     (* req.params.id *)
  bodyEmail : option string;             (* req.body.email *)
  bodyPassword : option string;          (* req.body.password *)
  bodyPermissions : option (list string);(* req.body.permissions, None unless an array *)
  user : option LoadedUser;              (* req.user *)
  permissionCheck : option PermissionCheck
}.

Definition withUser (req : Request) (u : LoadedUser) : Request :=
  mkReq (authorization req) (cookieToken req) (paramsId req) (bodyEmail req)
        (bodyPassword req) (bodyPermissions req) (Some u) (permissionCheck req).

Definition withPermissionCheck (req : Request) (c : PermissionCheck) : Request :=
  mkReq (authorization req) (cookieToken req) (paramsId req) (bodyEmail req)
        (bodyPassword req) (bodyPermissions req) (user req) (Some c).

(** Method invocations on a user document that the claims speak about. *)
Inductive Call : Type :=
| CallGetAllPermissions (userId : ObjectId)
| CallComparePassword (userId : ObjectId)
| CallIncLoginAttempts (userId : ObjectId)
| CallResetLoginAttempts (userId : ObjectId)
| CallSave (userId : ObjectId).

(** The store and the log of invocations, threaded through a handler. *)
Record World : Type := mkWorld {
  db : Database;
  calls : list Call
}.

Definition M (A : Type) : Type := World -> A * World.

Definition ret {A : Type} (a : A) : M A := fun w => (a, w).

Definition bind {A B : Type} (m : M A) (k : A -> M B) : M B :=
  fun w => let (a, w') := m w in k a w'.

Notation "x <- m ;; k" := (bind m (fun x => k))
  (at level 61, m at next level, right associativity).
Notation "m ;;; k" := (bind m (fun _ => k))
  (at level 61, right associativity).

Definition invoke (c : Call) : M unit :=
  fun w => (tt, mkWorld (db w) (calls w ++ [c])%list).

Definition readDb : M Database := fun w => (db w, w).

Definition writeDb (f : Database -> Database) : M unit :=
  fun w => (tt, mkWorld (f (db w)) (calls w)).

(** What a middleware or handler does with the request: pass it on with
    [next()], pass an error with [next(err)], or send a response. *)
Inductive Outcome : Type :=
| Next (req : Request)
| NextError (name : string)
| Sent (r : Response).

Definition Middleware : Type := Request -> M Outcome.

(** An Express route: each middleware runs only if the previous one called
    [next()]. *)
Fixpoint runChain (chain : list Middleware) (req : Request) : M Outcome :=
  match chain with
  | [] => ret (Next req)
  | m :: rest =>
      o <- m req ;;
      match o with
      | Next req' => runChain rest req'
      | _ => ret o
      end
  end.

(** *** Store operations *)

Fixpoint updateFirst (id : ObjectId) (f : UserDoc -> UserDoc) (l : list UserDoc)
  : list UserDoc :=
  match l with
  | [] => []
  | u :: r => if User._id u === id then f u :: r else u :: updateFirst id f r
  end.

Definition updateUser (id : ObjectId) (f : UserDoc -> UserDoc) (d : Database) : Database :=
  mkDb (permissionsColl d) (rolesColl d) (updateFirst id f (usersColl d)).

(** [User.findById(id)]: the id is cast to an ObjectId first. *)
Definition findById (d : Database) (id : string) : Completion (option UserDoc) :=
  if isValidObjectId id
  then Normal (find (fun u => User._id u === castObjectId id) (usersColl d))
  else Throw "CastError".

(** [User.findOne({ email })] *)
Definition findOneByEmail (d : Database) (email : string) : option UserDoc :=
  find (fun u => User.email u === email) (usersColl d).

(** [Permission.find({ _id: { $in: ids } })] *)
Definition findPermissionsIn (d : Database) (ids : list string) : list Permission.t :=
  filter (fun p => existsb (fun s => castObjectId s === Permission._id p) ids)
         (permissionsColl d).

(** Awaited method calls, recorded in the log. *)
Definition awaitGetAllPermissions (u : LoadedUser) : M (Completion (list Permission.t)) :=
  invoke (CallGetAllPermissions (User._id u)) ;;; ret (getAllPermissions u).

Definition awaitComparePassword (env : Env) (u : UserDoc) (candidate : string) : M bool :=
  invoke (CallComparePassword (User._id u)) ;;; ret (comparePassword env u candidate).

Definition awaitIncLoginAttempts (env : Env) (u : UserDoc) : M unit :=
  invoke (CallIncLoginAttempts (User._id u)) ;;;
  writeDb (updateUser (User._id u) (fun stored => updateOne stored (incLoginAttempts env u))).

Definition awaitResetLoginAttempts (u : UserDoc) : M unit :=
  invoke (CallResetLoginAttempts (User._id u)) ;;;
  writeDb (updateUser (User._id u) (fun stored => updateOne stored (resetLoginAttempts u))).

(** [user.save()]: the modified paths [set] replace the stored ones. *)
Definition awaitSave (u : UserDoc) (set : UserDoc -> UserDoc) : M unit :=
  invoke (CallSave (User._id u)) ;;; writeDb (updateUser (User._id u) set).

(* ================================================================== *)
(** ** middleware/rbac.js *)

(** [requiredPermissions]: a string or an array of strings. *)
Inductive Required : Type :=
| One (permission : string)
| Many (permissions : list string).

(** The [options] argument; an absent key is [None]. *)
Record Options : Type := mkOptions {
  requireAll : option bool;
  allowSuperAdmin : option bool;
  customErrorMessage : option string
}.

Definition noOptions : Options := mkOptions None None None.

Definition getOr {A : Type} (o : option A) (d : A) : A :=
  match o with
  | Some v => v
  | None => d
  end.

(** [req.user.role && req.user.role.name === 'SuperAdmin'] *)
Definition isSuperAdmin (u : LoadedUser) : bool :=
  match User.role u with
  | Some r => Role.name r === "SuperAdmin"
  | None => false
  end.

Definition deniedMessage (customErrorMessage : option string) (permissions : list string)
  : string :=
  if truthy customErrorMessage then getOr customErrorMessage ""
  else ("Access denied. Required permission"
          ++ (if (1 <? List.length permissions)%nat then "s" else "")
          ++ ": " ++ join ", " permissions)%string.

Definition requirePermissions (required : Required) (options : Options) : Middleware :=
  let requireAll := getOr (requireAll options) false in
  let allowSuperAdmin := getOr (allowSuperAdmin options) true in
  let customErrorMessage := customErrorMessage options in
  fun req =>
    match user req with
    | None =>
        ret (Sent (mkResponse 401 false
                     "Authentication required to access this resource." NoExtra))
    | Some u =>
        let permissions :=
          match required with
          | Many ps => ps
          | One p => [p]
          end in
        if allowSuperAdmin && isSuperAdmin u then ret (Next req)
        else
          c <- awaitGetAllPermissions u ;;
          match c with
          | Throw _ =>
              ret (Sent (mkResponse 500 false
                           "Internal server error during permission verification." NoExtra))
          | Normal userPermissions =>
              let userPermissionNames := map Permission.name userPermissions in
              let hasAccess :=
                if requireAll
                then forallb (fun permission => includes userPermissionNames permission)
                             permissions
                else existsb (fun permission => includes userPermissionNames permission)
                             permissions in
              if negb hasAccess
              then ret (Sent (mkResponse 403 false
                                (deniedMessage customErrorMessage permissions)
                                (DeniedExtra permissions userPermissionNames)))
              else ret (Next (withPermissionCheck req
                                (mkCheck permissions userPermissionNames true)))
          end
    end.

(* ================================================================== *)
(** ** middleware/auth.js *)

Definition msgNoToken : string := "Access denied. No token provided.".
Definition msgUserNotFound : string := "Access denied. User not found.".
Definition msgDeactivated : string := "Access denied. Account is deactivated.".
Definition msgLocked : string :=
  "Access denied. Account is temporarily locked due to too many failed login attempts.".
Definition msgExpired : string := "Access denied. Token has expired.".
Definition msgInvalid : string := "Access denied. Invalid token.".

(** The token taken from the Authorization header or the cookie. *)
Definition extractToken (req : Request) : option string :=
  if truthy (authorization req) && startsWith (getOr (authorization req) "") "Bearer"
  then nth_error (split " "%char (getOr (authorization req) "")) 1
  else if truthy (cookieToken req) then cookieToken req
  else None.

(** The inner [catch]: known token errors are answered, others rethrown to
    the outer [catch]. *)
Definition authenticateCatch (name : string) : Response :=
  if name === "TokenExpiredError" then mkResponse 401 false msgExpired NoExtra
  else if name === "JsonWebTokenError" then mkResponse 401 false msgInvalid NoExtra
  else mkResponse 500 false "Internal server error during authentication." NoExtra.

Definition withoutPassword {R P : Type} (u : User.t R P) : User.t R P :=
  User.mk (User._id u) (User.email u) None (User.role u)
    (User.customPermissions u) (User.isActive u) (User.lastLogin u)
    (User.loginAttempts u) (User.lockUntil u).

Definition authenticate (env : Env) : Middleware :=
  fun req =>
    let token := extractToken req in
    if negb (truthy token)
    then ret (Sent (mkResponse 401 false msgNoToken NoExtra))
    else
      match jwt_verify env (getOr token "") with
      | Throw name => ret (Sent (authenticateCatch name))
      | Normal userId =>
          d <- readDb ;;
          match findById d userId with
          | Throw name => ret (Sent (authenticateCatch name))
          | Normal None => ret (Sent (mkResponse 401 false msgUserNotFound NoExtra))
          | Normal (Some doc) =>
              let user := populateUser d doc in
              if negb (User.isActive user)
              then ret (Sent (mkResponse 401 false msgDeactivated NoExtra))
              else if isLocked env user
              then ret (Sent (mkResponse 401 false msgLocked NoExtra))
              else ret (Next (withUser req (withoutPassword user)))
          end
      end.

(* ================================================================== *)
(** ** controllers *)

(** [asyncHandler]: a rejection of the handler goes to [next(err)]. *)
Definition asyncHandler (fn : Request -> M (Completion Response)) : Middleware :=
  fun req =>
    c <- fn req ;;
    match c with
    | Normal r => ret (Sent r)
    | Throw name => ret (NextError name)
    end.

Definition withLastLogin {R P : Type} (u : User.t R P) (t : option Z) : User.t R P :=
  User.mk (User._id u) (User.email u) (User.password u) (User.role u)
    (User.customPermissions u) (User.isActive u) t
    (User.loginAttempts u) (User.lockUntil u).

Definition withCustomPermissions {R P : Type} (u : User.t R P) (c : CustomPermissions P)
  : User.t R P :=
  User.mk (User._id u) (User.email u) (User.password u) (User.role u)
    c (User.isActive u) (User.lastLogin u)
    (User.loginAttempts u) (User.lockUntil u).

Definition msgAccountLocked : string :=
  "Account is temporarily locked due to too many failed login attempts. Please try again later.".

(** authController.js: [login] *)
Definition login (env : Env) : Middleware :=
  asyncHandler (fun req =>
    let email := bodyEmail req in
    let password := bodyPassword req in
    if negb (truthy email) || negb (truthy password)
    then ret (Normal (sendErrorResponse 400 "Email and password are required"))
    else if negb (isValidEmail (getOr email ""))
    then ret (Normal (sendErrorResponse 400 "Please provide a valid email address"))
    else
      let sanitizedEmail := trim (toLowerCase (getOr email "")) in
      d <- readDb ;;
      match findOneByEmail d sanitizedEmail with
      | None => ret (Normal (sendErrorResponse 401 "Invalid email or password"))
      | Some user =>
          if isLocked env user
          then ret (Normal (sendErrorResponse 423 msgAccountLocked))
          else if negb (User.isActive user)
          then ret (Normal (sendErrorResponse 403
                              "Account is deactivated. Please contact administrator."))
          else
            isPasswordCorrect <- awaitComparePassword env user (getOr password "") ;;
            if negb isPasswordCorrect
            then
              awaitIncLoginAttempts env user ;;;
              ret (Normal (sendErrorResponse 401 "Invalid email or password"))
            else
              (if 0 <? User.loginAttempts user
               then awaitResetLoginAttempts user else ret tt) ;;;
              awaitSave user (fun stored => withLastLogin stored (Some (now env))) ;;;
              ret (Normal (sendSuccessResponse 200
                             (DataLogin (User._id user) (generateToken env (User._id user)))
                             "Login successful"))
      end).

Definition msgAlreadyGranted : string :=
  "All specified permissions are already granted to this user".

(** userController.js: [grantCustomPermissions] *)
Definition grantCustomPermissions : Middleware :=
  asyncHandler (fun req =>
    let id := paramsId req in
    if negb (isValidObjectId id)
    then ret (Normal (sendErrorResponse 400 "Invalid user ID"))
    else
      match bodyPermissions req with
      | None => ret (Normal (sendErrorResponse 400 "Permissions array is required"))
      | Some permissions =>
          if (List.length permissions =? 0)%nat
          then ret (Normal (sendErrorResponse 400 "Permissions array is required"))
          else
            let invalidPermissions :=
              filter (fun permId => negb (isValidObjectId permId)) permissions in
            if (0 <? List.length invalidPermissions)%nat
            then ret (Normal (sendErrorResponse 400 "Invalid permission IDs provided"))
            else
              d <- readDb ;;
              match findById d id with
              | Throw name => ret (Throw name)
              | Normal None => ret (Normal (sendErrorResponse 404 "User not found"))
              | Normal (Some user) =>
                  let existingPermissions := findPermissionsIn d permissions in
                  if negb (List.length existingPermissions =? List.length permissions)%nat
                  then ret (Normal (sendErrorResponse 400 "Some permissions do not exist"))
                  else
                    let cp := User.customPermissions user in
                    let newPermissions :=
                      filter (fun permId =>
                                negb (existsb (fun existingId => toString existingId === permId)
                                              (granted cp)))
                             permissions in
                    if (List.length newPermissions =? 0)%nat
                    then ret (Normal (sendErrorResponse 400 msgAlreadyGranted))
                    else
                      (* granted.push(...newPermissions) *)
                      let granted' := (granted cp ++ map castObjectId newPermissions)%list in
                      let revoked' :=
                        filter (fun permId => negb (includes permissions (toString permId)))
                               (revoked cp) in
                      let cp' := mkCustom granted' revoked' in
                      awaitSave user (fun stored => withCustomPermissions stored cp') ;;;
                      ret (Normal (sendSuccessResponse 200
                                     (DataUser (withCustomPermissions user cp'))
                                     (showNat (List.length newPermissions)
                                        ++ " custom permissions granted successfully")%string))
              end
      end).

(** userController.js: [revokeCustomPermissions].  Its ids are not validated
    before the push, which throws a CastError on a string that is not an
    ObjectId. *)
Definition revokeCustomPermissions : Middleware :=
  asyncHandler (fun req =>
    let id := paramsId req in
    if negb (isValidObjectId id)
    then ret (Normal (sendErrorResponse 400 "Invalid user ID"))
    else
      match bodyPermissions req with
      | None => ret (Normal (sendErrorResponse 400 "Permissions array is required"))
      | Some permissions =>
          if (List.length permissions =? 0)%nat
          then ret (Normal (sendErrorResponse 400 "Permissions array is required"))
          else
            d <- readDb ;;
            match findById d id with
            | Throw name => ret (Throw name)
            | Normal None => ret (Normal (sendErrorResponse 404 "User not found"))
            | Normal (Some user) =>
                let cp := User.customPermissions user in
                let newRevokedPermissions :=
                  filter (fun permId =>
                            negb (existsb (fun existingId => toString existingId === permId)
                                          (revoked cp)))
                         permissions in
                if negb (forallb isValidObjectId newRevokedPermissions)
                then ret (Throw "CastError")
                else
                  let revoked' :=
                    if (0 <? List.length newRevokedPermissions)%nat
                    then (revoked cp ++ map castObjectId newRevokedPermissions)%list
                    else revoked cp in
                  let granted' :=
                    filter (fun permId => negb (includes permissions (toString permId)))
                           (granted cp) in
                  let cp' := mkCustom granted' revoked' in
                  awaitSave user (fun stored => withCustomPermissions stored cp') ;;;
                  ret (Normal (sendSuccessResponse 200
                                 (DataUser (withCustomPermissions user cp'))
                                 (showNat (List.length newRevokedPermissions)
                                    ++ " custom permissions revoked successfully")%string))
            end
      end).

Unset Implicit Arguments.

(* ================================================================== *)
(** ** Vocabulary of the statements *)

(** Identifiers of a list of populated permissions. *)
Definition ids (l : list Permission.t) : list ObjectId := map Permission._id l.

(** [this.role?.permissions || []] *)
Definition rolePermissionsOf (u : LoadedUser) : list Permission.t :=
  match User.role u with
  | Some r => Role.permissions r
  | None => []
  end.

(** The same loaded user with the [isActive] flag of its role set to [b]. *)
Definition withRoleIsActive (u : LoadedUser) (b : bool) : LoadedUser :=
  User.mk (User._id u) (User.email u) (User.password u)
    (match User.role u with
     | Some r => Some (Role.mk (Role._id r) (Role.name r) (Role.permissions r)
                         (Role.isSystemRole r) b)
     | None => None
     end)
    (User.customPermissions u) (User.isActive u) (User.lastLogin u)
    (User.loginAttempts u) (User.lockUntil u).

(** The same store with the [isActive] flag of every role chosen by [f]. *)
Definition withRolesIsActive (d : Database) (f : RoleDoc -> bool) : Database :=
  mkDb (permissionsColl d)
       (map (fun r => Role.mk (Role._id r) (Role.name r) (Role.permissions r)
                        (Role.isSystemRole r) (f r)) (rolesColl d))
       (usersColl d).

(** A middleware admits a request when it calls [next()]. *)
Definition admitted (o : Outcome) : bool :=
  match o with
  | Next _ => true
  | _ => false
  end.

(** Names of the effective permissions of a loaded user. *)
Definition effectiveNames (u : LoadedUser) : list string :=
  match getAllPermissions u with
  | Normal l => map Permission.name l
  | Throw _ => []
  end.

(** The SuperAdmin bypass of [requirePermissions] applies. *)
Definition bypasses (options : Options) (u : LoadedUser) : bool :=
  getOr (allowSuperAdmin options) true && isSuperAdmin u.

(** The stored security state after [incLoginAttempts] has run on [u]. *)
Definition afterFailedLogin {R P : Type} (env : Env) (u : User.t R P) : User.t R P :=
  updateOne u (incLoginAttempts env u).

(** The six ways in which [authenticate] refuses a credential, each with the
    message it answers. *)
Inductive AuthFailure (env : Env) (req : Request) (w : World) : string -> Prop :=
| MissingToken :
    truthy (extractToken req) = false ->
    AuthFailure env req w msgNoToken
| ExpiredToken : forall token,
    extractToken req = Some token -> token <> "" ->
    jwt_verify env token = Throw "TokenExpiredError" ->
    AuthFailure env req w msgExpired
| InvalidToken : forall token,
    extractToken req = Some token -> token <> "" ->
    jwt_verify env token = Throw "JsonWebTokenError" ->
    AuthFailure env req w msgInvalid
| PrincipalNotFound : forall token userId,
    extractToken req = Some token -> token <> "" ->
    jwt_verify env token = Normal userId ->
    findById (db w) userId = Normal None ->
    AuthFailure env req w msgUserNotFound
| AccountDeactivated : forall token userId doc,
    extractToken req = Some token -> token <> "" ->
    jwt_verify env token = Normal userId ->
    findById (db w) userId = Normal (Some doc) ->
    User.isActive doc = false ->
    AuthFailure env req w msgDeactivated
| AccountLocked : forall token userId doc,
    extractToken req = Some token -> token <> "" ->
    jwt_verify env token = Normal userId ->
    findById (db w) userId = Normal (Some doc) ->
    User.isActive doc = true ->
    isLocked env doc = true ->
    AuthFailure env req w msgLocked.

(** The e-mail address [login] looks the principal up with. *)
Definition sanitizedEmail (req : Request) : string :=
  trim (toLowerCase (getOr (bodyEmail req) "")).

(** The stored document of a user. *)
Definition storedUser (w : World) (id : ObjectId) : option UserDoc :=
  find (fun u => User._id u === id) (usersColl (db w)).

(** Two lists of references have no identifier in common. *)
Definition disjoint (l1 l2 : list ObjectId) : Prop :=
  forall x, In x l1 -> ~ In x l2.

(** A request spells an identifier the way [toString()] prints it. *)
Definition canonical (s : string) : bool :=
  isValidObjectId s && (castObjectId s === s).

(* ================================================================== *)
(** ** Sample documents *)

Definition postCreate : Permission.t :=
  Permission.mk "650000000000000000000001" "post.create" "post" "create".
Definition postRead : Permission.t :=
  Permission.mk "650000000000000000000002" "post.read" "post" "read".
Definition postDelete : Permission.t :=
  Permission.mk "65000000000000000000000a" "post.delete" "post" "delete".

Definition editorRole : LoadedRole :=
  Role.mk "650000000000000000000020" "Editor" [postCreate; postRead] false true.

Definition retiredRole : LoadedRole :=
  Role.mk "650000000000000000000021" "Retired" [postRead] false false.

Definition emptySuperAdmin : LoadedRole :=
  Role.mk "650000000000000000000022" "SuperAdmin" [] true true.

Definition loaded (role : option LoadedRole) (gs rs : list Permission.t) : LoadedUser :=
  User.mk "650000000000000000000010" "ann@example.org" None role
          (mkCustom gs rs) true None 0 None.

Definition requestOf (u : option LoadedUser) : Request :=
  mkReq None None "" None None None u None.

Definition emptyWorld : World := mkWorld (mkDb [] [] []) [].

(** An environment whose clock shows [t], with the thresholds left to their
    defaults and a verifier that knows one token. *)
Definition clock (t : Z) : Env :=
  mkEnv t None None
        (fun token => if token === "good" then Normal "650000000000000000000010"
                      else if token === "old" then Throw "TokenExpiredError"
                      else Throw "JsonWebTokenError")
        (fun candidate hash => false)
        (fun id => id).

Definition account (active : bool) (attempts : Z) (lock : option Z) : UserDoc :=
  User.mk "650000000000000000000010" "ann@example.org" (Some "$2a$12$digest")
          "650000000000000000000020" (mkCustom [] []) active None attempts lock.

Definition worldOf (users : list UserDoc) : World :=
  mkWorld (mkDb [postCreate; postRead; postDelete] [] users) [].

Definition bearer (token : string) : Request :=
  mkReq (Some ("Bearer " ++ token)%string) None "" None None None None None.

Definition loginRequest (email password : string) : Request :=
  mkReq None None "" (Some email) (Some password) None None None.

(** A stored user with the given override lists, and a grant or revoke
    request aimed at it. *)
Definition member (gs rs : list ObjectId) : UserDoc :=
  User.mk "650000000000000000000010" "ann@example.org" (Some "$2a$12$digest")
          "650000000000000000000020" (mkCustom gs rs) true None 0 None.

Definition overrideRequest (perms : list string) : Request :=
  mkReq None None "650000000000000000000010" None None (Some perms) None None.

(** The world after a handler has run. *)
Definition after (h : Middleware) (req : Request) (w : World) : World :=
  snd (h req w).

(* ================================================================== *)
(** ** More of the models and of utils/validators.js *)

Definition withPermissions {P : Type} (r : Role.t P) (ps : list P) : Role.t P :=
  Role.mk (Role._id r) (Role.name r) ps (Role.isSystemRole r) (Role.isActive r).

(** [roleSchema.methods.hasPermission], on a role whose permissions are
    populated: the argument may be a name or an id. *)
Definition roleHasPermission (r : LoadedRole) (permissionName : string) : bool :=
  existsb (fun permission =>
             (Permission.name permission === permissionName)
             || (toString (Permission._id permission) === permissionName))
          (Role.permissions r).

(** [roleSchema.methods.addPermissions]: the role that is saved. *)
Definition addPermissions (r : RoleDoc) (permissionIds : list ObjectId) : RoleDoc :=
  let newPermissions :=
    filter (fun id =>
              negb (existsb (fun existingId => toString existingId === toString id)
                            (Role.permissions r)))
           permissionIds in
  withPermissions r (Role.permissions r ++ newPermissions)%list.

(** [roleSchema.methods.removePermissions]: the role that is saved. *)
Definition removePermissions (r : RoleDoc) (permissionIds : list ObjectId) : RoleDoc :=
  withPermissions r
    (filter (fun id =>
               negb (existsb (fun removeId => toString removeId === toString id)
                             permissionIds))
            (Role.permissions r)).

Definition hasChar (f : ascii -> bool) (s : string) : bool :=
  existsb f (list_ascii_of_string s).

(** One of [!@#$%^&*]. *)
Definition isSpecial (c : ascii) : bool :=
  existsb (Ascii.eqb c) (list_ascii_of_string "!@#$%^&*").

Record PasswordValidation : Type := mkPasswordValidation {
  isValid : bool;
  errors : list string
}.

(** [validatePassword]: each failed test pushes its message. *)
Definition validatePassword (password : string) : PasswordValidation :=
  let errors0 : list string := [] in
  let errors1 :=
    if (String.length password <? 8)%nat
    then (errors0 ++ ["Password must be at least 8 characters long"])%list
    else errors0 in
  let errors2 :=
    if negb (hasChar (inRange 97 122) password)
    then (errors1 ++ ["Password must contain at least one lowercase letter"])%list
    else errors1 in
  let errors3 :=
    if negb (hasChar (inRange 65 90) password)
    then (errors2 ++ ["Password must contain at least one uppercase letter"])%list
    else errors2 in
  let errors4 :=
    if negb (hasChar (inRange 48 57) password)
    then (errors3 ++ ["Password must contain at least one number"])%list
    else errors3 in
  let errors5 :=
    if negb (hasChar isSpecial password)
    then (errors4 ++ ["Password must contain at least one special character (!@#$%^&*)"])%list
    else errors4 in
  mkPasswordValidation (List.length errors5 =? 0)%nat errors5.

(** [/^[a-z]+\.[a-z]+$/.test(permissionName)] *)
Definition isValidPermissionName (permissionName : string) : bool :=
  match split "."%char permissionName with
  | [resource; action] =>
      negb (resource === "") && negb (action === "")
      && forallb (inRange 97 122) (list_ascii_of_string resource)
      && forallb (inRange 97 122) (list_ascii_of_string action)
  | _ => false
  end.

Record Pagination : Type := mkPagination {
  page : Z;
  limit : Z;
  skip : Z
}.

(** [validatePagination]; an argument is given by what [parseInt] reads
    from it, [None] for [NaN].  The numbers are integers here and doubles in
    the code: the result is the code's as long as the arguments and the
    product are safe integers ([isSafeInteger]). *)
Definition validatePagination (pageArg limitArg : option Z) : Pagination :=
  let validatedPage := Z.max 1 (orDefault pageArg 1) in
  let validatedLimit := Z.min 100 (Z.max 1 (orDefault limitArg 10)) in
  mkPagination validatedPage validatedLimit ((validatedPage - 1) * validatedLimit).

(** [validateSort]: the single key of the sort object and its direction. *)
Definition validateSort (sortBy sortOrder : string) (allowedFields : list string)
  : string * Z :=
  let validSortBy :=
    if (0 <? List.length allowedFields)%nat && negb (includes allowedFields sortBy)
    then match allowedFields with
         | first :: _ => first
         | [] => sortBy
         end
    else sortBy in
  let validSortOrder :=
    if includes ["asc"; "desc"] (toLowerCase sortOrder)
    then toLowerCase sortOrder
    else "desc" in
  (validSortBy, if validSortOrder === "asc" then 1 else -1).

(** The permissions of the stored role of a user, none when the reference
    dangles. *)
Definition storedRolePermissions (d : Database) (doc : UserDoc) : list ObjectId :=
  match find (fun r => Role._id r === User.role doc) (rolesColl d) with
  | Some r => Role.permissions r
  | None => []
  end.

Definition sampleRole : RoleDoc :=
  Role.mk "650000000000000000000020" "Editor"
          ["650000000000000000000001"; "650000000000000000000002"] false true.

(* ================================================================== *)
(** ** More of the middleware *)

(** middleware/rbac.js: the three ready-made permission policies. *)
Definition canManageUsers : Middleware :=
  requirePermissions (Many ["user.create"; "user.update"; "user.delete"])
    (mkOptions (Some false) None
               (Some "Access denied. User management permissions required.")).

Definition canManageRoles : Middleware :=
  requirePermissions (Many ["role.create"; "role.update"; "role.delete"])
    (mkOptions (Some false) None
               (Some "Access denied. Role management permissions required.")).

Definition canManagePermissions : Middleware :=
  requirePermissions (Many ["permission.create"; "permission.update"; "permission.delete"])
    (mkOptions (Some false) None
               (Some "Access denied. Permission management requires SuperAdmin privileges.")).

(** What [requireRoles] does with a request; its refusal of a role carries
    the role of the user and the allowed roles. *)
Inductive RolesOutcome : Type :=
| RolesNext (req : Request)
| RolesSent (r : Response)
| RolesDenied (message : string) (userRole : string) (allowedRoles : list string).

(** middleware/rbac.js: [requireRoles] *)
Definition requireRoles (allowedRoles : Required) : Request -> M RolesOutcome :=
  let roles :=
    match allowedRoles with
    | Many rs => rs
    | One r => [r]
    end in
  fun req =>
    match user req with
    | None => ret (RolesSent (mkResponse 401 false "Authentication required." NoExtra))
    | Some u =>
        match User.role u with
        | None =>
            ret (RolesSent (mkResponse 403 false "Access denied. No role assigned." NoExtra))
        | Some role =>
            if negb (includes roles (Role.name role))
            then ret (RolesDenied
                        ("Access denied. Required role(s): " ++ join ", " roles)%string
                        (Role.name role) roles)
            else ret (RolesNext req)
        end
    end.

(** [req.requireOwnershipCheck] *)
Record OwnershipCheck : Type := mkOwnershipCheck {
  resourceField : string;
  userId : ObjectId;
  resourceId : string
}.

(** The request as [requireOwnershipOrPermission] reads it: the places a
    resource id may come from, each of which may be absent. *)
Record ResourceRequest : Type := mkResourceRequest {
  base : Request;
  paramsIdOpt : option string;       (* req.params.id *)
  paramsPostId : option string;      (* req.params.postId *)
  bodyId : option string;            (* req.body.id *)
  requireOwnershipCheck : option OwnershipCheck
}.

Inductive ResourceOutcome : Type :=
| ResourceNext (req : ResourceRequest)
| ResourceSent (r : Response).

(** [a || b] on values that may be absent or empty. *)
Definition orElse (a b : option string) : option string :=
  if truthy a then a else b.

(** middleware/rbac.js: [requireOwnershipOrPermission] *)
Definition requireOwnershipOrPermission (resourceField : string)
           (adminPermissions : list string) : ResourceRequest -> M ResourceOutcome :=
  fun req =>
    match user (base req) with
    | None => ret (ResourceSent (mkResponse 401 false "Authentication required." NoExtra))
    | Some u =>
        if isSuperAdmin u then ret (ResourceNext req)
        else
          let ownership :=
            let resourceId :=
              orElse (orElse (paramsIdOpt req) (paramsPostId req)) (bodyId req) in
            if negb (truthy resourceId)
            then ret (ResourceSent (mkResponse 400 false "Resource ID is required." NoExtra))
            else ret (ResourceNext
                        (mkResourceRequest (base req) (paramsIdOpt req) (paramsPostId req)
                           (bodyId req)
                           (Some (mkOwnershipCheck resourceField (User._id u)
                                    (getOr resourceId ""))))) in
          if (0 <? List.length adminPermissions)%nat
          then
            c <- awaitGetAllPermissions u ;;
            match c with
            | Throw _ =>
                ret (ResourceSent
                       (mkResponse 500 false
                          "Internal server error during ownership verification." NoExtra))
            | Normal userPermissions =>
                let userPermissionNames := map Permission.name userPermissions in
                let hasAdminPermission :=
                  existsb (fun permission => includes userPermissionNames permission)
                          adminPermissions in
                if hasAdminPermission then ret (ResourceNext req) else ownership
            end
          else ownership
    end.

(** middleware/auth.js: [requireSuperAdmin] *)
Definition requireSuperAdmin : Middleware :=
  fun req =>
    match user req with
    | None => ret (Sent (mkResponse 401 false "Authentication required." NoExtra))
    | Some u =>
        if match User.role u with
           | None => true
           | Some role => negb (Role.name role === "SuperAdmin")
           end
        then ret (Sent (mkResponse 403 false
                          "Access denied. SuperAdmin privileges required." NoExtra))
        else ret (Next req)
    end.

(** middleware/auth.js: [optionalAuth].  The password is not selected, so
    the user attached carries none. *)
Definition optionalAuth (env : Env) : Middleware :=
  fun req =>
    let token := extractToken req in
    if truthy token
    then
      match jwt_verify env (getOr token "") with
      | Throw _ => ret (Next req)
      | Normal userId =>
          d <- readDb ;;
          match findById d userId with
          | Throw _ => ret (Next req)
          | Normal None => ret (Next req)
          | Normal (Some doc) =>
              let user := withoutPassword (populateUser d doc) in
              if User.isActive user && negb (isLocked env user)
              then ret (Next (withUser req user))
              else ret (Next req)
          end
      end
    else ret (Next req).

(** routes/userRoutes.js: [router.use(authenticate)], then the policy, then
    the handler. *)
Definition userManagementRoute (env : Env) (handler : Middleware) : list Middleware :=
  [authenticate env; canManageUsers; handler].

(** The principal may manage users: the bypass applies or one of the three
    user management permissions is effective. *)
Definition managesUsers (u : LoadedUser) : Prop :=
  isSuperAdmin u = true
  \/ exists p, In p ["user.create"; "user.update"; "user.delete"]
               /\ In p (effectiveNames u).

(* ================================================================== *)
(** ** More of the controllers *)

(** The inputs of [login] pass its two checks. *)
Definition loginInputsOk (req : Request) : bool :=
  truthy (bodyEmail req) && truthy (bodyPassword req)
  && isValidEmail (getOr (bodyEmail req) "").

(** [asyncHandler] for a handler that reads more of the request. *)
Definition asyncHandlerOf {Q : Type} (fn : Q -> M (Completion Response)) : Q -> M Outcome :=
  fun req =>
    c <- fn req ;;
    match c with
    | Normal r => ret (Sent r)
    | Throw name => ret (NextError name)
    end.

(** The first document whose key is [id], replaced or removed. *)
Fixpoint updateFirstBy {A : Type} (key : A -> ObjectId) (id : ObjectId) (f : A -> A)
         (l : list A) : list A :=
  match l with
  | [] => []
  | a :: r => if key a === id then f a :: r else a :: updateFirstBy key id f r
  end.

Fixpoint removeFirstBy {A : Type} (key : A -> ObjectId) (id : ObjectId) (l : list A)
  : list A :=
  match l with
  | [] => []
  | a :: r => if key a === id then r else a :: removeFirstBy key id r
  end.

(** [Role.findById(id)] *)
Definition findRoleById (d : Database) (id : string) : Completion (option RoleDoc) :=
  if isValidObjectId id
  then Normal (find (fun r => Role._id r === castObjectId id) (rolesColl d))
  else Throw "CastError".

(** [.populate('role', 'name ...')] on a stored user: the role document, or
    [null]. *)
Definition roleOf (d : Database) (u : UserDoc) : option RoleDoc :=
  find (fun r => Role._id r === User.role u) (rolesColl d).

Definition withRole (u : UserDoc) (rid : ObjectId) : UserDoc :=
  User.mk (User._id u) (User.email u) (User.password u) rid
    (User.customPermissions u) (User.isActive u) (User.lastLogin u)
    (User.loginAttempts u) (User.lockUntil u).

(** [req.user.role.name !== 'SuperAdmin']; reading [role] of an absent user
    or [name] of an absent role throws. *)
Definition requesterIsNotSuperAdmin (req : Request) : Completion bool :=
  match user req with
  | None => Throw "TypeError"
  | Some requester =>
      match User.role requester with
      | None => Throw "TypeError"
      | Some role => Normal (negb (Role.name role === "SuperAdmin"))
      end
  end.

(** userController.js: [removeCustomPermissions] *)
Definition removeCustomPermissions : Middleware :=
  asyncHandler (fun req =>
    let id := paramsId req in
    if negb (isValidObjectId id)
    then ret (Normal (sendErrorResponse 400 "Invalid user ID"))
    else
      match bodyPermissions req with
      | None => ret (Normal (sendErrorResponse 400 "Permissions array is required"))
      | Some permissions =>
          if (List.length permissions =? 0)%nat
          then ret (Normal (sendErrorResponse 400 "Permissions array is required"))
          else
            d <- readDb ;;
            match findById d id with
            | Throw name => ret (Throw name)
            | Normal None => ret (Normal (sendErrorResponse 404 "User not found"))
            | Normal (Some user) =>
                let cp := User.customPermissions user in
                let granted' :=
                  filter (fun permId => negb (includes permissions (toString permId)))
                         (granted cp) in
                let revoked' :=
                  filter (fun permId => negb (includes permissions (toString permId)))
                         (revoked cp) in
                let cp' := mkCustom granted' revoked' in
                awaitSave user (fun stored => withCustomPermissions stored cp') ;;;
                ret (Normal (sendSuccessResponse 200
                               (DataUser (withCustomPermissions user cp'))
                               "Custom permissions removed successfully"))
            end
      end).

(** The request of [assignRole]: [req.body.roleId] besides the rest. *)
Record AssignRoleRequest : Type := mkAssignRoleRequest {
  assignBase : Request;
  bodyRoleId : option string
}.

(** [isValidObjectId] of a body field that may be absent: the regular
    expression is then tested against "undefined". *)
Definition isValidObjectIdOpt (o : option string) : bool :=
  match o with
  | Some s => isValidObjectId s
  | None => false
  end.

(** userController.js: [assignRole].  The notification e-mail is sent inside
    a try/catch that only logs, and is left out. *)
Definition assignRole : AssignRoleRequest -> M Outcome :=
  asyncHandlerOf (fun areq =>
    let req := assignBase areq in
    let id := paramsId req in
    let roleId := bodyRoleId areq in
    if negb (isValidObjectId id) || negb (isValidObjectIdOpt roleId)
    then ret (Normal (sendErrorResponse 400 "Invalid user ID or role ID"))
    else
      d <- readDb ;;
      match findById d id, findRoleById d (getOr roleId "") with
      | Throw name, _ => ret (Throw name)
      | _, Throw name => ret (Throw name)
      | Normal None, _ => ret (Normal (sendErrorResponse 404 "User not found"))
      | Normal (Some _), Normal None =>
          ret (Normal (sendErrorResponse 400 "Role not found"))
      | Normal (Some user), Normal (Some role) =>
          let assign :=
            let oldRole := roleOf d user in
            let user' := withRole user (castObjectId (getOr roleId "")) in
            awaitSave user (fun stored => withRole stored (castObjectId (getOr roleId ""))) ;;;
            match oldRole with
            | None => ret (Throw "TypeError")
            | Some old =>
                ret (Normal (sendSuccessResponse 200 (DataUser user')
                               ("Role assigned successfully. Changed from "
                                  ++ Role.name old ++ " to " ++ Role.name role)%string))
            end in
          if Role.name role === "SuperAdmin"
          then
            match requesterIsNotSuperAdmin req with
            | Throw name => ret (Throw name)
            | Normal true =>
                ret (Normal (sendErrorResponse 403
                               "Only SuperAdmin can assign SuperAdmin role"))
            | Normal false => assign
            end
          else assign
      end).

(** userController.js: [deleteUser] *)
Definition deleteUser : Middleware :=
  asyncHandler (fun req =>
    let id := paramsId req in
    if negb (isValidObjectId id)
    then ret (Normal (sendErrorResponse 400 "Invalid user ID"))
    else
      match user req with
      | None => ret (Throw "TypeError")
      | Some requester =>
          if toString (User._id requester) === id
          then ret (Normal (sendErrorResponse 400 "You cannot delete your own account"))
          else
            d <- readDb ;;
            match findById d id with
            | Throw name => ret (Throw name)
            | Normal None => ret (Normal (sendErrorResponse 404 "User not found"))
            | Normal (Some target) =>
                match roleOf d target with
                | None => ret (Throw "TypeError")
                | Some targetRole =>
                    let delete :=
                      writeDb (fun d' =>
                                 mkDb (permissionsColl d') (rolesColl d')
                                      (removeFirstBy (@User._id _ _) (castObjectId id)
                                                     (usersColl d'))) ;;;
                      ret (Normal (sendSuccessResponse 200 NoExtra
                                     "User deleted successfully")) in
                    if Role.name targetRole === "SuperAdmin"
                    then
                      match requesterIsNotSuperAdmin req with
                      | Throw name => ret (Throw name)
                      | Normal true =>
                          ret (Normal (sendErrorResponse 403
                                         "Only SuperAdmin can delete other SuperAdmin accounts"))
                      | Normal false => delete
                      end
                    else delete
                end
            end
      end).

(** What a role handler sends besides [success] and [message]. *)
Inductive RoleData : Type :=
| NoRoleData
| RoleData_role (role : RoleDoc)
| RoleData_notFound (notFound : list string)
| RoleData_usersWithRole (users : list (ObjectId * string)).   (* id, email *)

(** What a role handler does: it throws or sends a response. *)
Definition RoleHandler : Type := Request -> M (Completion (Response * RoleData)).

Definition roleError (statusCode : Z) (msg : string) : Completion (Response * RoleData) :=
  Normal (sendErrorResponse statusCode msg, NoRoleData).

Definition saveRole (id : ObjectId) (f : RoleDoc -> RoleDoc) : M unit :=
  writeDb (fun d => mkDb (permissionsColl d)
                         (updateFirstBy (@Role._id _) id f (rolesColl d))
                         (usersColl d)).

(** roleController.js: [deleteRole] *)
Definition deleteRole : RoleHandler :=
  fun req =>
    let id := paramsId req in
    if negb (isValidObjectId id)
    then ret (roleError 400 "Invalid role ID")
    else
      d <- readDb ;;
      match findRoleById d id with
      | Throw name => ret (Throw name)
      | Normal None => ret (roleError 404 "Role not found")
      | Normal (Some role) =>
          if Role.isSystemRole role
          then ret (roleError 403 "System roles cannot be deleted")
          else
            (* User.find({ role: id }) *)
            let usersWithRole :=
              filter (fun u => User.role u === castObjectId id) (usersColl d) in
            if (0 <? List.length usersWithRole)%nat
            then ret (Normal
                        (sendErrorResponse 400
                           "Cannot delete role. It is assigned to one or more users.",
                         RoleData_usersWithRole
                           (map (fun u => (User._id u, User.email u)) usersWithRole)))
            else
              writeDb (fun d' =>
                         mkDb (permissionsColl d')
                              (removeFirstBy (@Role._id _) (castObjectId id) (rolesColl d'))
                              (usersColl d')) ;;;
              ret (Normal (sendSuccessResponse 200 NoExtra "Role deleted successfully",
                           NoRoleData))
      end.

(** [permissions.filter(id => !foundIds.includes(id))] for the ids that
    [Permission.find] did not return. *)
Definition notFoundIds (d : Database) (permissions : list string) : list string :=
  let foundIds := map (fun p => toString (Permission._id p))
                      (findPermissionsIn d permissions) in
  filter (fun id => negb (includes foundIds id)) permissions.

(** roleController.js: [addPermissionsToRole] *)
Definition addPermissionsToRole : RoleHandler :=
  fun req =>
    let id := paramsId req in
    if negb (isValidObjectId id)
    then ret (roleError 400 "Invalid role ID")
    else
      match bodyPermissions req with
      | None => ret (roleError 400 "Permissions array is required")
      | Some permissions =>
          if (List.length permissions =? 0)%nat
          then ret (roleError 400 "Permissions array is required")
          else if (0 <? List.length
                          (filter (fun permId => negb (isValidObjectId permId)) permissions))%nat
          then ret (roleError 400 "Invalid permission IDs provided")
          else
            d <- readDb ;;
            match findRoleById d id with
            | Throw name => ret (Throw name)
            | Normal None => ret (roleError 404 "Role not found")
            | Normal (Some role) =>
                let modify :=
                  let existingPermissions := findPermissionsIn d permissions in
                  if negb (List.length existingPermissions =? List.length permissions)%nat
                  then ret (Normal (sendErrorResponse 400 "Some permissions do not exist",
                                    RoleData_notFound (notFoundIds d permissions)))
                  else
                    let newPermissions :=
                      filter (fun permId =>
                                negb (existsb (fun existingId => toString existingId === permId)
                                              (Role.permissions role)))
                             permissions in
                    if (List.length newPermissions =? 0)%nat
                    then ret (roleError 400
                                "All specified permissions are already assigned to this role")
                    else
                      let permissions' :=
                        (Role.permissions role ++ map castObjectId newPermissions)%list in
                      saveRole (Role._id role) (fun stored => withPermissions stored permissions') ;;;
                      ret (Normal
                             (sendSuccessResponse 200 NoExtra
                                (showNat (List.length newPermissions)
                                   ++ " permissions added to role successfully")%string,
                              RoleData_role (withPermissions role permissions'))) in
                if Role.isSystemRole role
                then
                  match requesterIsNotSuperAdmin req with
                  | Throw name => ret (Throw name)
                  | Normal true =>
                      ret (roleError 403 "Only SuperAdmin can modify system roles")
                  | Normal false => modify
                  end
                else modify
            end
      end.

(** roleController.js: [removePermissionsFromRole] *)
Definition removePermissionsFromRole : RoleHandler :=
  fun req =>
    let id := paramsId req in
    if negb (isValidObjectId id)
    then ret (roleError 400 "Invalid role ID")
    else
      match bodyPermissions req with
      | None => ret (roleError 400 "Permissions array is required")
      | Some permissions =>
          if (List.length permissions =? 0)%nat
          then ret (roleError 400 "Permissions array is required")
          else
            d <- readDb ;;
            match findRoleById d id with
            | Throw name => ret (Throw name)
            | Normal None => ret (roleError 404 "Role not found")
            | Normal (Some role) =>
                let modify :=
                  let originalCount := List.length (Role.permissions role) in
                  let permissions' :=
                    filter (fun permId => negb (includes permissions (toString permId)))
                           (Role.permissions role) in
                  let removedCount := (originalCount - List.length permissions')%nat in
                  if (removedCount =? 0)%nat
                  then ret (roleError 400
                              "None of the specified permissions were found in this role")
                  else
                    saveRole (Role._id role) (fun stored => withPermissions stored permissions') ;;;
                    ret (Normal
                           (sendSuccessResponse 200 NoExtra
                              (showNat removedCount
                                 ++ " permissions removed from role successfully")%string,
                            RoleData_role (withPermissions role permissions'))) in
                if Role.isSystemRole role
                then
                  match requesterIsNotSuperAdmin req with
                  | Throw name => ret (Throw name)
                  | Normal true =>
                      ret (roleError 403 "Only SuperAdmin can modify system roles")
                  | Normal false => modify
                  end
                else modify
            end
      end.

(** The stored role with a given id. *)
Definition storedRole (w : World) (id : ObjectId) : option RoleDoc :=
  find (fun r => Role._id r === id) (rolesColl (db w)).

(** A request of an authenticated principal aimed at a document. *)
Definition requestBy (u : LoadedUser) (id : string) (perms : option (list string)) : Request :=
  mkReq None None id None None perms (Some u) None.

Definition systemRole : RoleDoc :=
  Role.mk "650000000000000000000022" "SuperAdmin" ["650000000000000000000001"] true true.

(** An environment like [clock] in which every password matches. *)
Definition lenientClock (t : Z) : Env :=
  mkEnv t None None (jwt_verify (clock t)) (fun candidate hash => true)
        (fun id => ("token-for-" ++ id)%string).

(** The required permissions as a list. *)
Definition requiredList (required : Required) : list string :=
  match required with
  | Many ps => ps
  | One p => [p]
  end.

(** Numbers are IEEE doubles in the code and integers here.  The two agree
    on the safe integers, on which the code's arithmetic is exact, and a
    Date holds at most 8.64e15 ms on either side of the epoch: Mongoose
    refuses to store any other number as [lockUntil]. *)
Definition MAX_SAFE_INTEGER : Z := 9007199254740991.

Definition isSafeInteger (n : Z) : bool :=
  (- MAX_SAFE_INTEGER <=? n) && (n <=? MAX_SAFE_INTEGER).

(** What [parseInt] has read is [NaN] or a safe integer. *)
Definition safeArgument (a : option Z) : bool :=
  match a with
  | Some n => isSafeInteger n
  | None => true
  end.

Definition MAX_DATE : Z := 8640000000000000.

Definition isValidDate (t : Z) : bool := (- MAX_DATE <=? t) && (t <=? MAX_DATE).

(** The lock time [Date.now() + lockTime * 60 * 1000] is computed exactly and
    is a Date. *)
Definition lockTimeInRange (env : Env) : bool :=
  isValidDate (now env)
  && isSafeInteger (orDefault (LOCKOUT_TIME env) 15 * 60 * 1000)
  && isValidDate (now env + orDefault (LOCKOUT_TIME env) 15 * 60 * 1000).


(** A small installation: two roles, an editor and an administrator. *)
Definition adminAccount : UserDoc :=
  User.mk "65000000000000000000000b" "root@example.org" (Some "$2a$12$digest")
          "650000000000000000000022" (mkCustom [] []) true None 0 None.

Definition office : World :=
  mkWorld (mkDb [postCreate; postRead; postDelete] [sampleRole; systemRole]
                [member [] []; adminAccount]) [].

Definition editor : LoadedUser := loaded (Some editorRole) [] [].

Definition administrator : LoadedUser :=
  User.mk "65000000000000000000000b" "root@example.org" None (Some emptySuperAdmin)
          (mkCustom [] []) true None 0 None.

Definition assignRequest (u : LoadedUser) (id roleId : string) : AssignRoleRequest :=
  mkAssignRoleRequest (requestBy u id None) (Some roleId).

(* ================================================================== *)
(** ** Permission resolver *)

Lemma samePermission_true (p q : Permission.t) :
  samePermission p q = true <-> Permission._id p = Permission._id q.
Proof. unfold samePermission, toString. apply String.eqb_eq. Qed.

Lemma existsb_samePermission (l : list Permission.t) (q : Permission.t) :
  existsb (fun p => samePermission p q) l = true <-> In (Permission._id q) (ids l).
Proof.
  unfold ids. rewrite existsb_exists, in_map_iff. split.
  - intros [p [Hin Hs]]. apply samePermission_true in Hs. now exists p.
  - intros [p [Hid Hin]]. exists p. split; [assumption|].
    now apply samePermission_true.
Qed.

(** The [forEach] that pushes the granted permissions not yet present. *)
Lemma pushGranted_ids (gs acc : list Permission.t) (x : ObjectId) :
  In x (ids (fold_left
               (fun acc permission =>
                  if negb (existsb (fun p => samePermission p permission) acc)
                  then (acc ++ [permission])%list else acc) gs acc))
  <-> In x (ids acc) \/ In x (ids gs).
Proof.
  revert acc. induction gs as [|g gs IH]; intros acc; simpl.
  - tauto.
  - rewrite IH. destruct (existsb (fun p => samePermission p g) acc) eqn:E; simpl.
    + apply existsb_samePermission in E. split.
      * intros [H|H]; auto.
      * intros [H|[H|H]]; auto. subst x. auto.
    + unfold ids. rewrite map_app, in_app_iff. simpl. tauto.
Qed.

Lemma pushGranted_elements (gs acc : list Permission.t) (p : Permission.t) :
  In p (fold_left
          (fun acc permission =>
             if negb (existsb (fun p => samePermission p permission) acc)
             then (acc ++ [permission])%list else acc) gs acc)
  -> In p acc \/ In p gs.
Proof.
  revert acc. induction gs as [|g gs IH]; intros acc; simpl.
  - auto.
  - intros H. apply IH in H. destruct H as [H|H]; [|auto].
    destruct (existsb (fun p => samePermission p g) acc); simpl in H; [auto|].
    apply in_app_iff in H. simpl in H. tauto.
Qed.

Lemma filter_ids (f : Permission.t -> bool) (P : ObjectId -> Prop)
      (l : list Permission.t) (x : ObjectId) :
  (forall p, f p = true <-> P (Permission._id p)) ->
  (In x (ids (filter f l)) <-> In x (ids l) /\ P x).
Proof.
  intros Hf. unfold ids. rewrite !in_map_iff. split.
  - intros [p [Hid Hin]]. apply filter_In in Hin. destruct Hin as [Hin Hp].
    subst x. split; [now exists p | now apply Hf].
  - intros [[p [Hid Hin]] Hx]. subst x. exists p. split; [reflexivity|].
    apply filter_In. split; [assumption | now apply Hf].
Qed.

Lemma notRevoked_spec (rs : list Permission.t) (p : Permission.t) :
  negb (existsb (fun r => samePermission r p) rs) = true
  <-> ~ In (Permission._id p) (ids rs).
Proof.
  rewrite negb_true_iff, <- not_true_iff_false. now rewrite existsb_samePermission.
Qed.

(** The resolver always returns, and what it returns is characterised by
    identifier. *)
Lemma getAllPermissions_ids (u : LoadedUser) :
  exists l,
    getAllPermissions u = Normal l /\
    forall x, In x (ids l) <->
              (In x (ids (rolePermissionsOf u))
               \/ In x (ids (granted (User.customPermissions u))))
              /\ ~ In x (ids (revoked (User.customPermissions u))).
Proof.
  unfold getAllPermissions. eexists. split; [reflexivity|].
  intros x.
  rewrite (filter_ids _ (fun y => ~ In y (ids (revoked (User.customPermissions u)))))
    by (intros p; apply notRevoked_spec).
  rewrite pushGranted_ids. unfold rolePermissionsOf. tauto.
Qed.

(** C1.  For a principal whose role, granted and revoked sets are loaded,
    [getAllPermissions] returns exactly (role.permissions U granted) \ revoked,
    read on identifiers: the union is formed first and the revoked
    permissions are removed from it, so a revoked permission is absent
    whether it comes from the role or from a grant. *)
Theorem getAllPermissions_union_minus_revoked :
  forall (u : LoadedUser) (r : LoadedRole),
    User.role u = Some r ->
    exists l,
      getAllPermissions u = Normal l /\
      (forall x, In x (ids l) <->
                 (In x (ids (Role.permissions r))
                  \/ In x (ids (granted (User.customPermissions u))))
                 /\ ~ In x (ids (revoked (User.customPermissions u)))) /\
      (forall p, In p (revoked (User.customPermissions u)) ->
                 ~ In (Permission._id p) (ids l)) /\
      (forall p, In p l ->
                 In p (Role.permissions r) \/ In p (granted (User.customPermissions u))).
Proof.
  intros u r Hr. destruct (getAllPermissions_ids u) as [l [Hl Hx]].
  exists l. split; [assumption|].
  assert (Hrole : rolePermissionsOf u = Role.permissions r)
    by (unfold rolePermissionsOf; now rewrite Hr).
  rewrite Hrole in Hx. split; [assumption|]. split.
  - intros p Hp Hin. apply Hx in Hin. destruct Hin as [_ Hn]. apply Hn.
    unfold ids. now apply in_map.
  - intros p Hp. unfold getAllPermissions in Hl. injection Hl as Hl. subst l.
    apply filter_In in Hp. destruct Hp as [Hp _].
    apply pushGranted_elements in Hp. now rewrite Hr in Hp.
Qed.

(** C1 at the Editor of the specification's scenario, with [post.delete]
    granted and [post.read] revoked. *)
Lemma getAllPermissions_union_minus_revoked_witness :
  exists l,
    getAllPermissions (loaded (Some editorRole) [postDelete] [postRead]) = Normal l /\
    (forall x, In x (ids l) <->
               (In x (ids [postCreate; postRead]) \/ In x (ids [postDelete]))
               /\ ~ In x (ids [postRead])) /\
    (forall p, In p [postRead] -> ~ In (Permission._id p) (ids l)) /\
    (forall p, In p l -> In p [postCreate; postRead] \/ In p [postDelete]).
Proof.
  exact (getAllPermissions_union_minus_revoked
           (loaded (Some editorRole) [postDelete] [postRead]) editorRole eq_refl).
Defined.

Example editor_scenario :
  getAllPermissions (loaded (Some editorRole) [postDelete] [])
  = Normal [postCreate; postRead; postDelete] /\
  getAllPermissions (loaded (Some editorRole) [postDelete] [postRead])
  = Normal [postCreate; postDelete].
Proof. split; reflexivity. Qed.

(** [hasPermission] is membership of the name in the resolved set. *)
Lemma hasPermission_effectiveNames (u : LoadedUser) (permissionName : string) :
  hasPermission u permissionName = Normal true
  <-> In permissionName (effectiveNames u).
Proof.
  unfold hasPermission, effectiveNames. destruct (getAllPermissions_ids u) as [l [Hl _]].
  rewrite Hl. rewrite in_map_iff. split.
  - intros H. injection H as H. apply existsb_exists in H.
    destruct H as [p [Hp Hn]]. apply String.eqb_eq in Hn. now exists p.
  - intros [p [Hn Hp]]. f_equal. apply existsb_exists. exists p.
    split; [assumption|]. rewrite Hn. apply String.eqb_refl.
Qed.

(** C4 (as stated, refuted).  A user whose role reference did not resolve,
    holding one granted permission: the resolver returns that permission; no
    error is thrown. *)
Lemma getAllPermissions_missing_role_counterexample :
  User.role (loaded None [postRead] []) = None /\
  getAllPermissions (loaded None [postRead] []) = Normal [postRead] /\
  ~ (exists name, getAllPermissions (loaded None [postRead] []) = Throw name).
Proof.
  split; [reflexivity|]. split; [reflexivity|].
  intros [name H]. discriminate H.
Qed.

(** C4 (amended).  For a principal whose role is not loaded the resolver
    throws nothing: it takes the role's permissions to be empty and returns
    granted \ revoked. *)
Theorem getAllPermissions_missing_role :
  forall u : LoadedUser,
    User.role u = None ->
    exists l,
      getAllPermissions u = Normal l /\
      forall x, In x (ids l) <->
                In x (ids (granted (User.customPermissions u)))
                /\ ~ In x (ids (revoked (User.customPermissions u))).
Proof.
  intros u Hr. destruct (getAllPermissions_ids u) as [l [Hl Hx]].
  exists l. split; [assumption|]. intros x. rewrite Hx.
  unfold rolePermissionsOf. rewrite Hr. simpl. tauto.
Qed.

Lemma getAllPermissions_missing_role_witness :
  exists l,
    getAllPermissions (loaded None [postRead; postDelete] [postDelete]) = Normal l /\
    forall x, In x (ids l) <->
              In x (ids [postRead; postDelete]) /\ ~ In x (ids [postDelete]).
Proof.
  exact (getAllPermissions_missing_role
           (loaded None [postRead; postDelete] [postDelete]) eq_refl).
Defined.

(** Populating a role does not look at its [isActive] flag. *)
Lemma populatePermissions_withRolesIsActive (d : Database) (f : RoleDoc -> bool)
      (l : list ObjectId) :
  populatePermissions (withRolesIsActive d f) l = populatePermissions d l.
Proof. reflexivity. Qed.

Lemma populateRole_withRolesIsActive (d : Database) (f : RoleDoc -> bool)
      (rid : ObjectId) :
  option_map (@Role.permissions _) (populateRole (withRolesIsActive d f) rid)
  = option_map (@Role.permissions _) (populateRole d rid).
Proof.
  unfold populateRole, withRolesIsActive. simpl.
  induction (rolesColl d) as [|r rs IH]; simpl; [reflexivity|].
  destruct (Role._id r === rid); simpl; [reflexivity | exact IH].
Qed.

(** C9.  The [isActive] flag of the role does not affect resolution: two
    loaded principals that differ only in that flag resolve to the same
    permissions, and so do the principals loaded from two stores that differ
    only in the [isActive] flags of their roles; an inactive role contributes
    all of its permissions. *)
Theorem getAllPermissions_ignores_role_isActive :
  (forall (u : LoadedUser) (b : bool),
      getAllPermissions (withRoleIsActive u b) = getAllPermissions u) /\
  (forall (d : Database) (f : RoleDoc -> bool) (doc : UserDoc),
      getAllPermissions (populateUser (withRolesIsActive d f) doc)
      = getAllPermissions (populateUser d doc)) /\
  (forall (u : LoadedUser) (r : LoadedRole) (p : Permission.t),
      User.role u = Some r -> Role.isActive r = false ->
      In p (Role.permissions r) ->
      ~ In (Permission._id p) (ids (revoked (User.customPermissions u))) ->
      exists l, getAllPermissions u = Normal l /\ In (Permission._id p) (ids l)).
Proof.
  split; [|split].
  - intros u b. unfold getAllPermissions, withRoleIsActive. simpl.
    destruct (User.role u); reflexivity.
  - intros d f doc. unfold getAllPermissions, populateUser. simpl.
    pose proof (populateRole_withRolesIsActive d f (User.role doc)) as H.
    destruct (populateRole (withRolesIsActive d f) (User.role doc)) as [r1|];
      destruct (populateRole d (User.role doc)) as [r2|];
      simpl in H; try discriminate H.
    + injection H as H. now rewrite H.
    + reflexivity.
  - intros u r p Hr _ Hp Hn. destruct (getAllPermissions_ids u) as [l [Hl Hx]].
    exists l. split; [assumption|]. apply Hx. split; [|assumption].
    left. unfold rolePermissionsOf. rewrite Hr. unfold ids. now apply in_map.
Qed.

Lemma getAllPermissions_ignores_role_isActive_witness :
  exists l,
    getAllPermissions (loaded (Some retiredRole) [] []) = Normal l /\
    In (Permission._id postRead) (ids l).
Proof.
  refine (proj2 (proj2 getAllPermissions_ignores_role_isActive)
            (loaded (Some retiredRole) [] []) retiredRole postRead _ _ _ _).
  - reflexivity.
  - reflexivity.
  - simpl. left. reflexivity.
  - simpl. tauto.
Defined.

(* ================================================================== *)
(** ** Permission-policy middleware *)

Lemma includes_In (l : list string) (x : string) :
  includes l x = true <-> In x l.
Proof.
  unfold includes. rewrite existsb_exists. split.
  - intros [y [Hin Hy]]. apply String.eqb_eq in Hy. now subst y.
  - intros Hin. exists x. split; [assumption | apply String.eqb_refl].
Qed.

(** C2.  An authenticated principal whose role is named 'SuperAdmin' is
    admitted by [requirePermissions] when [allowSuperAdmin] is left at its
    default: whatever the required permissions, the other options and the
    principal's own permissions, the request is passed on unchanged and the
    world is unchanged, so [getAllPermissions] has not been invoked. *)
Theorem requirePermissions_superadmin_bypass :
  forall (required : Required) (options : Options) (req : Request) (w : World)
         (u : LoadedUser) (r : LoadedRole),
    user req = Some u ->
    User.role u = Some r ->
    Role.name r = "SuperAdmin" ->
    allowSuperAdmin options = None ->
    requirePermissions required options req w = (Next req, w) /\
    calls (snd (requirePermissions required options req w)) = calls w.
Proof.
  intros required options req w u r Hu Hr Hn Ha.
  assert (H : requirePermissions required options req w = (Next req, w)).
  { unfold requirePermissions. rewrite Hu, Ha. unfold isSuperAdmin.
    rewrite Hr, Hn. reflexivity. }
  split; [exact H | now rewrite H].
Qed.

Lemma requirePermissions_superadmin_bypass_witness :
  requirePermissions (Many ["post.create"; "post.delete"])
    (mkOptions (Some true) None None)
    (requestOf (Some (loaded (Some emptySuperAdmin) [] []))) emptyWorld
  = (Next (requestOf (Some (loaded (Some emptySuperAdmin) [] []))), emptyWorld) /\
  calls (snd (requirePermissions (Many ["post.create"; "post.delete"])
                (mkOptions (Some true) None None)
                (requestOf (Some (loaded (Some emptySuperAdmin) [] []))) emptyWorld))
  = calls emptyWorld.
Proof.
  exact (requirePermissions_superadmin_bypass
           (Many ["post.create"; "post.delete"]) (mkOptions (Some true) None None)
           (requestOf (Some (loaded (Some emptySuperAdmin) [] []))) emptyWorld
           (loaded (Some emptySuperAdmin) [] []) emptySuperAdmin
           eq_refl eq_refl eq_refl eq_refl).
Defined.

(** What the middleware does once the bypass is out of the way. *)
Lemma requirePermissions_no_bypass
      (required : Required) (options : Options) (req : Request) (w : World)
      (u : LoadedUser) :
  user req = Some u ->
  bypasses options u = false ->
  requirePermissions required options req w =
  (let permissions := match required with Many ps => ps | One p => [p] end in
   let names := effectiveNames u in
   if (if getOr (requireAll options) false
       then forallb (includes names) permissions
       else existsb (includes names) permissions)
   then Next (withPermissionCheck req (mkCheck permissions names true))
   else Sent (mkResponse 403 false
                (deniedMessage (customErrorMessage options) permissions)
                (DeniedExtra permissions names)),
   mkWorld (db w) (calls w ++ [CallGetAllPermissions (User._id u)])).
Proof.
  intros Hu Hb. unfold bypasses in Hb. unfold requirePermissions.
  rewrite Hu, Hb. unfold awaitGetAllPermissions, bind, invoke, ret, effectiveNames.
  unfold getAllPermissions. cbv zeta.
  match goal with
  | |- context [if negb (if ?c then ?x else ?y) then _ else _] =>
      destruct c; [destruct x | destruct y]; reflexivity
  end.
Qed.

(** C5 (as stated, refuted).  A SuperAdmin without any permission is admitted
    under [requireAll = true], and under the default any-of policy, although
    neither required permission is in its effective set. *)
Lemma requirePermissions_pair_counterexample :
  user (requestOf (Some (loaded (Some emptySuperAdmin) [] [])))
  = Some (loaded (Some emptySuperAdmin) [] []) /\
  effectiveNames (loaded (Some emptySuperAdmin) [] []) = [] /\
  admitted (fst (requirePermissions (Many ["post.create"; "post.delete"])
                   (mkOptions (Some true) None None)
                   (requestOf (Some (loaded (Some emptySuperAdmin) [] [])))
                   emptyWorld)) = true /\
  admitted (fst (requirePermissions (Many ["post.create"; "post.delete"])
                   noOptions
                   (requestOf (Some (loaded (Some emptySuperAdmin) [] [])))
                   emptyWorld)) = true /\
  ~ (admitted (fst (requirePermissions (Many ["post.create"; "post.delete"])
                      (mkOptions (Some true) None None)
                      (requestOf (Some (loaded (Some emptySuperAdmin) [] [])))
                      emptyWorld)) = true
     <-> In "post.create" (effectiveNames (loaded (Some emptySuperAdmin) [] []))
         /\ In "post.delete" (effectiveNames (loaded (Some emptySuperAdmin) [] []))).
Proof.
  repeat split; try reflexivity.
  intros [H _]. destruct (H eq_refl) as [[] _].
Qed.

(** C5 (amended).  For an authenticated principal to whom the SuperAdmin
    bypass does not apply and the required list {a, b}: with
    [requireAll = true] the middleware admits iff both a and b are names of
    effective permissions, otherwise (the default) iff at least one is; a
    refusal is a 403 whose body carries the required permissions, among them
    every missing one, and the names of the resolved permissions, and whose
    default message spells the required permissions out. *)
Theorem requirePermissions_pair :
  forall (options : Options) (req : Request) (w : World) (u : LoadedUser)
         (a b : string),
    user req = Some u ->
    bypasses options u = false ->
    (getOr (requireAll options) false = true ->
     (admitted (fst (requirePermissions (Many [a; b]) options req w)) = true
      <-> In a (effectiveNames u) /\ In b (effectiveNames u))) /\
    (getOr (requireAll options) false = false ->
     (admitted (fst (requirePermissions (Many [a; b]) options req w)) = true
      <-> In a (effectiveNames u) \/ In b (effectiveNames u))) /\
    (admitted (fst (requirePermissions (Many [a; b]) options req w)) = false ->
     fst (requirePermissions (Many [a; b]) options req w)
     = Sent (mkResponse 403 false
               (deniedMessage (customErrorMessage options) [a; b])
               (DeniedExtra [a; b] (effectiveNames u)))
     /\ incl (filter (fun p => negb (includes (effectiveNames u) p)) [a; b]) [a; b]
     /\ deniedMessage None [a; b]
        = ("Access denied. Required permissions: " ++ a ++ ", " ++ b)%string).
Proof.
  intros options req w u a b Hu Hb.
  rewrite (requirePermissions_no_bypass (Many [a; b]) options req w u Hu Hb).
  cbv zeta. simpl fst.
  pose proof (includes_In (effectiveNames u) a) as Ha.
  pose proof (includes_In (effectiveNames u) b) as Hb'.
  assert (Hincl : incl (filter (fun p => negb (includes (effectiveNames u) p)) [a; b])
                       [a; b]) by (intros p Hp; now apply filter_In in Hp).
  split; [|split].
  - intros Hall. rewrite Hall. simpl. rewrite andb_true_r.
    rewrite <- Ha, <- Hb', <- andb_true_iff.
    destruct (includes (effectiveNames u) a && includes (effectiveNames u) b);
      simpl; split; auto; discriminate.
  - intros Hany. rewrite Hany. simpl. rewrite orb_false_r.
    rewrite <- Ha, <- Hb', <- orb_true_iff.
    destruct (includes (effectiveNames u) a || includes (effectiveNames u) b);
      simpl; split; auto; discriminate.
  - intros Hden.
    match type of Hden with
    | admitted (if ?c then _ else _) = false => destruct c
    end; [discriminate Hden|].
    split; [reflexivity|]. split; [exact Hincl | reflexivity].
Qed.

Lemma requirePermissions_pair_witness :
  (getOr (requireAll (mkOptions (Some true) None None)) false = true ->
   (admitted (fst (requirePermissions (Many ["post.create"; "post.delete"])
                     (mkOptions (Some true) None None)
                     (requestOf (Some (loaded (Some editorRole) [postDelete] [])))
                     emptyWorld)) = true
    <-> In "post.create" (effectiveNames (loaded (Some editorRole) [postDelete] []))
        /\ In "post.delete" (effectiveNames (loaded (Some editorRole) [postDelete] [])))) /\
  (getOr (requireAll (mkOptions (Some true) None None)) false = false ->
   (admitted (fst (requirePermissions (Many ["post.create"; "post.delete"])
                     (mkOptions (Some true) None None)
                     (requestOf (Some (loaded (Some editorRole) [postDelete] [])))
                     emptyWorld)) = true
    <-> In "post.create" (effectiveNames (loaded (Some editorRole) [postDelete] []))
        \/ In "post.delete" (effectiveNames (loaded (Some editorRole) [postDelete] [])))) /\
  (admitted (fst (requirePermissions (Many ["post.create"; "post.delete"])
                    (mkOptions (Some true) None None)
                    (requestOf (Some (loaded (Some editorRole) [postDelete] [])))
                    emptyWorld)) = false ->
   fst (requirePermissions (Many ["post.create"; "post.delete"])
          (mkOptions (Some true) None None)
          (requestOf (Some (loaded (Some editorRole) [postDelete] [])))
          emptyWorld)
   = Sent (mkResponse 403 false
             (deniedMessage (customErrorMessage (mkOptions (Some true) None None))
                ["post.create"; "post.delete"])
             (DeniedExtra ["post.create"; "post.delete"]
                (effectiveNames (loaded (Some editorRole) [postDelete] []))))
   /\ incl (filter (fun p => negb (includes
                                    (effectiveNames (loaded (Some editorRole) [postDelete] []))
                                    p))
              ["post.create"; "post.delete"])
           ["post.create"; "post.delete"]
   /\ deniedMessage None ["post.create"; "post.delete"]
      = ("Access denied. Required permissions: " ++ "post.create" ++ ", " ++ "post.delete")%string).
Proof.
  exact (requirePermissions_pair (mkOptions (Some true) None None)
           (requestOf (Some (loaded (Some editorRole) [postDelete] []))) emptyWorld
           (loaded (Some editorRole) [postDelete] [])
           "post.create" "post.delete" eq_refl eq_refl).
Defined.

Example requirePermissions_denies_editor :
  fst (requirePermissions (Many ["post.create"; "user.delete"])
         (mkOptions (Some true) None None)
         (requestOf (Some (loaded (Some editorRole) [] []))) emptyWorld)
  = Sent (mkResponse 403 false
            "Access denied. Required permissions: post.create, user.delete"
            (DeniedExtra ["post.create"; "user.delete"] ["post.create"; "post.read"])).
Proof. reflexivity. Qed.

(* ================================================================== *)
(** ** Account security state machine *)

(** A failure after the lock has run out ([lockUntil] before now) starts a
    fresh window: one attempt, no lock. *)
Lemma incLoginAttempts_after_expiry :
  forall (env : Env) (u : UserDoc) (t : Z),
    User.lockUntil u = Some t ->
    t < now env ->
    User.loginAttempts (afterFailedLogin env u) = 1 /\
    User.lockUntil (afterFailedLogin env u) = None.
Proof.
  intros env u t Hl Ht. unfold afterFailedLogin, incLoginAttempts. rewrite Hl.
  apply Z.ltb_lt in Ht. rewrite Ht. simpl. split; reflexivity.
Qed.

(** A failure of an account that has no lock counts one more attempt, and
    locks the account when the threshold is reached. *)
Lemma incLoginAttempts_without_lock :
  forall (env : Env) (u : UserDoc),
    User.lockUntil u = None ->
    User.loginAttempts (afterFailedLogin env u) = User.loginAttempts u + 1 /\
    User.lockUntil (afterFailedLogin env u)
    = if orDefault (MAX_LOGIN_ATTEMPTS env) 5 <=? User.loginAttempts u + 1
      then Some (now env + orDefault (LOCKOUT_TIME env) 15 * 60 * 1000)
      else None.
Proof.
  intros env u Hl. unfold afterFailedLogin, incLoginAttempts, isLocked.
  rewrite Hl. simpl. rewrite andb_true_r.
  destruct (orDefault (MAX_LOGIN_ATTEMPTS env) 5 <=? User.loginAttempts u + 1);
    simpl; rewrite ?Hl; split; reflexivity.
Qed.

Lemma failure_on_default_clock :
  forall (t n : Z) (u : UserDoc),
    User.loginAttempts u = n ->
    User.lockUntil u = None ->
    User.loginAttempts (afterFailedLogin (clock t) u) = n + 1 /\
    User.lockUntil (afterFailedLogin (clock t) u)
    = if 5 <=? n + 1 then Some (t + 900000) else None.
Proof.
  intros t n u Ha Hl.
  destruct (incLoginAttempts_without_lock (clock t) u Hl) as [H1 H2].
  rewrite H1, H2, Ha. split; reflexivity.
Qed.

(** With the default threshold, four failures in a row leave a fresh account
    unlocked with four attempts counted, and the fifth locks it for fifteen
    minutes, whatever the times of the failures. *)
Lemma five_failures_lock :
  forall (t1 t2 t3 t4 t5 : Z) (u : UserDoc),
    User.loginAttempts u = 0 ->
    User.lockUntil u = None ->
    let u4 := afterFailedLogin (clock t4) (afterFailedLogin (clock t3)
                (afterFailedLogin (clock t2) (afterFailedLogin (clock t1) u))) in
    User.loginAttempts u4 = 4 /\ User.lockUntil u4 = None /\
    isLocked (clock t5) u4 = false /\
    User.loginAttempts (afterFailedLogin (clock t5) u4) = 5 /\
    User.lockUntil (afterFailedLogin (clock t5) u4) = Some (t5 + 900000) /\
    isLocked (clock t5) (afterFailedLogin (clock t5) u4) = true.
Proof.
  intros t1 t2 t3 t4 t5 u Ha Hl. cbv zeta.
  destruct (failure_on_default_clock t1 0 u Ha Hl) as [A1 L1]. simpl in A1, L1.
  destruct (failure_on_default_clock t2 1 _ A1 L1) as [A2 L2]. simpl in A2, L2.
  destruct (failure_on_default_clock t3 2 _ A2 L2) as [A3 L3]. simpl in A3, L3.
  destruct (failure_on_default_clock t4 3 _ A3 L3) as [A4 L4]. simpl in A4, L4.
  destruct (failure_on_default_clock t5 4 _ A4 L4) as [A5 L5]. simpl in A5, L5.
  repeat split; try assumption.
  - unfold isLocked. now rewrite L4.
  - unfold isLocked. rewrite L5. simpl. apply Z.ltb_lt. lia.
Qed.

(** C3 (where the code departs from it).  A lock that ends exactly now is
    over for [isLocked], so the principal is unlocked, yet [incLoginAttempts]
    does not take it for a previous lock: instead of restarting at one
    attempt with the lock cleared it counts one more attempt, keeps a lock,
    and at the threshold locks the account again. *)
Theorem incLoginAttempts_lock_ending_now :
  forall (env : Env) (u : UserDoc),
    User.lockUntil u = Some (now env) ->
    isLocked env u = false /\
    User.loginAttempts (afterFailedLogin env u) = User.loginAttempts u + 1 /\
    User.lockUntil (afterFailedLogin env u)
    = (if orDefault (MAX_LOGIN_ATTEMPTS env) 5 <=? User.loginAttempts u + 1
       then Some (now env + orDefault (LOCKOUT_TIME env) 15 * 60 * 1000)
       else Some (now env)).
Proof.
  intros env u Hl. unfold afterFailedLogin, incLoginAttempts, isLocked.
  rewrite Hl, Z.ltb_irrefl. simpl. rewrite andb_true_r.
  split; [reflexivity|].
  destruct (orDefault (MAX_LOGIN_ATTEMPTS env) 5 <=? User.loginAttempts u + 1);
    simpl; rewrite ?Hl; split; reflexivity.
Qed.

Lemma incLoginAttempts_lock_ending_now_witness :
  isLocked (clock 1000000) (account true 5 (Some 1000000)) = false /\
  User.loginAttempts (afterFailedLogin (clock 1000000) (account true 5 (Some 1000000)))
  = User.loginAttempts (account true 5 (Some 1000000)) + 1 /\
  User.lockUntil (afterFailedLogin (clock 1000000) (account true 5 (Some 1000000)))
  = (if orDefault (MAX_LOGIN_ATTEMPTS (clock 1000000)) 5
        <=? User.loginAttempts (account true 5 (Some 1000000)) + 1
     then Some (now (clock 1000000)
                + orDefault (LOCKOUT_TIME (clock 1000000)) 15 * 60 * 1000)
     else Some (now (clock 1000000))).
Proof.
  exact (incLoginAttempts_lock_ending_now (clock 1000000)
           (account true 5 (Some 1000000)) eq_refl).
Defined.

Example lock_ending_now_is_renewed :
  isLocked (clock 1000000) (account true 5 (Some 1000000)) = false /\
  afterFailedLogin (clock 1000000) (account true 5 (Some 1000000))
  = account true 6 (Some 1900000).
Proof. split; reflexivity. Qed.

Example lock_ended_before_is_cleared :
  afterFailedLogin (clock 1000001) (account true 5 (Some 1000000))
  = account true 1 None.
Proof. reflexivity. Qed.

(* ================================================================== *)
(** ** Login *)

Lemma isLocked_until :
  forall (env : Env) (u : UserDoc) (until : Z),
    User.lockUntil u = Some until -> now env < until -> isLocked env u = true.
Proof.
  intros env u until Hl Hlt. unfold isLocked. rewrite Hl. now apply Z.ltb_lt.
Qed.

(** C7.  When the principal a login request names is locked, with
    [now < lockUntil], the request is answered at the lock gate: whatever the
    password, the world after the request is the world before it, so
    [loginAttempts] and [lockUntil] are as they were and neither
    [comparePassword] nor [incLoginAttempts] has been invoked; a request
    that carries a well-formed e-mail address and a password is answered with
    the 423 lockout rejection. *)
Theorem login_locked_rejected_at_gate :
  forall (env : Env) (req : Request) (w : World) (u : UserDoc) (until : Z),
    findOneByEmail (db w) (sanitizedEmail req) = Some u ->
    User.lockUntil u = Some until ->
    now env < until ->
    snd (login env req w) = w /\
    storedUser (snd (login env req w)) (User._id u) = storedUser w (User._id u) /\
    (forall c, In c (calls (snd (login env req w))) -> In c (calls w)) /\
    (truthy (bodyEmail req) = true ->
     truthy (bodyPassword req) = true ->
     isValidEmail (getOr (bodyEmail req) "") = true ->
     fst (login env req w) = Sent (sendErrorResponse 423 msgAccountLocked)).
Proof.
  intros env req w u until Hf Hl Hlt.
  pose proof (isLocked_until env u until Hl Hlt) as Hlock.
  assert (H : login env req w
              = (Sent (if negb (truthy (bodyEmail req)) || negb (truthy (bodyPassword req))
                       then sendErrorResponse 400 "Email and password are required"
                       else if negb (isValidEmail (getOr (bodyEmail req) ""))
                       then sendErrorResponse 400 "Please provide a valid email address"
                       else sendErrorResponse 423 msgAccountLocked), w)).
  { unfold login, asyncHandler, bind, ret, readDb.
    destruct (negb (truthy (bodyEmail req)) || negb (truthy (bodyPassword req)));
      [reflexivity|].
    destruct (negb (isValidEmail (getOr (bodyEmail req) ""))); [reflexivity|].
    unfold sanitizedEmail in Hf. rewrite Hf, Hlock. reflexivity. }
  rewrite H. simpl. repeat split; auto.
  intros He Hp Hv. now rewrite He, Hp, Hv.
Qed.

Lemma login_locked_rejected_at_gate_witness :
  snd (login (clock 1000) (loginRequest "Ann@Example.org" "guess")
         (worldOf [account true 5 (Some 2000)]))
  = worldOf [account true 5 (Some 2000)] /\
  storedUser (snd (login (clock 1000) (loginRequest "Ann@Example.org" "guess")
                     (worldOf [account true 5 (Some 2000)])))
             (User._id (account true 5 (Some 2000)))
  = storedUser (worldOf [account true 5 (Some 2000)])
               (User._id (account true 5 (Some 2000))) /\
  (forall c,
      In c (calls (snd (login (clock 1000) (loginRequest "Ann@Example.org" "guess")
                          (worldOf [account true 5 (Some 2000)])))) ->
      In c (calls (worldOf [account true 5 (Some 2000)]))) /\
  (truthy (bodyEmail (loginRequest "Ann@Example.org" "guess")) = true ->
   truthy (bodyPassword (loginRequest "Ann@Example.org" "guess")) = true ->
   isValidEmail (getOr (bodyEmail (loginRequest "Ann@Example.org" "guess")) "") = true ->
   fst (login (clock 1000) (loginRequest "Ann@Example.org" "guess")
          (worldOf [account true 5 (Some 2000)]))
   = Sent (sendErrorResponse 423 msgAccountLocked)).
Proof.
  refine (login_locked_rejected_at_gate (clock 1000)
            (loginRequest "Ann@Example.org" "guess")
            (worldOf [account true 5 (Some 2000)])
            (account true 5 (Some 2000)) 2000 _ _ _).
  - reflexivity.
  - reflexivity.
  - simpl. lia.
Defined.

(** A wrong password on an unlocked account, for contrast: the password is
    compared and the failure is recorded. *)
Example login_wrong_password_counts :
  login (clock 1000) (loginRequest "ann@example.org" "guess")
        (worldOf [account true 3 None])
  = (Sent (sendErrorResponse 401 "Invalid email or password"),
     mkWorld (mkDb [postCreate; postRead; postDelete] [] [account true 4 None])
             [CallComparePassword "650000000000000000000010";
              CallIncLoginAttempts "650000000000000000000010"]).
Proof. reflexivity. Qed.

(* ================================================================== *)
(** ** Session validator *)

Lemma truthy_Some (s : string) : s <> "" -> truthy (Some s) = true.
Proof.
  intros H. unfold truthy. apply negb_true_iff. now apply String.eqb_neq.
Qed.

Lemma authenticate_world (env : Env) (req : Request) (w : World) :
  snd (authenticate env req w) = w.
Proof.
  unfold authenticate, bind, ret, readDb.
  destruct (negb (truthy (extractToken req))); [reflexivity|].
  destruct (jwt_verify env (getOr (extractToken req) "")) as [userId|name];
    [|reflexivity].
  destruct (findById (db w) userId) as [[doc|]|name]; try reflexivity.
  destruct (negb (User.isActive (populateUser (db w) doc))); [reflexivity|].
  destruct (isLocked env (populateUser (db w) doc)); reflexivity.
Qed.

Lemma authenticateCatch_status (name : string) :
  status (authenticateCatch name) = 401 \/ status (authenticateCatch name) = 500.
Proof.
  unfold authenticateCatch.
  destruct (name === "TokenExpiredError"); [now left|].
  destruct (name === "JsonWebTokenError"); [now left | now right].
Qed.

Lemma authenticate_refusal (env : Env) (req : Request) (w : World) (msg : string) :
  AuthFailure env req w msg ->
  authenticate env req w = (Sent (mkResponse 401 false msg NoExtra), w).
Proof.
  intros H. unfold authenticate, bind, ret, readDb.
  destruct H as [Hm | token Ht Hne Hv | token Ht Hne Hv
                 | token userId Ht Hne Hv Hf
                 | token userId doc Ht Hne Hv Hf Ha
                 | token userId doc Ht Hne Hv Hf Ha Hl].
  - now rewrite Hm.
  - rewrite Ht, (truthy_Some token Hne). simpl. now rewrite Hv.
  - rewrite Ht, (truthy_Some token Hne). simpl. now rewrite Hv.
  - rewrite Ht, (truthy_Some token Hne). simpl. now rewrite Hv, Hf.
  - rewrite Ht, (truthy_Some token Hne). simpl. rewrite Hv, Hf. simpl.
    now rewrite Ha.
  - rewrite Ht, (truthy_Some token Hne). simpl. rewrite Hv, Hf. simpl.
    rewrite Ha. simpl. unfold isLocked in *. simpl. now rewrite Hl.
Qed.

(** C8.  Each of the six failures of [authenticate] (no token, expired
    token, invalid token, principal not found, account deactivated, account
    locked) is answered with status 401 and a message of its own; no answer
    of [authenticate] has status 403; and the refusal ends the route: the
    world is left as it was, so no middleware behind [authenticate] runs and
    [getAllPermissions] is not invoked on a deactivated or locked principal. *)
Theorem authenticate_failures_are_401 :
  (forall (env : Env) (req : Request) (w : World) (msg : string)
          (rest : list Middleware),
      AuthFailure env req w msg ->
      authenticate env req w = (Sent (mkResponse 401 false msg NoExtra), w) /\
      runChain (authenticate env :: rest) req w
      = (Sent (mkResponse 401 false msg NoExtra), w) /\
      calls (snd (runChain (authenticate env :: rest) req w)) = calls w) /\
  NoDup [msgNoToken; msgExpired; msgInvalid; msgUserNotFound; msgDeactivated; msgLocked] /\
  (forall (env : Env) (req : Request) (w : World) (r : Response),
      fst (authenticate env req w) = Sent r -> status r <> 403).
Proof.
  split; [|split].
  - intros env req w msg rest H.
    pose proof (authenticate_refusal env req w msg H) as Ha.
    assert (Hc : runChain (authenticate env :: rest) req w
                 = (Sent (mkResponse 401 false msg NoExtra), w)).
    { simpl. unfold bind. rewrite Ha. reflexivity. }
    split; [exact Ha|]. split; [exact Hc | now rewrite Hc].
  - repeat constructor; simpl; intros H;
      repeat (destruct H as [H|H]; [discriminate H|]); exact H.
  - intros env req w r. unfold authenticate, bind, ret, readDb.
    pose proof authenticateCatch_status as Hs.
    destruct (negb (truthy (extractToken req))).
    { simpl. intros H. injection H as <-. simpl. lia. }
    destruct (jwt_verify env (getOr (extractToken req) "")) as [userId|name].
    2:{ simpl. intros H. injection H as <-. destruct (Hs name); lia. }
    destruct (findById (db w) userId) as [[doc|]|name].
    + destruct (negb (User.isActive (populateUser (db w) doc))).
      { simpl. intros H. injection H as <-. simpl. lia. }
      destruct (isLocked env (populateUser (db w) doc)).
      { simpl. intros H. injection H as <-. simpl. lia. }
      simpl. discriminate.
    + simpl. intros H. injection H as <-. simpl. lia.
    + simpl. intros H. injection H as <-. destruct (Hs name); lia.
Qed.

Lemma authenticate_failures_are_401_witness :
  authenticate (clock 1000) (bearer "good") (worldOf [account false 0 None])
  = (Sent (mkResponse 401 false msgDeactivated NoExtra),
     worldOf [account false 0 None]) /\
  runChain [authenticate (clock 1000); requirePermissions (One "post.read") noOptions]
           (bearer "good") (worldOf [account false 0 None])
  = (Sent (mkResponse 401 false msgDeactivated NoExtra),
     worldOf [account false 0 None]) /\
  calls (snd (runChain [authenticate (clock 1000);
                        requirePermissions (One "post.read") noOptions]
                       (bearer "good") (worldOf [account false 0 None])))
  = calls (worldOf [account false 0 None]).
Proof.
  refine (proj1 authenticate_failures_are_401 (clock 1000) (bearer "good")
            (worldOf [account false 0 None]) msgDeactivated
            [requirePermissions (One "post.read") noOptions] _).
  refine (AccountDeactivated (clock 1000) (bearer "good")
            (worldOf [account false 0 None])
            "good" "650000000000000000000010" (account false 0 None) _ _ _ _ _).
  - reflexivity.
  - discriminate.
  - reflexivity.
  - reflexivity.
  - reflexivity.
Defined.

Example authenticate_locked_principal :
  runChain [authenticate (clock 1000); requirePermissions (One "post.read") noOptions]
           (bearer "good") (worldOf [account true 5 (Some 2000)])
  = (Sent (mkResponse 401 false msgLocked NoExtra), worldOf [account true 5 (Some 2000)]).
Proof. reflexivity. Qed.

Example authenticate_then_resolve :
  runChain [authenticate (clock 1000); requirePermissions (One "post.read") noOptions]
           (bearer "good") (worldOf [account true 0 None])
  = (Sent (mkResponse 403 false "Access denied. Required permission: post.read"
             (DeniedExtra ["post.read"] [])),
     mkWorld (db (worldOf [account true 0 None]))
             [CallGetAllPermissions "650000000000000000000010"]).
Proof. reflexivity. Qed.

Example authenticate_other_tokens :
  fst (authenticate (clock 1000) (bearer "old") (worldOf []))
  = Sent (mkResponse 401 false msgExpired NoExtra) /\
  fst (authenticate (clock 1000) (bearer "forged") (worldOf []))
  = Sent (mkResponse 401 false msgInvalid NoExtra) /\
  fst (authenticate (clock 1000) (bearer "") (worldOf []))
  = Sent (mkResponse 401 false msgNoToken NoExtra) /\
  fst (authenticate (clock 1000) (bearer "good") (worldOf []))
  = Sent (mkResponse 401 false msgUserNotFound NoExtra).
Proof. repeat split; reflexivity. Qed.

(* ================================================================== *)
(** ** Grant and revoke overrides *)

Lemma findById_valid (d : Database) (id : string) (u : UserDoc) :
  findById d id = Normal (Some u) ->
  isValidObjectId id = true /\
  find (fun x => User._id x === castObjectId id) (usersColl d) = Some u.
Proof.
  unfold findById. destruct (isValidObjectId id); [|discriminate].
  intros H. injection H as H. now split.
Qed.

Lemma no_invalid_ids (perms : list string) :
  (0 <? List.length (filter (fun permId => negb (isValidObjectId permId)) perms))%nat
  = negb (forallb isValidObjectId perms).
Proof.
  induction perms as [|p ps IH]; simpl; [reflexivity|].
  destruct (isValidObjectId p); simpl; [exact IH | reflexivity].
Qed.

Lemma nothing_new (existing : list ObjectId) (perms : list string) :
  (forall p, In p perms -> In p (map toString existing)) ->
  filter (fun permId =>
            negb (existsb (fun existingId => toString existingId === permId) existing))
         perms = [].
Proof.
  intros H. induction perms as [|p ps IH]; simpl; [reflexivity|].
  assert (Hp : existsb (fun existingId => toString existingId === p) existing = true).
  { apply existsb_exists. specialize (H p (or_introl eq_refl)).
    apply in_map_iff in H. destruct H as [e [He Hin]]. exists e.
    split; [assumption|]. rewrite He. apply String.eqb_refl. }
  rewrite Hp. simpl. apply IH. intros q Hq. apply H. now right.
Qed.

(** C10, for requests that spell the ids as [toString()] prints them.  When
    every string of the request is the printed form of an id in the granted
    list of the principal, [grantCustomPermissions] answers with an error
    (status 400) and leaves the world as it was: nothing is saved, so the
    granted and the revoked lists are unchanged, a permission of the request
    that is also in the revoked list included.  When the request passes the
    checks made before, the error is the "already granted" one. *)
Theorem grantCustomPermissions_all_already_granted :
  forall (req : Request) (w : World) (u : UserDoc) (perms : list string),
    findById (db w) (paramsId req) = Normal (Some u) ->
    bodyPermissions req = Some perms ->
    (forall p, In p perms -> In p (map toString (granted (User.customPermissions u)))) ->
    exists r,
      grantCustomPermissions req w = (Sent r, w) /\
      status r = 400 /\ success r = false /\
      storedUser (after grantCustomPermissions req w) (User._id u)
      = storedUser w (User._id u) /\
      (perms <> [] ->
       forallb isValidObjectId perms = true ->
       List.length (findPermissionsIn (db w) perms) = List.length perms ->
       r = sendErrorResponse 400 msgAlreadyGranted).
Proof.
  intros req w u perms Hf Hb Hall.
  destruct (findById_valid _ _ _ Hf) as [Hv _].
  pose proof (nothing_new (granted (User.customPermissions u)) perms Hall) as Hnew.
  assert (H : exists r,
             grantCustomPermissions req w = (Sent r, w) /\
             status r = 400 /\ success r = false /\
             (perms <> [] ->
              forallb isValidObjectId perms = true ->
              List.length (findPermissionsIn (db w) perms) = List.length perms ->
              r = sendErrorResponse 400 msgAlreadyGranted)).
  { unfold grantCustomPermissions, asyncHandler, bind, ret, readDb.
    rewrite Hv, Hb. cbn [negb].
    destruct perms as [|p ps].
    { simpl. eexists. repeat split. intros Hne. now contradiction Hne. }
    change (List.length (p :: ps) =? 0)%nat with false. rewrite no_invalid_ids.
    destruct (forallb isValidObjectId (p :: ps)) eqn:Hval; cbn [negb].
    2:{ eexists. repeat split. intros _ Hc. discriminate Hc. }
    rewrite Hf.
    destruct (List.length (findPermissionsIn (db w) (p :: ps))
              =? List.length (p :: ps))%nat eqn:Hlen; cbn [negb].
    2:{ eexists. repeat split. intros _ _ Hc. apply Nat.eqb_neq in Hlen.
        now contradiction Hlen. }
    rewrite Hnew. simpl. eexists. repeat split. }
  destruct H as [r [Hr [Hs [Hsu Hm]]]]. exists r.
  repeat split; try assumption. unfold after. now rewrite Hr.
Qed.

Lemma grantCustomPermissions_all_already_granted_witness :
  exists r,
    grantCustomPermissions (overrideRequest ["650000000000000000000002"])
      (worldOf [member ["650000000000000000000002"] ["650000000000000000000002"]])
    = (Sent r, worldOf [member ["650000000000000000000002"] ["650000000000000000000002"]]) /\
    status r = 400 /\ success r = false /\
    storedUser (after grantCustomPermissions (overrideRequest ["650000000000000000000002"])
                  (worldOf [member ["650000000000000000000002"]
                                   ["650000000000000000000002"]]))
               (User._id (member ["650000000000000000000002"] ["650000000000000000000002"]))
    = storedUser (worldOf [member ["650000000000000000000002"] ["650000000000000000000002"]])
                 (User._id (member ["650000000000000000000002"]
                                   ["650000000000000000000002"])) /\
    (["650000000000000000000002"] <> [] ->
     forallb isValidObjectId ["650000000000000000000002"] = true ->
     List.length (findPermissionsIn
                    (db (worldOf [member ["650000000000000000000002"]
                                         ["650000000000000000000002"]]))
                    ["650000000000000000000002"])
     = List.length ["650000000000000000000002"] ->
     r = sendErrorResponse 400 msgAlreadyGranted).
Proof.
  refine (grantCustomPermissions_all_already_granted
            (overrideRequest ["650000000000000000000002"])
            (worldOf [member ["650000000000000000000002"] ["650000000000000000000002"]])
            (member ["650000000000000000000002"] ["650000000000000000000002"])
            ["650000000000000000000002"] _ _ _).
  - reflexivity.
  - reflexivity.
  - intros p Hp. exact Hp.
Defined.

Example grant_rejected_keeps_overlap :
  grantCustomPermissions (overrideRequest ["650000000000000000000002"])
    (worldOf [member ["650000000000000000000002"] ["650000000000000000000002"]])
  = (Sent (sendErrorResponse 400 msgAlreadyGranted),
     worldOf [member ["650000000000000000000002"] ["650000000000000000000002"]]).
Proof. reflexivity. Qed.

(** *** Overrides spelled the way the store prints them *)

(** What [grantCustomPermissions] does to a user it has found. *)
Lemma grantCustomPermissions_found
      (req : Request) (w : World) (u : UserDoc) (perms : list string) :
  findById (db w) (paramsId req) = Normal (Some u) ->
  bodyPermissions req = Some perms ->
  grantCustomPermissions req w =
  (let cp := User.customPermissions u in
   let newPermissions :=
     filter (fun permId =>
               negb (existsb (fun existingId => toString existingId === permId)
                             (granted cp))) perms in
   let cp' :=
     mkCustom (granted cp ++ map castObjectId newPermissions)%list
              (filter (fun permId => negb (includes perms (toString permId)))
                      (revoked cp)) in
   if (List.length perms =? 0)%nat
   then (Sent (sendErrorResponse 400 "Permissions array is required"), w)
   else if negb (forallb isValidObjectId perms)
   then (Sent (sendErrorResponse 400 "Invalid permission IDs provided"), w)
   else if negb (List.length (findPermissionsIn (db w) perms) =? List.length perms)%nat
   then (Sent (sendErrorResponse 400 "Some permissions do not exist"), w)
   else if (List.length newPermissions =? 0)%nat
   then (Sent (sendErrorResponse 400 msgAlreadyGranted), w)
   else (Sent (sendSuccessResponse 200 (DataUser (withCustomPermissions u cp'))
                 (showNat (List.length newPermissions)
                    ++ " custom permissions granted successfully")%string),
         mkWorld (updateUser (User._id u)
                    (fun stored => withCustomPermissions stored cp') (db w))
                 (calls w ++ [CallSave (User._id u)]))).
Proof.
  intros Hf Hb. destruct (findById_valid _ _ _ Hf) as [Hv _].
  unfold grantCustomPermissions, asyncHandler, bind, ret, readDb.
  rewrite Hv, Hb. cbn [negb]. cbv zeta.
  destruct (List.length perms =? 0)%nat; [reflexivity|].
  rewrite no_invalid_ids.
  destruct (negb (forallb isValidObjectId perms)); [reflexivity|].
  rewrite Hf.
  destruct (negb (List.length (findPermissionsIn (db w) perms) =? List.length perms)%nat);
    [reflexivity|].
  match goal with
  | |- context [(List.length ?l =? 0)%nat] => destruct (List.length l =? 0)%nat
  end; reflexivity.
Qed.

(** What [revokeCustomPermissions] does to a user it has found. *)
Lemma revokeCustomPermissions_found
      (req : Request) (w : World) (u : UserDoc) (perms : list string) :
  findById (db w) (paramsId req) = Normal (Some u) ->
  bodyPermissions req = Some perms ->
  revokeCustomPermissions req w =
  (let cp := User.customPermissions u in
   let newRevokedPermissions :=
     filter (fun permId =>
               negb (existsb (fun existingId => toString existingId === permId)
                             (revoked cp))) perms in
   let cp' :=
     mkCustom (filter (fun permId => negb (includes perms (toString permId)))
                      (granted cp))
              (if (0 <? List.length newRevokedPermissions)%nat
               then (revoked cp ++ map castObjectId newRevokedPermissions)%list
               else revoked cp) in
   if (List.length perms =? 0)%nat
   then (Sent (sendErrorResponse 400 "Permissions array is required"), w)
   else if negb (forallb isValidObjectId newRevokedPermissions)
   then (NextError "CastError", w)
   else (Sent (sendSuccessResponse 200 (DataUser (withCustomPermissions u cp'))
                 (showNat (List.length newRevokedPermissions)
                    ++ " custom permissions revoked successfully")%string),
         mkWorld (updateUser (User._id u)
                    (fun stored => withCustomPermissions stored cp') (db w))
                 (calls w ++ [CallSave (User._id u)]))).
Proof.
  intros Hf Hb. destruct (findById_valid _ _ _ Hf) as [Hv _].
  unfold revokeCustomPermissions, asyncHandler, bind, ret, readDb.
  rewrite Hv, Hb. cbn [negb]. cbv zeta.
  destruct (List.length perms =? 0)%nat; [reflexivity|].
  rewrite Hf.
  match goal with
  | |- context [negb (forallb isValidObjectId ?l)] =>
      destruct (negb (forallb isValidObjectId l))
  end; reflexivity.
Qed.

Lemma find_updateFirst (f : UserDoc -> UserDoc) (l : list UserDoc) (u : UserDoc) :
  (forall v, User._id (f v) = User._id v) ->
  find (fun x => User._id x === User._id u) l = Some u ->
  find (fun x => User._id x === User._id u) (updateFirst (User._id u) f l)
  = Some (f u).
Proof.
  intros Hid. induction l as [|v l IH]; simpl; [discriminate|].
  destruct (User._id v === User._id u) eqn:E; simpl.
  - intros H. injection H as H. subst v. now rewrite Hid, String.eqb_refl.
  - rewrite E. exact IH.
Qed.

(** The stored document of the user a handler has found, after a save. *)
Lemma storedUser_after_save (w : World) (id : string) (u : UserDoc)
      (f : UserDoc -> UserDoc) (cs : list Call) :
  (forall v, User._id (f v) = User._id v) ->
  findById (db w) id = Normal (Some u) ->
  storedUser w (User._id u) = Some u /\
  storedUser (mkWorld (updateUser (User._id u) f (db w)) cs) (User._id u) = Some (f u).
Proof.
  intros Hid Hf. destruct (findById_valid _ _ _ Hf) as [_ Hfind].
  pose proof (find_some _ _ Hfind) as [_ Hk]. apply String.eqb_eq in Hk.
  rewrite <- Hk in Hfind. unfold storedUser. split; [exact Hfind|].
  simpl. now apply find_updateFirst.
Qed.

Lemma canonical_cast (s : string) : canonical s = true -> castObjectId s = s.
Proof.
  unfold canonical. intros H. apply andb_true_iff in H. destruct H as [_ H].
  now apply String.eqb_eq.
Qed.

Lemma canonical_valid (l : list string) :
  forallb canonical l = true -> forallb isValidObjectId l = true.
Proof.
  rewrite !forallb_forall. intros H x Hx. specialize (H x Hx).
  unfold canonical in H. apply andb_true_iff in H. tauto.
Qed.

Lemma map_cast_canonical (l : list string) :
  forallb canonical l = true -> map castObjectId l = l.
Proof.
  induction l as [|s l IH]; simpl; [reflexivity|].
  intros H. apply andb_true_iff in H. destruct H as [Hs Hl].
  now rewrite (canonical_cast s Hs), IH.
Qed.

Lemma forallb_filter {A : Type} (f g : A -> bool) (l : list A) :
  forallb f l = true -> forallb f (filter g l) = true.
Proof.
  rewrite !forallb_forall. intros H x Hx. apply filter_In in Hx. now apply H.
Qed.

(** The lists a grant stores, for a request in the store's spelling: every
    requested id is granted and none is revoked, and disjoint lists stay
    disjoint. *)
Lemma grant_lists_canonical (gs rs : list ObjectId) (perms : list string) :
  forallb canonical perms = true ->
  let gs' := (gs ++ map castObjectId
                     (filter (fun permId =>
                                negb (existsb (fun e => toString e === permId) gs))
                             perms))%list in
  let rs' := filter (fun permId => negb (includes perms (toString permId))) rs in
  (forall x, In x perms -> In x gs' /\ ~ In x rs') /\
  (disjoint gs rs -> disjoint gs' rs').
Proof.
  intros Hc. cbv zeta.
  rewrite (map_cast_canonical _ (forallb_filter canonical _ perms Hc)).
  split.
  - intros x Hx. split.
    + apply in_app_iff.
      destruct (existsb (fun e => toString e === x) gs) eqn:E.
      * left. apply existsb_exists in E. destruct E as [e [He Heq]].
        apply String.eqb_eq in Heq. unfold toString in Heq. now subst e.
      * right. apply filter_In. split; [assumption|]. now rewrite E.
    + intros Hin. apply filter_In in Hin. destruct Hin as [_ Hn].
      apply negb_true_iff in Hn. apply not_true_iff_false in Hn. apply Hn.
      now apply includes_In.
  - intros Hd x Hx Hr. apply filter_In in Hr. destruct Hr as [Hr Hn].
    apply in_app_iff in Hx. destruct Hx as [Hx|Hx].
    + exact (Hd x Hx Hr).
    + apply filter_In in Hx. destruct Hx as [Hx _].
      apply negb_true_iff in Hn. apply not_true_iff_false in Hn. apply Hn.
      now apply includes_In.
Qed.

(** The lists a revoke stores, for a request in the store's spelling. *)
Lemma revoke_lists_canonical (gs rs : list ObjectId) (perms : list string) :
  forallb canonical perms = true ->
  let new := filter (fun permId =>
                       negb (existsb (fun e => toString e === permId) rs)) perms in
  let rs' := if (0 <? List.length new)%nat
             then (rs ++ map castObjectId new)%list else rs in
  let gs' := filter (fun permId => negb (includes perms (toString permId))) gs in
  (forall x, In x perms -> In x rs' /\ ~ In x gs') /\
  (disjoint gs rs -> disjoint gs' rs').
Proof.
  intros Hc. cbv zeta.
  rewrite (map_cast_canonical _ (forallb_filter canonical _ perms Hc)).
  set (new := filter (fun permId =>
                        negb (existsb (fun e => toString e === permId) rs)) perms).
  assert (Hrs : forall x,
             In x (if (0 <? List.length new)%nat then (rs ++ new)%list else rs)
             <-> In x rs \/ In x new).
  { intros x. destruct new as [|n new']; simpl.
    - tauto.
    - rewrite in_app_iff. simpl. tauto. }
  split.
  - intros x Hx. split.
    + apply Hrs. destruct (existsb (fun e => toString e === x) rs) eqn:E.
      * left. apply existsb_exists in E. destruct E as [e [He Heq]].
        apply String.eqb_eq in Heq. unfold toString in Heq. now subst e.
      * right. apply filter_In. split; [assumption|]. now rewrite E.
    + intros Hin. apply filter_In in Hin. destruct Hin as [_ Hn].
      apply negb_true_iff in Hn. apply not_true_iff_false in Hn. apply Hn.
      now apply includes_In.
  - intros Hd x Hx Hr. apply filter_In in Hx. destruct Hx as [Hx Hn].
    apply Hrs in Hr. destruct Hr as [Hr|Hr].
    + exact (Hd x Hx Hr).
    + apply filter_In in Hr. destruct Hr as [Hr _].
      apply negb_true_iff in Hn. apply not_true_iff_false in Hn. apply Hn.
      now apply includes_In.
Qed.

Lemma findById_updateUser (d : Database) (id : string) (u : UserDoc)
      (f : UserDoc -> UserDoc) :
  (forall v, User._id (f v) = User._id v) ->
  findById d id = Normal (Some u) ->
  findById (updateUser (User._id u) f d) id = Normal (Some (f u)).
Proof.
  intros Hid Hf. destruct (findById_valid _ _ _ Hf) as [Hv Hfind].
  pose proof (find_some _ _ Hfind) as [_ Hk]. apply String.eqb_eq in Hk.
  unfold findById. rewrite Hv. simpl. rewrite <- Hk in *.
  now rewrite find_updateFirst.
Qed.

(** A grant in the store's spelling, on a user found and for permissions
    that exist: either everything was granted already and nothing changes,
    or the user is saved with every requested id granted and none revoked;
    disjoint lists stay disjoint. *)
Lemma grantCustomPermissions_canonical :
  forall (req : Request) (w : World) (u : UserDoc) (perms : list string),
    findById (db w) (paramsId req) = Normal (Some u) ->
    bodyPermissions req = Some perms ->
    perms <> [] ->
    forallb canonical perms = true ->
    List.length (findPermissionsIn (db w) perms) = List.length perms ->
    exists u',
      findById (db (after grantCustomPermissions req w)) (paramsId req)
      = Normal (Some u') /\
      permissionsColl (db (after grantCustomPermissions req w))
      = permissionsColl (db w) /\
      User.role u' = User.role u /\
      ((u' = u /\ after grantCustomPermissions req w = w /\
        forall x, In x perms -> In x (granted (User.customPermissions u)))
       \/
       (forall x, In x perms ->
                  In x (granted (User.customPermissions u'))
                  /\ ~ In x (revoked (User.customPermissions u')))) /\
      (disjoint (granted (User.customPermissions u)) (revoked (User.customPermissions u)) ->
       disjoint (granted (User.customPermissions u')) (revoked (User.customPermissions u'))).
Proof.
  intros req w u perms Hf Hb Hne Hc Hlen. unfold after.
  rewrite (grantCustomPermissions_found req w u perms Hf Hb). cbv zeta.
  destruct perms as [|p ps]; [now contradiction Hne|].
  change (List.length (p :: ps) =? 0)%nat with false. cbv iota.
  rewrite (canonical_valid _ Hc), Hlen, Nat.eqb_refl. cbn [negb].
  destruct (grant_lists_canonical (granted (User.customPermissions u))
              (revoked (User.customPermissions u)) (p :: ps) Hc) as [Hin Hdis].
  match goal with
  | |- context [(List.length ?l =? 0)%nat] =>
      destruct (List.length l =? 0)%nat eqn:Hnew
  end.
  - exists u. simpl. repeat split; try assumption; auto.
    left. repeat split. intros x Hx. apply Nat.eqb_eq, length_zero_iff_nil in Hnew.
    destruct (existsb (fun e => toString e === x)
                      (granted (User.customPermissions u))) eqn:E.
    + apply existsb_exists in E. destruct E as [e [He Heq]].
      apply String.eqb_eq in Heq. unfold toString in Heq. now subst e.
    + assert (Hx' : In x []); [|destruct Hx'].
      rewrite <- Hnew. apply filter_In. split; [assumption|]. now rewrite E.
  - eexists. simpl. split.
    + apply findById_updateUser; [reflexivity | exact Hf].
    + simpl. repeat split; auto.
Qed.

(** A revoke in the store's spelling, on a user found: the user is saved
    with every requested id revoked and none granted; disjoint lists stay
    disjoint. *)
Lemma revokeCustomPermissions_canonical :
  forall (req : Request) (w : World) (u : UserDoc) (perms : list string),
    findById (db w) (paramsId req) = Normal (Some u) ->
    bodyPermissions req = Some perms ->
    perms <> [] ->
    forallb canonical perms = true ->
    exists u',
      findById (db (after revokeCustomPermissions req w)) (paramsId req)
      = Normal (Some u') /\
      permissionsColl (db (after revokeCustomPermissions req w))
      = permissionsColl (db w) /\
      User.role u' = User.role u /\
      (forall x, In x perms ->
                 In x (revoked (User.customPermissions u'))
                 /\ ~ In x (granted (User.customPermissions u'))) /\
      (disjoint (granted (User.customPermissions u)) (revoked (User.customPermissions u)) ->
       disjoint (granted (User.customPermissions u')) (revoked (User.customPermissions u'))).
Proof.
  intros req w u perms Hf Hb Hne Hc. unfold after.
  rewrite (revokeCustomPermissions_found req w u perms Hf Hb). cbv zeta.
  destruct perms as [|p ps]; [now contradiction Hne|].
  change (List.length (p :: ps) =? 0)%nat with false. cbv iota.
  rewrite (canonical_valid _ (forallb_filter canonical _ (p :: ps) Hc)). cbn [negb].
  destruct (revoke_lists_canonical (granted (User.customPermissions u))
              (revoked (User.customPermissions u)) (p :: ps) Hc) as [Hin Hdis].
  eexists. cbn [snd db]. split.
  - apply findById_updateUser; [reflexivity | exact Hf].
  - split; [reflexivity|]. split; [reflexivity|]. split; [exact Hin | exact Hdis].
Qed.

Lemma findPermissionsIn_collection (d d' : Database) (l : list string) :
  permissionsColl d' = permissionsColl d ->
  findPermissionsIn d' l = findPermissionsIn d l.
Proof. intros H. unfold findPermissionsIn. now rewrite H. Qed.

(** A populated array holds only documents that were referenced, and every
    referenced document that exists. *)
Lemma populatePermissions_ids (d : Database) (l : list ObjectId) (x : ObjectId) :
  In x (ids (populatePermissions d l))
  <-> In x l /\ exists p, In p (permissionsColl d) /\ Permission._id p = x.
Proof.
  unfold ids, populatePermissions. rewrite in_map_iff. split.
  - intros [p [Hid Hp]]. apply in_flat_map in Hp. destruct Hp as [y [Hy Hp]].
    unfold findPermissionById in Hp.
    destruct (find (fun q => Permission._id q === y) (permissionsColl d)) as [q|] eqn:E;
      [|destruct Hp].
    destruct Hp as [Hp|[]]. subst q. apply find_some in E. destruct E as [Hin Heq].
    apply String.eqb_eq in Heq. subst x. split; [now rewrite Heq|].
    now exists p.
  - intros [Hx [p [Hp Hid]]]. unfold findPermissionById.
    destruct (find (fun q => Permission._id q === x) (permissionsColl d)) as [q|] eqn:E.
    + exists q. pose proof (find_some _ _ E) as [_ Heq]. apply String.eqb_eq in Heq.
      split; [assumption|]. apply in_flat_map. exists x. split; [assumption|].
      rewrite E. now left.
    + exfalso. pose proof (find_none _ _ E p Hp) as Hn. simpl in Hn.
      rewrite Hid, String.eqb_refl in Hn. discriminate Hn.
Qed.

(** Round trip in the store's spelling: grant X, revoke X, grant X, for an
    existing permission X, ends with X granted, not revoked and effective. *)
Lemma grant_revoke_grant_canonical :
  forall (req : Request) (w : World) (u : UserDoc) (X : string),
    findById (db w) (paramsId req) = Normal (Some u) ->
    bodyPermissions req = Some [X] ->
    canonical X = true ->
    List.length (findPermissionsIn (db w) [X]) = 1%nat ->
    exists u3 l,
      findById (db (after grantCustomPermissions req
                      (after revokeCustomPermissions req
                         (after grantCustomPermissions req w))))
               (paramsId req) = Normal (Some u3) /\
      In X (granted (User.customPermissions u3)) /\
      ~ In X (revoked (User.customPermissions u3)) /\
      getAllPermissions
        (populateUser (db (after grantCustomPermissions req
                             (after revokeCustomPermissions req
                                (after grantCustomPermissions req w)))) u3)
      = Normal l /\
      In X (ids l).
Proof.
  intros req w u X Hf Hb Hc Hlen.
  assert (Hcs : forallb canonical [X] = true) by (simpl; now rewrite Hc).
  assert (Hne : [X] <> []) by discriminate.
  destruct (grantCustomPermissions_canonical req w u [X] Hf Hb Hne Hcs Hlen)
    as [u1 [Hf1 [Hp1 _]]].
  set (w1 := after grantCustomPermissions req w) in *.
  destruct (revokeCustomPermissions_canonical req w1 u1 [X] Hf1 Hb Hne Hcs)
    as [u2 [Hf2 [Hp2 [_ [Hin2 _]]]]].
  set (w2 := after revokeCustomPermissions req w1) in *.
  assert (Hlen2 : List.length (findPermissionsIn (db w2) [X]) = List.length [X]).
  { rewrite (findPermissionsIn_collection (db w) (db w2)); [exact Hlen|].
    now rewrite Hp2, Hp1. }
  destruct (grantCustomPermissions_canonical req w2 u2 [X] Hf2 Hb Hne Hcs Hlen2)
    as [u3 [Hf3 [Hp3 [_ [Hcase _]]]]].
  set (w3 := after grantCustomPermissions req w2) in *.
  assert (HX : In X [X]) by now left.
  assert (H3 : In X (granted (User.customPermissions u3))
               /\ ~ In X (revoked (User.customPermissions u3))).
  { destruct Hcase as [[_ [_ Hall]] | Hok].
    - exfalso. destruct (Hin2 X HX) as [_ Hn]. exact (Hn (Hall X HX)).
    - exact (Hok X HX). }
  destruct H3 as [Hg Hr].
  destruct (getAllPermissions_ids (populateUser (db w3) u3)) as [l [Hl Hids]].
  exists u3, l. repeat split; try assumption.
  apply Hids. simpl. split.
  - right. apply populatePermissions_ids. split; [assumption|].
    assert (Hex : exists p, In p (findPermissionsIn (db w) [X])).
    { destruct (findPermissionsIn (db w) [X]) as [|p ps]; [discriminate Hlen|].
      exists p. now left. }
    destruct Hex as [p Hp]. unfold findPermissionsIn in Hp.
    apply filter_In in Hp. destruct Hp as [Hp Hm]. simpl in Hm.
    rewrite orb_false_r in Hm. apply String.eqb_eq in Hm.
    rewrite (canonical_cast X Hc) in Hm. exists p. split; [|now symmetry].
    now rewrite Hp3, Hp2, Hp1.
  - intros Hn. apply populatePermissions_ids in Hn. now destruct Hn.
Qed.

Example round_trip_lower_case :
  db (after grantCustomPermissions (overrideRequest ["65000000000000000000000a"])
        (after revokeCustomPermissions (overrideRequest ["65000000000000000000000a"])
           (after grantCustomPermissions (overrideRequest ["65000000000000000000000a"])
              (worldOf [member [] []]))))
  = mkDb [postCreate; postRead; postDelete] []
         [member ["65000000000000000000000a"] []] /\
  getAllPermissions
    (populateUser (mkDb [postCreate; postRead; postDelete] [] [])
                  (member ["65000000000000000000000a"] []))
  = Normal [postDelete].
Proof. split; reflexivity. Qed.

(** C6 (where the code departs from it).  [isValidObjectId] accepts the
    digits A-F, and such a spelling names the same ObjectId as the
    lower-case one, but the handlers compare the request strings with what
    [toString()] prints.  Granting post.delete under its upper-case spelling
    to a principal for whom it is revoked succeeds and stores it in both
    lists, and the permission stays out of the effective set; the sequence
    grant, revoke, grant from empty lists ends the same way. *)
Theorem grant_uppercase_id_breaks_disjointness :
  disjoint [] ["65000000000000000000000a"] /\
  isValidObjectId "65000000000000000000000A" = true /\
  castObjectId "65000000000000000000000A" = Permission._id postDelete /\
  grantCustomPermissions (overrideRequest ["65000000000000000000000A"])
    (worldOf [member [] ["65000000000000000000000a"]])
  = (Sent (sendSuccessResponse 200
             (DataUser (member ["65000000000000000000000a"] ["65000000000000000000000a"]))
             "1 custom permissions granted successfully"),
     mkWorld (mkDb [postCreate; postRead; postDelete] []
                   [member ["65000000000000000000000a"] ["65000000000000000000000a"]])
             [CallSave "650000000000000000000010"]) /\
  getAllPermissions
    (populateUser (mkDb [postCreate; postRead; postDelete] [] [])
                  (member ["65000000000000000000000a"] ["65000000000000000000000a"]))
  = Normal [] /\
  db (after grantCustomPermissions (overrideRequest ["65000000000000000000000A"])
        (after revokeCustomPermissions (overrideRequest ["65000000000000000000000A"])
           (after grantCustomPermissions (overrideRequest ["65000000000000000000000A"])
              (worldOf [member [] []]))))
  = mkDb [postCreate; postRead; postDelete] []
         [member ["65000000000000000000000a"; "65000000000000000000000a"]
                 ["65000000000000000000000a"]].
Proof.
  split; [intros x []|]. repeat split.
Qed.

(** C10 (where the code departs from it).  The test for "already granted"
    compares the request string with what [toString()] prints.  A request
    that names a permission of the granted list in another spelling (an
    upper-case hex digit: the same ObjectId, accepted by [isValidObjectId]
    and found by [Permission.find]) is not rejected: the answer is 200, the
    user is saved and the granted list holds the id once more, so it is not
    left as it was. *)
Theorem grant_other_spelling_granted_again :
  forall (req : Request) (w : World) (u : UserDoc) (perm : string),
    findById (db w) (paramsId req) = Normal (Some u) ->
    bodyPermissions req = Some [perm] ->
    isValidObjectId perm = true ->
    List.length (findPermissionsIn (db w) [perm]) = 1%nat ->
    In (castObjectId perm) (granted (User.customPermissions u)) ->
    ~ In perm (map toString (granted (User.customPermissions u))) ->
    exists r u',
      fst (grantCustomPermissions req w) = Sent r /\
      status r = 200 /\ success r = true /\
      message r = "1 custom permissions granted successfully" /\
      storedUser (after grantCustomPermissions req w) (User._id u) = Some u' /\
      granted (User.customPermissions u')
      = (granted (User.customPermissions u) ++ [castObjectId perm])%list /\
      ~ NoDup (granted (User.customPermissions u')) /\
      storedUser (after grantCustomPermissions req w) (User._id u)
      <> storedUser w (User._id u).
Proof.
  intros req w u perm Hf Hb Hvalid Hexists Hin Hout.
  assert (Hnew : existsb (fun existingId => toString existingId === perm)
                         (granted (User.customPermissions u)) = false).
  { destruct (existsb (fun existingId => toString existingId === perm)
                      (granted (User.customPermissions u))) eqn:E; [|reflexivity].
    exfalso. apply existsb_exists in E. destruct E as [e [He Heq]].
    apply String.eqb_eq in Heq. apply Hout. apply in_map_iff. now exists e. }
  destruct (storedUser_after_save w (paramsId req) u
              (fun stored =>
                 withCustomPermissions stored
                   (mkCustom
                      (granted (User.customPermissions u) ++ [castObjectId perm])%list
                      (filter (fun permId => negb (includes [perm] (toString permId)))
                              (revoked (User.customPermissions u)))))
              (calls w ++ [CallSave (User._id u)])%list (fun v => eq_refl) Hf)
    as [Hbefore Hafter].
  assert (Hdup : ~ NoDup (granted (User.customPermissions u) ++ [castObjectId perm])%list).
  { intros Hnd. apply NoDup_remove_2 in Hnd. apply Hnd. now rewrite app_nil_r. }
  unfold after. rewrite (grantCustomPermissions_found req w u [perm] Hf Hb). cbv zeta.
  change (List.length [perm] =? 0)%nat with false.
  cbn [forallb filter]. rewrite Hvalid, Hexists, Hnew. cbn [andb negb map List.length].
  change (1 =? 1)%nat with true. change (1 =? 0)%nat with false. cbn [negb fst snd].
  eexists. eexists. split; [reflexivity|].
  split; [reflexivity|]. split; [reflexivity|]. split; [reflexivity|].
  split; [exact Hafter|].
  cbn [withCustomPermissions User.customPermissions granted].
  split; [reflexivity|]. split; [exact Hdup|].
  rewrite Hafter, Hbefore. intros Heq. injection Heq as Heq.
  apply (f_equal (fun v => List.length (granted (User.customPermissions v)))) in Heq.
  cbn [withCustomPermissions User.customPermissions granted] in Heq.
  rewrite length_app in Heq. cbn [List.length] in Heq. lia.
Qed.

Lemma grant_other_spelling_granted_again_witness :
  exists r u',
    fst (grantCustomPermissions (overrideRequest ["65000000000000000000000A"])
           (worldOf [member ["65000000000000000000000a"] []])) = Sent r /\
    status r = 200 /\ success r = true /\
    message r = "1 custom permissions granted successfully" /\
    storedUser (after grantCustomPermissions (overrideRequest ["65000000000000000000000A"])
                  (worldOf [member ["65000000000000000000000a"] []]))
               (User._id (member ["65000000000000000000000a"] [])) = Some u' /\
    granted (User.customPermissions u')
    = (granted (User.customPermissions (member ["65000000000000000000000a"] []))
         ++ [castObjectId "65000000000000000000000A"])%list /\
    ~ NoDup (granted (User.customPermissions u')) /\
    storedUser (after grantCustomPermissions (overrideRequest ["65000000000000000000000A"])
                  (worldOf [member ["65000000000000000000000a"] []]))
               (User._id (member ["65000000000000000000000a"] []))
    <> storedUser (worldOf [member ["65000000000000000000000a"] []])
                  (User._id (member ["65000000000000000000000a"] [])).
Proof.
  refine (grant_other_spelling_granted_again
            (overrideRequest ["65000000000000000000000A"])
            (worldOf [member ["65000000000000000000000a"] []])
            (member ["65000000000000000000000a"] [])
            "65000000000000000000000A" eq_refl eq_refl eq_refl eq_refl _ _).
  - left. reflexivity.
  - intros [H|[]]. discriminate H.
Defined.

(** The same request on the sample store, step by step. *)
Example grant_upper_case_of_granted_id :
  storedUser (worldOf [member ["65000000000000000000000a"] []]) "650000000000000000000010"
  = Some (member ["65000000000000000000000a"] []) /\
  fst (grantCustomPermissions (overrideRequest ["65000000000000000000000a"])
         (worldOf [member ["65000000000000000000000a"] []]))
  = Sent (sendErrorResponse 400 msgAlreadyGranted) /\
  storedUser (after grantCustomPermissions (overrideRequest ["65000000000000000000000A"])
                (worldOf [member ["65000000000000000000000a"] []]))
             "650000000000000000000010"
  = Some (member ["65000000000000000000000a"; "65000000000000000000000a"] []).
Proof. repeat split. Qed.

(* ================================================================== *)
(** ** Further properties of the models *)

Lemma NoDup_ids_filter (f : Permission.t -> bool) (l : list Permission.t) :
  NoDup (ids l) -> NoDup (ids (filter f l)).
Proof.
  unfold ids. induction l as [|p l IH]; simpl; intros H; [constructor|].
  inversion H as [|x xs Hx Hxs]; subst. destruct (f p); simpl.
  - constructor; [|now apply IH]. intros Hin. apply Hx.
    apply in_map_iff in Hin. destruct Hin as [q [Hq Hin]].
    apply filter_In in Hin. apply in_map_iff. exists q. tauto.
  - now apply IH.
Qed.

Lemma pushGranted_NoDup (gs acc : list Permission.t) :
  NoDup (ids acc) ->
  NoDup (ids (fold_left
                (fun acc permission =>
                   if negb (existsb (fun p => samePermission p permission) acc)
                   then (acc ++ [permission])%list else acc) gs acc)).
Proof.
  revert acc. induction gs as [|g gs IH]; intros acc H; simpl; [exact H|].
  apply IH. destruct (existsb (fun p => samePermission p g) acc) eqn:E; simpl;
    [exact H|].
  unfold ids. rewrite map_app. simpl. apply NoDup_app; [exact H | | ].
  - constructor; [intros []|constructor].
  - intros x Hx [Hg|[]]. subst x.
    apply existsb_samePermission in Hx. rewrite E in Hx. discriminate Hx.
Qed.

(** X1.  When the permissions of the role carry no identifier twice, neither
    does the resolved list: a granted permission that the role (or an
    earlier grant) already provides is not added again. *)
Theorem getAllPermissions_no_duplicates :
  forall u : LoadedUser,
    NoDup (ids (rolePermissionsOf u)) ->
    exists l, getAllPermissions u = Normal l /\ NoDup (ids l).
Proof.
  intros u H. unfold getAllPermissions. eexists. split; [reflexivity|].
  apply NoDup_ids_filter, pushGranted_NoDup. exact H.
Qed.

Lemma getAllPermissions_no_duplicates_witness :
  exists l,
    getAllPermissions (loaded (Some editorRole) [postRead; postDelete; postDelete] [])
    = Normal l /\ NoDup (ids l).
Proof.
  refine (getAllPermissions_no_duplicates
            (loaded (Some editorRole) [postRead; postDelete; postDelete] []) _).
  simpl. repeat constructor; simpl; intros H;
    repeat (destruct H as [H|H]; [discriminate H|]); exact H.
Defined.

Lemma populatePermissions_elements (d : Database) (l : list ObjectId) (p : Permission.t) :
  In p (populatePermissions d l)
  <-> exists x, In x l /\ findPermissionById d x = Some p.
Proof.
  unfold populatePermissions. rewrite in_flat_map. split.
  - intros [x [Hx Hp]]. exists x. split; [assumption|].
    destruct (findPermissionById d x) as [q|]; [|destruct Hp].
    destruct Hp as [Hp|[]]. now subst q.
  - intros [x [Hx Hf]]. exists x. split; [assumption|]. rewrite Hf. now left.
Qed.

Lemma findPermissionById_id (d : Database) (x : ObjectId) (p : Permission.t) :
  findPermissionById d x = Some p -> Permission._id p = x /\ In p (permissionsColl d).
Proof.
  unfold findPermissionById. intros H. apply find_some in H. destruct H as [Hin Heq].
  apply String.eqb_eq in Heq. now split.
Qed.

Lemma rolePermissionsOf_populateUser (d : Database) (doc : UserDoc) :
  rolePermissionsOf (populateUser d doc)
  = populatePermissions d (storedRolePermissions d doc).
Proof.
  unfold rolePermissionsOf, populateUser, populateRole, storedRolePermissions. simpl.
  destruct (find (fun r => Role._id r === User.role doc) (rolesColl d)); reflexivity.
Qed.

Lemma getAllPermissions_elements (u : LoadedUser) (l : list Permission.t) :
  getAllPermissions u = Normal l ->
  forall p, In p l ->
            In p (rolePermissionsOf u) \/ In p (granted (User.customPermissions u)).
Proof.
  unfold getAllPermissions, rolePermissionsOf. intros Hl p Hp.
  injection Hl as Hl. subst l. apply filter_In in Hp. destruct Hp as [Hp _].
  now apply pushGranted_elements in Hp.
Qed.

(** X2.  [hasPermission] on a user loaded from the store: a name is held iff
    the collection has a permission of that name whose id is referenced by
    the stored role or by the granted list, and is not in the revoked list.
    A revoked id therefore never counts, whoever else provides it, and a
    reference to a permission that no longer exists gives nothing. *)
Theorem hasPermission_of_stored_user :
  forall (d : Database) (doc : UserDoc) (permissionName : string),
    hasPermission (populateUser d doc) permissionName = Normal true
    <-> exists p,
        findPermissionById d (Permission._id p) = Some p /\
        Permission.name p = permissionName /\
        (In (Permission._id p) (storedRolePermissions d doc)
         \/ In (Permission._id p) (granted (User.customPermissions doc))) /\
        ~ In (Permission._id p) (revoked (User.customPermissions doc)).
Proof.
  intros d doc n. rewrite hasPermission_effectiveNames.
  unfold effectiveNames.
  destruct (getAllPermissions_ids (populateUser d doc)) as [l [Hl Hids]].
  rewrite Hl. rewrite rolePermissionsOf_populateUser in Hids. simpl in Hids.
  assert (Hel : forall q, In q l ->
                  exists x, findPermissionById d x = Some q /\
                            (In x (storedRolePermissions d doc)
                             \/ In x (granted (User.customPermissions doc)))).
  { intros q Hq. apply (getAllPermissions_elements _ _ Hl) in Hq.
    rewrite rolePermissionsOf_populateUser in Hq. simpl in Hq.
    destruct Hq as [Hq|Hq]; apply populatePermissions_elements in Hq;
      destruct Hq as [x [Hx Hf]]; exists x; auto. }
  rewrite in_map_iff. split.
  - intros [q [Hn Hq]]. destruct (Hel q Hq) as [x [Hf Hx]].
    destruct (findPermissionById_id _ _ _ Hf) as [Hid _]. exists q.
    rewrite Hid. repeat split; try assumption.
    assert (Hin : In x (ids l)) by (rewrite <- Hid; unfold ids; now apply in_map).
    apply Hids in Hin. destruct Hin as [_ Hnr]. intros Hr. apply Hnr.
    apply populatePermissions_ids. split; [assumption|].
    exists q. split; [|assumption]. now apply (findPermissionById_id _ _ _ Hf).
  - intros [p [Hf [Hn [Hx Hnr]]]].
    destruct (findPermissionById_id _ _ _ Hf) as [_ Hcoll].
    assert (Hin : In (Permission._id p) (ids l)).
    { apply Hids. split.
      - destruct Hx as [Hx|Hx]; [left|right]; apply populatePermissions_ids;
          (split; [assumption | now exists p]).
      - intros Hr. apply populatePermissions_ids in Hr. now destruct Hr. }
    unfold ids in Hin. apply in_map_iff in Hin. destruct Hin as [q [Hid Hq]].
    destruct (Hel q Hq) as [x [Hfq _]].
    destruct (findPermissionById_id _ _ _ Hfq) as [Hidq _].
    assert (q = p) by (rewrite <- Hidq, Hid, Hf in Hfq; now injection Hfq).
    subst q. now exists p.
Qed.

(** X3.  A failure recorded while the account is locked counts one more
    attempt and leaves the lock as it is: the lock is never extended. *)
Theorem incLoginAttempts_while_locked :
  forall (env : Env) (u : UserDoc),
    isLocked env u = true ->
    User.lockUntil (afterFailedLogin env u) = User.lockUntil u /\
    User.loginAttempts (afterFailedLogin env u) = User.loginAttempts u + 1.
Proof.
  intros env u H. unfold afterFailedLogin, incLoginAttempts.
  rewrite H. unfold isLocked in H.
  destruct (User.lockUntil u) as [t|] eqn:Hl; [|discriminate H].
  apply Z.ltb_lt in H.
  assert (Ht : (t <? now env) = false) by (apply Z.ltb_ge; lia).
  rewrite Ht, andb_false_r. simpl. rewrite Hl. split; reflexivity.
Qed.

Lemma incLoginAttempts_while_locked_witness :
  User.lockUntil (afterFailedLogin (clock 1000) (account true 7 (Some 2000)))
  = User.lockUntil (account true 7 (Some 2000)) /\
  User.loginAttempts (afterFailedLogin (clock 1000) (account true 7 (Some 2000)))
  = User.loginAttempts (account true 7 (Some 2000)) + 1.
Proof.
  exact (incLoginAttempts_while_locked (clock 1000) (account true 7 (Some 2000)) eq_refl).
Defined.

Lemma existsb_toString (l : list ObjectId) (x : ObjectId) :
  existsb (fun e => e === x) l = true <-> In x l.
Proof.
  rewrite existsb_exists. split.
  - intros [e [He Heq]]. apply String.eqb_eq in Heq. now subst e.
  - intros H. exists x. split; [assumption | apply String.eqb_refl].
Qed.

Lemma filter_none {A : Type} (f : A -> bool) (l : list A) :
  (forall x, In x l -> f x = false) -> filter f l = [].
Proof.
  induction l as [|a l IH]; simpl; intros H; [reflexivity|].
  rewrite (H a (or_introl eq_refl)). apply IH. intros x Hx. apply H. now right.
Qed.

Lemma filter_all {A : Type} (f : A -> bool) (l : list A) :
  (forall x, In x l -> f x = true) -> filter f l = l.
Proof.
  induction l as [|a l IH]; simpl; intros H; [reflexivity|].
  rewrite (H a (or_introl eq_refl)). f_equal. apply IH. intros x Hx. apply H. now right.
Qed.

(** X4.  [addPermissions] only appends: the permissions the role had stay
    in front in their order, the role then refers to exactly the old and the
    requested ids, and adding the same ids again changes nothing. *)
Theorem addPermissions_appends :
  forall (r : RoleDoc) (permissionIds : list ObjectId),
    firstn (List.length (Role.permissions r))
           (Role.permissions (addPermissions r permissionIds))
    = Role.permissions r /\
    (forall x, In x (Role.permissions (addPermissions r permissionIds))
               <-> In x (Role.permissions r) \/ In x permissionIds) /\
    addPermissions (addPermissions r permissionIds) permissionIds
    = addPermissions r permissionIds.
Proof.
  intros r ids0. unfold addPermissions, toString. cbv zeta.
  cbn [Role.permissions withPermissions].
  set (new := filter (fun id : ObjectId =>
                        negb (existsb (fun existingId : ObjectId => existingId === id)
                                      (Role.permissions r))) ids0).
  assert (Hin : forall x, In x (Role.permissions r ++ new)%list
                          <-> In x (Role.permissions r) \/ In x ids0).
  { intros x. rewrite in_app_iff. unfold new. rewrite filter_In. cbv beta. split.
    - intros [H|[H _]]; auto.
    - intros [H|H]; [now left|].
      destruct (existsb (fun existingId : ObjectId => existingId === x)
                        (Role.permissions r)) eqn:E.
      + left. now apply existsb_toString in E.
      + right. now split. }
  split; [|split].
  - rewrite firstn_app, Nat.sub_diag, firstn_all. simpl. apply app_nil_r.
  - exact Hin.
  - unfold withPermissions. cbn [Role._id Role.name Role.isSystemRole Role.isActive].
    f_equal. rewrite filter_none; [apply app_nil_r|].
    intros x Hx. apply negb_false_iff. apply existsb_toString. apply Hin. now right.
Qed.

(** X5.  [removePermissions] changes the permissions of the role only, and
    what it leaves is the old list without the given ids: the ids that are
    not among the given ones stay, each as often as before and in the old
    order.  Applied after [addPermissions] with ids the role did not have,
    it gives the role back. *)
Theorem removePermissions_undoes_addPermissions :
  forall (r : RoleDoc) (permissionIds : list ObjectId),
    removePermissions r permissionIds
    = withPermissions r
        (filter (fun x => if in_dec string_dec x permissionIds then false else true)
                (Role.permissions r)) /\
    (forall x, In x (Role.permissions (removePermissions r permissionIds))
               <-> In x (Role.permissions r) /\ ~ In x permissionIds) /\
    ((forall x, In x permissionIds -> ~ In x (Role.permissions r)) ->
     removePermissions (addPermissions r permissionIds) permissionIds = r).
Proof.
  intros r ids0. split; [|split].
  - unfold removePermissions, toString. f_equal. apply filter_ext. intros x.
    destruct (in_dec string_dec x ids0) as [Hin|Hout].
    + apply negb_false_iff. now apply existsb_toString.
    + apply negb_true_iff, not_true_iff_false. now rewrite existsb_toString.
  - intros x. unfold removePermissions, toString. simpl. rewrite filter_In.
    rewrite negb_true_iff, <- not_true_iff_false, existsb_toString. tauto.
  - intros Hfresh. unfold removePermissions, addPermissions, withPermissions, toString.
    cbv zeta. simpl. destruct r as [rid rname rperms rsys ract]. simpl in *.
    f_equal. rewrite filter_app.
    rewrite (filter_all _ rperms).
    + rewrite filter_none; [apply app_nil_r|].
      intros x Hx. apply filter_In in Hx. destruct Hx as [Hx _].
      apply negb_false_iff. now apply existsb_toString.
    + intros x Hx. apply negb_true_iff, not_true_iff_false.
      rewrite existsb_toString. intros Hin. exact (Hfresh x Hin Hx).
Qed.

Lemma removePermissions_undoes_addPermissions_witness :
  (forall x, In x ["65000000000000000000000a"] ->
             ~ In x (Role.permissions sampleRole)) /\
  removePermissions (addPermissions sampleRole ["65000000000000000000000a"])
                    ["65000000000000000000000a"] = sampleRole.
Proof.
  assert (Hfresh : forall x, In x ["65000000000000000000000a"] ->
                             ~ In x (Role.permissions sampleRole)).
  { intros x [Hx|[]] [H|[H|[]]]; subst x; discriminate H. }
  split; [exact Hfresh|].
  exact (proj2 (proj2 (removePermissions_undoes_addPermissions
                         sampleRole ["65000000000000000000000a"])) Hfresh).
Defined.

Example addPermissions_repeats_a_repeated_id :
  Role.permissions (addPermissions sampleRole
                      ["65000000000000000000000a"; "65000000000000000000000a"])
  = ["650000000000000000000001"; "650000000000000000000002";
     "65000000000000000000000a"; "65000000000000000000000a"].
Proof. reflexivity. Qed.

(* ================================================================== *)
(** ** utils/validators.js *)

(** X6.  For arguments that [parseInt] reads as [NaN] or as safe integers,
    and a page small enough for (page - 1) * limit to be a safe integer (so
    that the code's IEEE arithmetic is exact), [validatePagination] yields a
    page of at least 1, a limit between 1 and 100 and a non-negative skip
    equal to (page - 1) * limit; a page or limit that is already in range is
    kept, [NaN] and 0 become the defaults 1 and 10. *)
Theorem validatePagination_bounds :
  forall (pageArg limitArg : option Z),
    safeArgument pageArg = true ->
    safeArgument limitArg = true ->
    isSafeInteger (skip (validatePagination pageArg limitArg)) = true ->
    1 <= page (validatePagination pageArg limitArg) /\
    isSafeInteger (page (validatePagination pageArg limitArg)) = true /\
    1 <= limit (validatePagination pageArg limitArg) <= 100 /\
    0 <= skip (validatePagination pageArg limitArg) /\
    skip (validatePagination pageArg limitArg)
    = (page (validatePagination pageArg limitArg) - 1)
      * limit (validatePagination pageArg limitArg) /\
    (forall n, pageArg = Some n -> 1 <= n ->
               page (validatePagination pageArg limitArg) = n) /\
    (forall n, limitArg = Some n -> 1 <= n <= 100 ->
               limit (validatePagination pageArg limitArg) = n) /\
    (pageArg = None \/ pageArg = Some 0 ->
     page (validatePagination pageArg limitArg) = 1) /\
    (limitArg = None \/ limitArg = Some 0 ->
     limit (validatePagination pageArg limitArg) = 10).
Proof.
  intros pageArg limitArg Hpage _ _.
  assert (Hsafe : isSafeInteger (Z.max 1 (orDefault pageArg 1)) = true).
  { unfold safeArgument in Hpage. unfold isSafeInteger, MAX_SAFE_INTEGER, orDefault in *.
    destruct pageArg as [n|]; [|reflexivity].
    apply andb_true_iff in Hpage. destruct Hpage as [Hlo Hhi].
    apply Z.leb_le in Hlo. apply Z.leb_le in Hhi.
    apply andb_true_iff. split; apply Z.leb_le; destruct (n =? 0); lia. }
  unfold validatePagination. cbv zeta. cbn [page limit skip].
  split; [lia|]. split; [exact Hsafe|]. clear Hsafe.
  repeat split; try nia; try lia.
  - intros n Hp Hn. subst pageArg. unfold orDefault.
    destruct (n =? 0) eqn:E; [apply Z.eqb_eq in E; lia | lia].
  - intros n Hl Hn. subst limitArg. unfold orDefault.
    destruct (n =? 0) eqn:E; [apply Z.eqb_eq in E; lia | lia].
  - intros [H|H]; subst pageArg; reflexivity.
  - intros [H|H]; subst limitArg; reflexivity.
Qed.

Lemma validatePagination_bounds_witness :
  skip (validatePagination (Some 3) (Some 500)) = 200 /\
  page (validatePagination (Some 3) (Some 500)) = 3.
Proof.
  split; [reflexivity|].
  exact (proj1 (proj2 (proj2 (proj2 (proj2 (proj2
           (validatePagination_bounds (Some 3) (Some 500) eq_refl eq_refl eq_refl))))))
           3 eq_refl ltac:(lia)).
Defined.

(** X7.  [validateSort] sorts by one of the allowed fields whenever the list
    of allowed fields is not empty: an allowed field is kept, and a field
    that is not allowed is replaced by the first allowed one.  The direction
    is 1 exactly when the order reads "asc" in any letter case, -1
    otherwise. *)
Theorem validateSort_allowed :
  forall (sortBy sortOrder : string) (allowedFields : list string),
    (allowedFields <> [] -> In (fst (validateSort sortBy sortOrder allowedFields))
                               allowedFields) /\
    (In sortBy allowedFields \/ allowedFields = [] ->
     fst (validateSort sortBy sortOrder allowedFields) = sortBy) /\
    (forall first rest,
        allowedFields = first :: rest ->
        ~ In sortBy allowedFields ->
        fst (validateSort sortBy sortOrder allowedFields) = first) /\
    (snd (validateSort sortBy sortOrder allowedFields) = 1
     <-> toLowerCase sortOrder = "asc") /\
    (snd (validateSort sortBy sortOrder allowedFields) = 1
     \/ snd (validateSort sortBy sortOrder allowedFields) = -1).
Proof.
  intros sortBy sortOrder allowed. unfold validateSort. cbv zeta. cbn [fst snd].
  assert (Hdir : (if (if includes ["asc"; "desc"] (toLowerCase sortOrder)
                      then toLowerCase sortOrder else "desc") === "asc"
                  then 1 else -1)
                 = if toLowerCase sortOrder === "asc" then 1 else -1).
  { unfold includes. cbn [existsb]. rewrite orb_false_r.
    destruct (toLowerCase sortOrder === "asc") eqn:Ea.
    - apply String.eqb_eq in Ea. rewrite Ea. reflexivity.
    - rewrite String.eqb_sym in Ea. rewrite Ea. cbn [orb].
      destruct ("desc" === toLowerCase sortOrder); [|reflexivity].
      rewrite String.eqb_sym in Ea. now rewrite Ea. }
  rewrite Hdir. split; [|split; [|split; [|split]]].
  - intros Hne. destruct allowed as [|a rest]; [now contradiction Hne|].
    change (0 <? List.length (a :: rest))%nat with true. cbn [andb].
    destruct (includes (a :: rest) sortBy) eqn:E; cbn [negb].
    + now apply includes_In.
    + now left.
  - intros [Hin|Hnil].
    + apply includes_In in Hin. rewrite Hin. cbn [negb]. now rewrite andb_false_r.
    + subst allowed. reflexivity.
  - intros first rest Heq Hout. subst allowed.
    change (0 <? List.length (first :: rest))%nat with true. cbn [andb].
    destruct (includes (first :: rest) sortBy) eqn:E; cbn [negb]; [|reflexivity].
    apply includes_In in E. now contradiction Hout.
  - destruct (toLowerCase sortOrder === "asc") eqn:Ea.
    + apply String.eqb_eq in Ea. tauto.
    + apply String.eqb_neq in Ea. split; [discriminate | tauto].
  - destruct (toLowerCase sortOrder === "asc"); auto.
Qed.

Lemma validateSort_allowed_witness :
  fst (validateSort "password" "ASC" ["name"; "createdAt"]) = "name".
Proof.
  refine (proj1 (proj2 (proj2 (validateSort_allowed "password" "ASC"
                                 ["name"; "createdAt"])))
            "name" ["createdAt"] eq_refl _).
  intros [H|[H|[]]]; discriminate H.
Defined.

(** X8.  [validatePassword] accepts a password exactly when it has at least
    eight characters, a lower-case letter, an upper-case letter, a digit and
    one of [!@#$%^&*]; it is valid iff it collects no error, and it never
    collects more than five. *)
Theorem validatePassword_accepts :
  forall password : string,
    (isValid (validatePassword password) = true
     <-> (8 <= String.length password)%nat
         /\ hasChar (inRange 97 122) password = true
         /\ hasChar (inRange 65 90) password = true
         /\ hasChar (inRange 48 57) password = true
         /\ hasChar isSpecial password = true) /\
    (isValid (validatePassword password) = true
     <-> errors (validatePassword password) = []) /\
    (List.length (errors (validatePassword password)) <= 5)%nat.
Proof.
  intros password. unfold validatePassword. cbv zeta. cbn [isValid errors].
  destruct (String.length password <? 8)%nat eqn:El;
    [apply Nat.ltb_lt in El | apply Nat.ltb_ge in El];
    destruct (hasChar (inRange 97 122) password);
    destruct (hasChar (inRange 65 90) password);
    destruct (hasChar (inRange 48 57) password);
    destruct (hasChar isSpecial password);
    cbn [negb app List.length Nat.eqb];
    (split; [split; [intros H; try discriminate H; repeat split; try reflexivity; lia
                    | intros [H1 [H2 [H3 [H4 H5]]]];
                      try discriminate; try reflexivity; lia]
            | split; [split; intros H; try discriminate H; reflexivity | lia]]).
Qed.

Example validatePassword_samples :
  validatePassword "SuperAdmin123!" = mkPasswordValidation true [] /\
  errors (validatePassword "admin")
  = ["Password must be at least 8 characters long";
     "Password must contain at least one uppercase letter";
     "Password must contain at least one number";
     "Password must contain at least one special character (!@#$%^&*)"].
Proof. split; reflexivity. Qed.

Lemma split_not_nil (sep : ascii) (s : string) : split sep s <> [].
Proof.
  destruct s as [|c r]; simpl; [discriminate|].
  destruct (Ascii.eqb c sep); [discriminate|].
  destruct (split sep r); discriminate.
Qed.

Lemma split_single (sep : ascii) (s b : string) : split sep s = [b] -> s = b.
Proof.
  revert b. induction s as [|c r IH]; simpl; intros b H.
  - now injection H.
  - destruct (Ascii.eqb c sep).
    + injection H as _ H. now apply split_not_nil in H.
    + destruct (split sep r) as [|h t] eqn:E; [now apply split_not_nil in E|].
      injection H as H Ht. subst t b. now rewrite (IH h eq_refl).
Qed.

Lemma split_pair (sep : ascii) (s a b : string) :
  split sep s = [a; b] ->
  list_ascii_of_string s
  = (list_ascii_of_string a ++ sep :: list_ascii_of_string b)%list.
Proof.
  revert a. induction s as [|c r IH]; simpl; intros a H; [discriminate H|].
  destruct (Ascii.eqb c sep) eqn:Ec.
  - apply Ascii.eqb_eq in Ec. injection H as Ha H. subst a c.
    now rewrite (split_single _ _ _ H).
  - destruct (split sep r) as [|h t] eqn:E; [now apply split_not_nil in E|].
    injection H as Ha Ht. subst a t. simpl. now rewrite (IH h eq_refl).
Qed.

Lemma isValidEmail_no_space (email : string) :
  isValidEmail email = true ->
  forallb (fun c => negb (isSpace c)) (list_ascii_of_string email) = true.
Proof.
  unfold isValidEmail. destruct (split "@"%char email) as [|loc [|dom [|x t]]] eqn:E;
    try discriminate.
  intros H. apply andb_true_iff in H. destruct H as [H _].
  apply andb_true_iff in H. destruct H as [H Hd].
  apply andb_true_iff in H. destruct H as [_ Hl].
  rewrite (split_pair _ _ _ _ E), forallb_app. simpl.
  assert (Hw : forall l, forallb notSpaceNorAt l = true ->
                         forallb (fun c => negb (isSpace c)) l = true).
  { intros l. rewrite !forallb_forall. intros Hall c Hc. specialize (Hall c Hc).
    unfold notSpaceNorAt in Hall. now apply andb_true_iff in Hall. }
  now rewrite (Hw _ Hl), (Hw _ Hd).
Qed.

Lemma lower_not_space (c : ascii) :
  isSpace c = false ->
  isSpace (if inRange 65 90 c then ascii_of_nat (code c + 32) else c) = false.
Proof.
  destruct c as [[|] [|] [|] [|] [|] [|] [|] [|]]; intros H;
    first [discriminate H | reflexivity].
Qed.

Lemma toLowerCase_no_space (s : string) :
  forallb (fun c => negb (isSpace c)) (list_ascii_of_string s) = true ->
  forallb (fun c => negb (isSpace c)) (list_ascii_of_string (toLowerCase s)) = true.
Proof.
  unfold toLowerCase. induction s as [|c r IH]; simpl; [reflexivity|].
  intros H. apply andb_true_iff in H. destruct H as [Hc Hr].
  apply negb_true_iff in Hc. rewrite (lower_not_space c Hc). simpl. now apply IH.
Qed.

Lemma trim_no_space (s : string) :
  forallb (fun c => negb (isSpace c)) (list_ascii_of_string s) = true ->
  trim s = s.
Proof.
  intros H. unfold trim.
  assert (Hs : trimStart s = s).
  { destruct s as [|c r]; simpl in *; [reflexivity|].
    apply andb_true_iff in H. destruct H as [Hc _].
    apply negb_true_iff in Hc. now rewrite Hc. }
  rewrite Hs. clear Hs. induction s as [|c r IH]; simpl in *; [reflexivity|].
  apply andb_true_iff in H. destruct H as [Hc Hr]. rewrite (IH Hr).
  apply negb_true_iff in Hc. rewrite Hc. now destruct r.
Qed.

(** X9.  An address that [isValidEmail] accepts has no white space, so the
    [trim()] applied to it after validation changes nothing: [login] looks
    the principal up by the lower-cased address. *)
Theorem isValidEmail_trim :
  forall email : string,
    isValidEmail email = true ->
    hasChar isSpace email = false /\
    trim (toLowerCase email) = toLowerCase email.
Proof.
  intros email H. pose proof (isValidEmail_no_space email H) as Hn. split.
  - unfold hasChar. apply not_true_iff_false. intros He.
    apply existsb_exists in He. destruct He as [c [Hc Hs]].
    rewrite forallb_forall in Hn. specialize (Hn c Hc). now rewrite Hs in Hn.
  - now apply trim_no_space, toLowerCase_no_space.
Qed.

Lemma isValidEmail_trim_witness :
  hasChar isSpace "Ann@Example.org" = false /\
  trim (toLowerCase "Ann@Example.org") = toLowerCase "Ann@Example.org".
Proof.
  exact (isValidEmail_trim "Ann@Example.org" eq_refl).
Defined.

Example isValidEmail_samples :
  isValidEmail "ann@example.org" = true /\
  isValidEmail "ann@example" = false /\
  isValidEmail "ann@@example.org" = false /\
  isValidEmail " ann@example.org" = false /\
  isValidEmail "@example.org" = false /\
  isValidEmail "ann@.org" = false.
Proof. repeat split; reflexivity. Qed.

(* ================================================================== *)
(** ** Further properties of the middleware *)

(** X10.  [requirePermissions] for any list of required permissions, on a
    principal the bypass does not apply to: under [requireAll] it admits iff
    every required name is effective, otherwise iff some required name is;
    it invokes [getAllPermissions] once; and when it admits it attaches to
    the request the record of what was required and what was held. *)
Theorem requirePermissions_policy :
  forall (required : Required) (options : Options) (req : Request) (w : World)
         (u : LoadedUser),
    user req = Some u ->
    bypasses options u = false ->
    (admitted (fst (requirePermissions required options req w)) = true
     <-> if getOr (requireAll options) false
         then forall p, In p (requiredList required) -> In p (effectiveNames u)
         else exists p, In p (requiredList required) /\ In p (effectiveNames u)) /\
    (admitted (fst (requirePermissions required options req w)) = true ->
     fst (requirePermissions required options req w)
     = Next (withPermissionCheck req
               (mkCheck (requiredList required) (effectiveNames u) true))) /\
    snd (requirePermissions required options req w)
    = mkWorld (db w) (calls w ++ [CallGetAllPermissions (User._id u)]).
Proof.
  intros required options req w u Hu Hb.
  rewrite (requirePermissions_no_bypass required options req w u Hu Hb).
  cbv zeta. cbn [fst snd]. fold (requiredList required).
  assert (Hacc : (if getOr (requireAll options) false
                  then forallb (includes (effectiveNames u)) (requiredList required)
                  else existsb (includes (effectiveNames u)) (requiredList required))
                 = true
                 <-> if getOr (requireAll options) false
                     then forall p, In p (requiredList required)
                                    -> In p (effectiveNames u)
                     else exists p, In p (requiredList required)
                                    /\ In p (effectiveNames u)).
  { destruct (getOr (requireAll options) false).
    - rewrite forallb_forall. split; intros H p Hp; apply includes_In; auto.
    - rewrite existsb_exists. split; intros [p [Hp Hi]]; exists p;
        (split; [assumption|]); now apply includes_In. }
  rewrite <- Hacc.
  destruct (if getOr (requireAll options) false
            then forallb (includes (effectiveNames u)) (requiredList required)
            else existsb (includes (effectiveNames u)) (requiredList required));
    simpl; repeat split; auto; discriminate.
Qed.

Lemma requirePermissions_policy_witness :
  (admitted (fst (requirePermissions (One "post.read") noOptions
                    (requestOf (Some (loaded (Some editorRole) [] []))) emptyWorld)) = true
   <-> if getOr (requireAll noOptions) false
       then forall p, In p (requiredList (One "post.read"))
                      -> In p (effectiveNames (loaded (Some editorRole) [] []))
       else exists p, In p (requiredList (One "post.read"))
                      /\ In p (effectiveNames (loaded (Some editorRole) [] []))) /\
  (admitted (fst (requirePermissions (One "post.read") noOptions
                    (requestOf (Some (loaded (Some editorRole) [] []))) emptyWorld)) = true ->
   fst (requirePermissions (One "post.read") noOptions
          (requestOf (Some (loaded (Some editorRole) [] []))) emptyWorld)
   = Next (withPermissionCheck (requestOf (Some (loaded (Some editorRole) [] [])))
             (mkCheck (requiredList (One "post.read"))
                      (effectiveNames (loaded (Some editorRole) [] [])) true))) /\
  snd (requirePermissions (One "post.read") noOptions
         (requestOf (Some (loaded (Some editorRole) [] []))) emptyWorld)
  = mkWorld (db emptyWorld)
            (calls emptyWorld
               ++ [CallGetAllPermissions (User._id (loaded (Some editorRole) [] []))]).
Proof.
  exact (requirePermissions_policy (One "post.read") noOptions
           (requestOf (Some (loaded (Some editorRole) [] []))) emptyWorld
           (loaded (Some editorRole) [] []) eq_refl eq_refl).
Defined.

(** X11.  With an empty list of required permissions (and no bypass) the
    any-of policy refuses every principal with a 403, and the all-of policy
    admits every principal. *)
Theorem requirePermissions_empty_list :
  forall (options : Options) (req : Request) (w : World) (u : LoadedUser),
    user req = Some u ->
    bypasses options u = false ->
    (getOr (requireAll options) false = false ->
     fst (requirePermissions (Many []) options req w)
     = Sent (mkResponse 403 false (deniedMessage (customErrorMessage options) [])
               (DeniedExtra [] (effectiveNames u)))) /\
    (getOr (requireAll options) false = true ->
     admitted (fst (requirePermissions (Many []) options req w)) = true).
Proof.
  intros options req w u Hu Hb.
  rewrite (requirePermissions_no_bypass (Many []) options req w u Hu Hb).
  cbv zeta. cbn [fst]. split; intros H; rewrite H; reflexivity.
Qed.

Lemma requirePermissions_empty_list_witness :
  (getOr (requireAll noOptions) false = false ->
   fst (requirePermissions (Many []) noOptions
          (requestOf (Some (loaded (Some editorRole) [] []))) emptyWorld)
   = Sent (mkResponse 403 false (deniedMessage (customErrorMessage noOptions) [])
             (DeniedExtra [] (effectiveNames (loaded (Some editorRole) [] []))))) /\
  (getOr (requireAll noOptions) false = true ->
   admitted (fst (requirePermissions (Many []) noOptions
                    (requestOf (Some (loaded (Some editorRole) [] []))) emptyWorld)) = true).
Proof.
  exact (requirePermissions_empty_list noOptions
           (requestOf (Some (loaded (Some editorRole) [] []))) emptyWorld
           (loaded (Some editorRole) [] []) eq_refl eq_refl).
Defined.

Lemma bypasses_default (custom : option string) (all : option bool) (u : LoadedUser) :
  bypasses (mkOptions all None custom) u = isSuperAdmin u.
Proof. reflexivity. Qed.

(** What [canManageUsers] does for an authenticated principal. *)
Lemma canManageUsers_unfold (req : Request) (w : World) (u : LoadedUser) :
  user req = Some u ->
  canManageUsers req w =
  (if isSuperAdmin u
   then (Next req, w)
   else
     (if existsb (includes (effectiveNames u))
                 ["user.create"; "user.update"; "user.delete"]
      then Next (withPermissionCheck req
                   (mkCheck ["user.create"; "user.update"; "user.delete"]
                            (effectiveNames u) true))
      else Sent (mkResponse 403 false
                   "Access denied. User management permissions required."
                   (DeniedExtra ["user.create"; "user.update"; "user.delete"]
                                (effectiveNames u))),
      mkWorld (db w) (calls w ++ [CallGetAllPermissions (User._id u)]))).
Proof.
  intros Hu. unfold canManageUsers. destruct (isSuperAdmin u) eqn:Es.
  - unfold requirePermissions. rewrite Hu. cbn [allowSuperAdmin getOr andb].
    now rewrite Es.
  - rewrite (requirePermissions_no_bypass _ _ req w u Hu)
      by now rewrite bypasses_default.
    reflexivity.
Qed.

(** X12.  [canManageUsers] admits an authenticated principal iff its role is
    named 'SuperAdmin' or one of user.create, user.update, user.delete is
    effective for it; its refusal is a 403 with the fixed message. *)
Theorem canManageUsers_admits :
  forall (req : Request) (w : World) (u : LoadedUser),
    user req = Some u ->
    (admitted (fst (canManageUsers req w)) = true <-> managesUsers u) /\
    (admitted (fst (canManageUsers req w)) = false ->
     fst (canManageUsers req w)
     = Sent (mkResponse 403 false "Access denied. User management permissions required."
               (DeniedExtra ["user.create"; "user.update"; "user.delete"]
                            (effectiveNames u)))).
Proof.
  intros req w u Hu. rewrite (canManageUsers_unfold req w u Hu).
  unfold managesUsers. destruct (isSuperAdmin u).
  - cbn [fst admitted]. split; [split; auto | discriminate].
  - cbn [fst].
    destruct (existsb (includes (effectiveNames u))
                      ["user.create"; "user.update"; "user.delete"]) eqn:E;
      cbn [admitted].
    + split; [|discriminate]. split; [intros _ | reflexivity].
      right. apply existsb_exists in E. destruct E as [p [Hp Hi]].
      exists p. split; [exact Hp | now apply includes_In].
    + split; [|reflexivity]. split; [discriminate|].
      intros [H|[p [Hp Hi]]]; [discriminate H|].
      assert (Ht : existsb (includes (effectiveNames u))
                           ["user.create"; "user.update"; "user.delete"] = true).
      { apply existsb_exists. exists p. split; [exact Hp | now apply includes_In]. }
      rewrite E in Ht. discriminate Ht.
Qed.

Lemma canManageUsers_admits_witness :
  (admitted (fst (canManageUsers (requestOf (Some (loaded (Some editorRole) [] [])))
                    emptyWorld)) = true
   <-> managesUsers (loaded (Some editorRole) [] [])) /\
  (admitted (fst (canManageUsers (requestOf (Some (loaded (Some editorRole) [] [])))
                    emptyWorld)) = false ->
   fst (canManageUsers (requestOf (Some (loaded (Some editorRole) [] []))) emptyWorld)
   = Sent (mkResponse 403 false "Access denied. User management permissions required."
             (DeniedExtra ["user.create"; "user.update"; "user.delete"]
                          (effectiveNames (loaded (Some editorRole) [] []))))).
Proof.
  exact (canManageUsers_admits (requestOf (Some (loaded (Some editorRole) [] [])))
           emptyWorld (loaded (Some editorRole) [] []) eq_refl).
Defined.

(** X13.  [requireRoles] admits exactly the principals whose role name is in
    the list; it has no SuperAdmin bypass, never resolves permissions and
    never changes the world. *)
Theorem requireRoles_admits :
  forall (allowedRoles : Required) (req : Request) (w : World),
    snd (requireRoles allowedRoles req w) = w /\
    (forall req', fst (requireRoles allowedRoles req w) = RolesNext req'
                  <-> req' = req
                      /\ exists u role,
                          user req = Some u /\ User.role u = Some role
                          /\ In (Role.name role) (requiredList allowedRoles)).
Proof.
  intros allowed req w. unfold requireRoles. fold (requiredList allowed).
  destruct (user req) as [u|] eqn:Hu.
  2:{ simpl. split; [reflexivity|]. intros req'. split; [discriminate|].
      intros [_ [u [role [H _]]]]. discriminate H. }
  destruct (User.role u) as [role|] eqn:Hr.
  2:{ simpl. split; [reflexivity|]. intros req'. split; [discriminate|].
      intros [_ [u' [role [H [H' _]]]]]. injection H as <-. rewrite Hr in H'.
      discriminate H'. }
  destruct (includes (requiredList allowed) (Role.name role)) eqn:Ei; simpl.
  - split; [reflexivity|]. intros req'. split.
    + intros H. injection H as <-. split; [reflexivity|]. exists u, role.
      repeat split; try assumption. now apply includes_In.
    + intros [-> _]. reflexivity.
  - split; [reflexivity|]. intros req'. split; [discriminate|].
    intros [_ [u' [role' [H [H' Hin]]]]]. injection H as <-. rewrite Hr in H'.
    injection H' as <-. apply includes_In in Hin. rewrite Hin in Ei. discriminate Ei.
Qed.

Example requireRoles_refuses_unlisted_superadmin :
  fst (requireRoles (Many ["Editor"; "Admin"])
         (requestOf (Some (loaded (Some emptySuperAdmin) [] []))) emptyWorld)
  = RolesDenied "Access denied. Required role(s): Editor, Admin" "SuperAdmin"
                ["Editor"; "Admin"].
Proof. reflexivity. Qed.

(** X14.  [requireSuperAdmin] admits exactly the principals whose role is
    named 'SuperAdmin' and leaves request and world unchanged; whoever it
    admits is admitted by [requirePermissions] too, for any required
    permissions, unless the bypass is switched off. *)
Theorem requireSuperAdmin_admits :
  forall (req : Request) (w : World),
    snd (requireSuperAdmin req w) = w /\
    (admitted (fst (requireSuperAdmin req w)) = true
     <-> exists u, user req = Some u /\ isSuperAdmin u = true) /\
    (admitted (fst (requireSuperAdmin req w)) = true ->
     fst (requireSuperAdmin req w) = Next req /\
     forall (required : Required) (options : Options),
       allowSuperAdmin options <> Some false ->
       requirePermissions required options req w = (Next req, w)).
Proof.
  intros req w. unfold requireSuperAdmin, isSuperAdmin.
  destruct (user req) as [u|] eqn:Hu.
  2:{ simpl. split; [reflexivity|]. split; [|discriminate].
      split; [discriminate | intros [u [H _]]; discriminate H]. }
  destruct (User.role u) as [role|] eqn:Hr.
  2:{ simpl. split; [reflexivity|]. split; [|discriminate].
      split; [discriminate|]. intros [u' [H H']]. injection H as <-.
      rewrite Hr in H'. discriminate H'. }
  destruct (Role.name role === "SuperAdmin") eqn:En; simpl.
  - split; [reflexivity|]. split.
    + split; [|reflexivity]. intros _. exists u. rewrite Hr. now split.
    + intros _. split; [reflexivity|]. intros required options Ha.
      unfold requirePermissions. rewrite Hu. unfold isSuperAdmin. rewrite Hr, En.
      destruct (allowSuperAdmin options) as [[|]|]; try reflexivity.
      now contradiction Ha.
  - split; [reflexivity|]. split; [|discriminate].
    split; [discriminate|]. intros [u' [H H']]. injection H as <-.
    rewrite Hr, En in H'. discriminate H'.
Qed.

Lemma optionalAuth_as_authenticate (env : Env) (req : Request) (w : World) :
  optionalAuth env req w
  = (match fst (authenticate env req w) with
     | Next req' => Next req'
     | _ => Next req
     end, w).
Proof.
  unfold optionalAuth, authenticate, bind, ret, readDb.
  destruct (truthy (extractToken req)); cbn [negb]; [|reflexivity].
  destruct (jwt_verify env (getOr (extractToken req) "")) as [userId|name];
    [|reflexivity].
  destruct (findById (db w) userId) as [[doc|]|name]; try reflexivity.
  cbn [User.isActive withoutPassword populateUser].
  assert (Hl : isLocked env (withoutPassword (populateUser (db w) doc))
               = isLocked env (populateUser (db w) doc)) by reflexivity.
  rewrite Hl.
  destruct (User.isActive doc); cbn [negb andb]; [|reflexivity].
  destruct (isLocked env (populateUser (db w) doc)); reflexivity.
Qed.

(** X15.  [optionalAuth] never refuses and never changes the world: it
    passes on the request with the user that [authenticate] would attach
    when [authenticate] would admit it, and the request as it came, without
    a user attached by it, in every case in which [authenticate] would
    refuse. *)
Theorem optionalAuth_never_refuses :
  forall (env : Env) (req : Request) (w : World),
    (exists req', optionalAuth env req w = (Next req', w)) /\
    (forall req', fst (authenticate env req w) = Next req' ->
                  optionalAuth env req w = (Next req', w)) /\
    (admitted (fst (authenticate env req w)) = false ->
     optionalAuth env req w = (Next req, w)).
Proof.
  intros env req w. rewrite optionalAuth_as_authenticate.
  destruct (fst (authenticate env req w)) as [req'|name|r]; simpl.
  - split; [now exists req'|]. split; [|discriminate].
    intros r H. now injection H as <-.
  - split; [now exists req|]. split; [discriminate | reflexivity].
  - split; [now exists req|]. split; [discriminate | reflexivity].
Qed.

Example optionalAuth_samples :
  optionalAuth (clock 1000) (bearer "forged") (worldOf [account true 0 None])
  = (Next (bearer "forged"), worldOf [account true 0 None]) /\
  optionalAuth (clock 1000) (bearer "good") (worldOf [account true 5 (Some 2000)])
  = (Next (bearer "good"), worldOf [account true 5 (Some 2000)]) /\
  admitted (fst (authenticate (clock 1000) (bearer "good")
                   (worldOf [account true 0 None]))) = true.
Proof. repeat split; reflexivity. Qed.

Lemma split_without_separator (sep : ascii) (s : string) :
  existsb (Ascii.eqb sep) (list_ascii_of_string s) = false -> split sep s = [s].
Proof.
  induction s as [|c r IH]; simpl; [reflexivity|].
  intros H. apply orb_false_iff in H. destruct H as [Hc Hr].
  rewrite Ascii.eqb_sym in Hc. rewrite Hc, (IH Hr). reflexivity.
Qed.

(** X16.  A Bearer header that carries no token hides the cookie: when the
    Authorization header starts with "Bearer" and has no space, the request
    is refused with "No token provided" whatever token the cookie holds. *)
Theorem authenticate_bearer_without_token :
  forall (env : Env) (req : Request) (w : World) (header : string),
    authorization req = Some header ->
    startsWith header "Bearer" = true ->
    hasChar (Ascii.eqb " "%char) header = false ->
    extractToken req = None /\
    authenticate env req w = (Sent (mkResponse 401 false msgNoToken NoExtra), w).
Proof.
  intros env req w header Ha Hs Hn.
  assert (Ht : extractToken req = None).
  { unfold extractToken. rewrite Ha. cbn [getOr]. rewrite Hs.
    assert (Hne : truthy (Some header) = true).
    { destruct header; [discriminate Hs | reflexivity]. }
    rewrite Hne. cbn [andb].
    unfold hasChar in Hn. now rewrite (split_without_separator _ _ Hn). }
  split; [exact Ht|]. unfold authenticate. now rewrite Ht.
Qed.

Lemma authenticate_bearer_without_token_witness :
  extractToken (mkReq (Some "Bearer") (Some "good") "" None None None None None) = None /\
  authenticate (clock 1000)
    (mkReq (Some "Bearer") (Some "good") "" None None None None None)
    (worldOf [account true 0 None])
  = (Sent (mkResponse 401 false msgNoToken NoExtra), worldOf [account true 0 None]).
Proof.
  exact (authenticate_bearer_without_token (clock 1000)
           (mkReq (Some "Bearer") (Some "good") "" None None None None None)
           (worldOf [account true 0 None]) "Bearer" eq_refl eq_refl eq_refl).
Defined.

Example authenticate_cookie_alone :
  admitted (fst (authenticate (clock 1000)
                   (mkReq None (Some "good") "" None None None None None)
                   (worldOf [account true 0 None]))) = true.
Proof. reflexivity. Qed.

Lemma requireOwnershipOrPermission_unfold
      (field : string) (adminPermissions : list string)
      (req : ResourceRequest) (w : World) (u : LoadedUser) :
  user (base req) = Some u ->
  isSuperAdmin u = false ->
  requireOwnershipOrPermission field adminPermissions req w =
  (let resourceId := orElse (orElse (paramsIdOpt req) (paramsPostId req)) (bodyId req) in
   let ownership :=
     if truthy resourceId
     then ResourceNext
            (mkResourceRequest (base req) (paramsIdOpt req) (paramsPostId req) (bodyId req)
               (Some (mkOwnershipCheck field (User._id u) (getOr resourceId ""))))
     else ResourceSent (mkResponse 400 false "Resource ID is required." NoExtra) in
   if (0 <? List.length adminPermissions)%nat
   then (if existsb (includes (effectiveNames u)) adminPermissions
         then ResourceNext req else ownership,
         mkWorld (db w) (calls w ++ [CallGetAllPermissions (User._id u)]))
   else (ownership, w)).
Proof.
  intros Hu Hs. unfold requireOwnershipOrPermission. rewrite Hu, Hs. cbv zeta.
  unfold awaitGetAllPermissions, bind, invoke, ret, effectiveNames, getAllPermissions.
  cbv zeta.
  destruct (0 <? List.length adminPermissions)%nat.
  - match goal with
    | |- context [if existsb ?f adminPermissions then _ else _] =>
        destruct (existsb f adminPermissions)
    end; [reflexivity|].
    destruct (truthy (orElse (orElse (paramsIdOpt req) (paramsPostId req)) (bodyId req)));
      reflexivity.
  - destruct (truthy (orElse (orElse (paramsIdOpt req) (paramsPostId req)) (bodyId req)));
      reflexivity.
Qed.

(** X17.  [requireOwnershipOrPermission] never answers 403: whoever is
    authenticated and names a resource is passed on.  A principal that is
    not SuperAdmin and holds none of the overriding permissions is passed on
    with the ownership check recorded on the request, for the handler to
    carry out; the only refusals are 401 without a user and 400 without a
    resource id. *)
Theorem requireOwnershipOrPermission_never_denies :
  forall (field : string) (adminPermissions : list string)
         (req : ResourceRequest) (w : World),
    (forall r, fst (requireOwnershipOrPermission field adminPermissions req w)
               = ResourceSent r ->
               (status r = 401 /\ user (base req) = None)
               \/ (status r = 400
                   /\ truthy (orElse (orElse (paramsIdOpt req) (paramsPostId req))
                                     (bodyId req)) = false)) /\
    (forall u id,
        user (base req) = Some u ->
        isSuperAdmin u = false ->
        existsb (includes (effectiveNames u)) adminPermissions = false ->
        orElse (orElse (paramsIdOpt req) (paramsPostId req)) (bodyId req) = Some id ->
        id <> "" ->
        fst (requireOwnershipOrPermission field adminPermissions req w)
        = ResourceNext
            (mkResourceRequest (base req) (paramsIdOpt req) (paramsPostId req) (bodyId req)
               (Some (mkOwnershipCheck field (User._id u) id)))).
Proof.
  intros field perms req w. split.
  - intros r. destruct (user (base req)) as [u|] eqn:Hu.
    2:{ unfold requireOwnershipOrPermission. rewrite Hu. simpl. intros H.
        injection H as <-. left. now split. }
    destruct (isSuperAdmin u) eqn:Es.
    { unfold requireOwnershipOrPermission. rewrite Hu, Es. discriminate. }
    rewrite (requireOwnershipOrPermission_unfold field perms req w u Hu Es). cbv zeta.
    destruct (truthy (orElse (orElse (paramsIdOpt req) (paramsPostId req)) (bodyId req)));
      destruct (0 <? List.length perms)%nat;
      try destruct (existsb (includes (effectiveNames u)) perms);
      simpl; intros H; try discriminate H; injection H as <-; right; now split.
  - intros u id Hu Es Hex Hid Hne.
    rewrite (requireOwnershipOrPermission_unfold field perms req w u Hu Es). cbv zeta.
    rewrite Hex, Hid, (truthy_Some id Hne). cbn [getOr].
    destruct (0 <? List.length perms)%nat; reflexivity.
Qed.

Lemma requireOwnershipOrPermission_never_denies_witness :
  fst (requireOwnershipOrPermission "author" ["post.update"]
         (mkResourceRequest (requestOf (Some (loaded (Some editorRole) [] [])))
            (Some "650000000000000000000077") None None None)
         emptyWorld)
  = ResourceNext
      (mkResourceRequest (requestOf (Some (loaded (Some editorRole) [] [])))
         (Some "650000000000000000000077") None None
         (Some (mkOwnershipCheck "author" (User._id (loaded (Some editorRole) [] []))
                  "650000000000000000000077"))).
Proof.
  exact (proj2 (requireOwnershipOrPermission_never_denies "author" ["post.update"]
                  (mkResourceRequest (requestOf (Some (loaded (Some editorRole) [] [])))
                     (Some "650000000000000000000077") None None None)
                  emptyWorld)
           (loaded (Some editorRole) [] []) "650000000000000000000077"
           eq_refl eq_refl eq_refl eq_refl ltac:(discriminate)).
Defined.

Lemma requireSuperAdmin_admits_witness :
  fst (requireSuperAdmin (requestOf (Some (loaded (Some emptySuperAdmin) [] []))) emptyWorld)
  = Next (requestOf (Some (loaded (Some emptySuperAdmin) [] []))) /\
  forall (required : Required) (options : Options),
    allowSuperAdmin options <> Some false ->
    requirePermissions required options
      (requestOf (Some (loaded (Some emptySuperAdmin) [] []))) emptyWorld
    = (Next (requestOf (Some (loaded (Some emptySuperAdmin) [] []))), emptyWorld).
Proof.
  exact (proj2 (proj2 (requireSuperAdmin_admits
                         (requestOf (Some (loaded (Some emptySuperAdmin) [] [])))
                         emptyWorld)) eq_refl).
Defined.

(* ================================================================== *)
(** ** Routes *)

Lemma authenticate_outcome (env : Env) (req : Request) (w : World) :
  (exists u, fst (authenticate env req w) = Next (withUser req u)
             /\ User.isActive u = true /\ isLocked env u = false)
  \/ (exists r, fst (authenticate env req w) = Sent r
                /\ (status r = 401 \/ status r = 500)).
Proof.
  unfold authenticate, bind, ret, readDb.
  destruct (negb (truthy (extractToken req))).
  { right. eexists. split; [reflexivity|]. now left. }
  destruct (jwt_verify env (getOr (extractToken req) "")) as [userId|name].
  2:{ right. eexists. split; [reflexivity|]. apply authenticateCatch_status. }
  destruct (findById (db w) userId) as [[doc|]|name].
  - destruct (User.isActive (populateUser (db w) doc)) eqn:Ea; cbn [negb].
    2:{ right. eexists. split; [reflexivity|]. now left. }
    destruct (isLocked env (populateUser (db w) doc)) eqn:El.
    { right. eexists. split; [reflexivity|]. now left. }
    left. eexists. split; [reflexivity|]. split; [exact Ea | exact El].
  - right. eexists. split; [reflexivity|]. now left.
  - right. eexists. split; [reflexivity|]. apply authenticateCatch_status.
Qed.

(** X18.  The user management routes ([authenticate], [canManageUsers],
    handler): the handler runs only for an authenticated, active, unlocked
    principal that is SuperAdmin or holds one of user.create, user.update,
    user.delete, and it then finds that principal in [req.user].  For every
    other request the route answers 401, 403 or 500 and the store is left as
    it was, whatever the handler is. *)
Theorem userManagementRoute_guard :
  forall (env : Env) (handler : Middleware) (req : Request) (w : World),
    (exists u req',
        fst (authenticate env req w) = Next (withUser req u) /\
        User.isActive u = true /\ isLocked env u = false /\ managesUsers u /\
        fst (canManageUsers (withUser req u) w) = Next req' /\
        user req' = Some u /\
        runChain (userManagementRoute env handler) req w
        = runChain [handler] req' (snd (canManageUsers (withUser req u) w)))
    \/ (exists r,
           fst (runChain (userManagementRoute env handler) req w) = Sent r /\
           (status r = 401 \/ status r = 403 \/ status r = 500) /\
           db (snd (runChain (userManagementRoute env handler) req w)) = db w).
Proof.
  intros env handler req w.
  pose proof (authenticate_world env req w) as Hw.
  destruct (authenticate_outcome env req w) as [[u [Ha [Hact Hl]]] | [r [Ha Hs]]].
  - assert (Hchain : runChain (userManagementRoute env handler) req w
                     = (o <- canManageUsers (withUser req u) ;;
                        match o with
                        | Next req' => runChain [handler] req'
                        | _ => ret o
                        end) w).
    { unfold userManagementRoute. cbn [runChain]. unfold bind at 1.
      destruct (authenticate env req w) as [o w'] eqn:E. simpl in Ha, Hw.
      subst o w'. reflexivity. }
    pose proof (canManageUsers_unfold (withUser req u) w u eq_refl) as Hc.
    destruct (isSuperAdmin u) eqn:Es.
    + left. exists u, (withUser req u).
      rewrite Hchain. unfold bind. rewrite Hc. cbn [fst snd].
      split; [exact Ha|]. split; [exact Hact|]. split; [exact Hl|].
      split; [now left|]. now repeat split.
    + destruct (existsb (includes (effectiveNames u))
                        ["user.create"; "user.update"; "user.delete"]) eqn:E.
      * left.
        exists u, (withPermissionCheck (withUser req u)
                     (mkCheck ["user.create"; "user.update"; "user.delete"]
                              (effectiveNames u) true)).
        rewrite Hchain. unfold bind. rewrite Hc. cbn [fst snd].
        split; [exact Ha|]. split; [exact Hact|]. split; [exact Hl|].
        split; [|now repeat split].
        right. apply existsb_exists in E. destruct E as [p [Hp Hi]].
        exists p. split; [exact Hp | now apply includes_In].
      * right. rewrite Hchain. unfold bind. rewrite Hc. cbn [fst snd ret].
        eexists. split; [reflexivity|].
        split; [right; left; reflexivity | reflexivity].
  - right. exists r.
    assert (Hres : runChain (userManagementRoute env handler) req w = (Sent r, w)).
    { unfold userManagementRoute. cbn [runChain]. unfold bind at 1.
      destruct (authenticate env req w) as [o w'] eqn:E. simpl in Ha, Hw.
      now subst o w'. }
    rewrite Hres. split; [reflexivity|]. split; [tauto | reflexivity].
Qed.

(* ================================================================== *)
(** ** Further properties of login *)

(** What [login] does once its inputs are accepted and the user is found. *)
Lemma login_found (env : Env) (req : Request) (w : World) (u : UserDoc) :
  loginInputsOk req = true ->
  findOneByEmail (db w) (sanitizedEmail req) = Some u ->
  login env req w =
  (if isLocked env u
   then (Sent (sendErrorResponse 423 msgAccountLocked), w)
   else if negb (User.isActive u)
   then (Sent (sendErrorResponse 403
                 "Account is deactivated. Please contact administrator."), w)
   else if negb (comparePassword env u (getOr (bodyPassword req) ""))
   then (Sent (sendErrorResponse 401 "Invalid email or password"),
         mkWorld (updateUser (User._id u)
                    (fun stored => updateOne stored (incLoginAttempts env u)) (db w))
                 ((calls w ++ [CallComparePassword (User._id u)])
                    ++ [CallIncLoginAttempts (User._id u)])%list)
   else (Sent (sendSuccessResponse 200
                 (DataLogin (User._id u) (generateToken env (User._id u)))
                 "Login successful"),
         mkWorld (updateUser (User._id u)
                    (fun stored => withLastLogin stored (Some (now env)))
                    (if 0 <? User.loginAttempts u
                     then updateUser (User._id u)
                            (fun stored => updateOne stored (resetLoginAttempts u)) (db w)
                     else db w))
                 ((if 0 <? User.loginAttempts u
                   then (calls w ++ [CallComparePassword (User._id u)])
                          ++ [CallResetLoginAttempts (User._id u)]
                   else calls w ++ [CallComparePassword (User._id u)])
                    ++ [CallSave (User._id u)])%list)).
Proof.
  intros Hok Hf. unfold loginInputsOk in Hok.
  apply andb_true_iff in Hok. destruct Hok as [Hok Hv].
  apply andb_true_iff in Hok. destruct Hok as [He Hp].
  unfold login, asyncHandler, bind, ret, readDb.
  rewrite He, Hp, Hv. cbn [negb orb]. unfold sanitizedEmail in Hf. rewrite Hf.
  destruct (isLocked env u); [reflexivity|].
  destruct (User.isActive u); cbn [negb]; [|reflexivity].
  unfold awaitComparePassword, awaitIncLoginAttempts, awaitResetLoginAttempts,
    awaitSave, bind, invoke, writeDb, ret. cbn [db calls].
  destruct (comparePassword env u (getOr (bodyPassword req) "")); cbn [negb];
    [|reflexivity].
  destruct (0 <? User.loginAttempts u); reflexivity.
Qed.

(** X19.  [login] gives the same answer, 401 "Invalid email or password",
    for an address that no user has and for a wrong password of an active,
    unlocked user; only in the second case is anything recorded.  The second
    case supposes a lock time that is a Date ([lockTimeInRange]): the store
    refuses any other, and the failure is then not recorded. *)
Theorem login_unknown_and_wrong_password :
  forall (env : Env) (req : Request) (w : World),
    loginInputsOk req = true ->
    (findOneByEmail (db w) (sanitizedEmail req) = None ->
     login env req w = (Sent (sendErrorResponse 401 "Invalid email or password"), w)) /\
    (forall u,
        lockTimeInRange env = true ->
        findOneByEmail (db w) (sanitizedEmail req) = Some u ->
        isLocked env u = false ->
        User.isActive u = true ->
        comparePassword env u (getOr (bodyPassword req) "") = false ->
        fst (login env req w) = Sent (sendErrorResponse 401 "Invalid email or password") /\
        calls (snd (login env req w))
        = ((calls w ++ [CallComparePassword (User._id u)])
             ++ [CallIncLoginAttempts (User._id u)])%list).
Proof.
  intros env req w Hok. split.
  - intros Hf. unfold loginInputsOk in Hok.
    apply andb_true_iff in Hok. destruct Hok as [Hok Hv].
    apply andb_true_iff in Hok. destruct Hok as [He Hp].
    unfold login, asyncHandler, bind, ret, readDb.
    rewrite He, Hp, Hv. cbn [negb orb]. unfold sanitizedEmail in Hf. now rewrite Hf.
  - intros u _ Hf Hl Ha Hc. rewrite (login_found env req w u Hok Hf), Hl, Ha, Hc.
    split; reflexivity.
Qed.

Lemma login_unknown_and_wrong_password_witness :
  login (clock 1000) (loginRequest "bob@example.org" "guess")
        (worldOf [account true 0 None])
  = (Sent (sendErrorResponse 401 "Invalid email or password"),
     worldOf [account true 0 None]) /\
  fst (login (clock 1000) (loginRequest "ann@example.org" "guess")
         (worldOf [account true 4 None]))
  = Sent (sendErrorResponse 401 "Invalid email or password").
Proof.
  split.
  - exact (proj1 (login_unknown_and_wrong_password (clock 1000)
                    (loginRequest "bob@example.org" "guess")
                    (worldOf [account true 0 None]) eq_refl) eq_refl).
  - exact (proj1 (proj2 (login_unknown_and_wrong_password (clock 1000)
                           (loginRequest "ann@example.org" "guess")
                           (worldOf [account true 4 None]) eq_refl)
                    (account true 4 None) eq_refl eq_refl eq_refl eq_refl eq_refl)).
Defined.

(** X20.  A deactivated account is turned away with 403 before the password
    is compared, whatever the password: nothing is recorded and the world is
    unchanged. *)
Theorem login_deactivated :
  forall (env : Env) (req : Request) (w : World) (u : UserDoc),
    loginInputsOk req = true ->
    findOneByEmail (db w) (sanitizedEmail req) = Some u ->
    isLocked env u = false ->
    User.isActive u = false ->
    login env req w
    = (Sent (sendErrorResponse 403
               "Account is deactivated. Please contact administrator."), w).
Proof.
  intros env req w u Hok Hf Hl Ha.
  now rewrite (login_found env req w u Hok Hf), Hl, Ha.
Qed.

Lemma login_deactivated_witness :
  login (clock 1000) (loginRequest "ann@example.org" "guess")
        (worldOf [account false 0 None])
  = (Sent (sendErrorResponse 403
             "Account is deactivated. Please contact administrator."),
     worldOf [account false 0 None]).
Proof.
  exact (login_deactivated (clock 1000) (loginRequest "ann@example.org" "guess")
           (worldOf [account false 0 None]) (account false 0 None)
           eq_refl eq_refl eq_refl eq_refl).
Defined.

Lemma storedUser_updateUser (d : Database) (cs : list Call) (id : ObjectId)
      (u : UserDoc) (f : UserDoc -> UserDoc) :
  User._id u = id ->
  (forall v, User._id (f v) = User._id v) ->
  storedUser (mkWorld d cs) id = Some u ->
  forall cs', storedUser (mkWorld (updateUser id f d) cs') id = Some (f u).
Proof.
  intros <- Hid Hs cs'. unfold storedUser in *. simpl in *. now apply find_updateFirst.
Qed.

(** X21.  A successful login answers 200 with the token generated for the
    user and stores the time of the login; when failed attempts were counted
    the stored counter goes back to 0 and the lock is removed.  Role and
    permission overrides are not touched. *)
Theorem login_success :
  forall (env : Env) (req : Request) (w : World) (u : UserDoc),
    loginInputsOk req = true ->
    findOneByEmail (db w) (sanitizedEmail req) = Some u ->
    storedUser w (User._id u) = Some u ->
    isLocked env u = false ->
    User.isActive u = true ->
    comparePassword env u (getOr (bodyPassword req) "") = true ->
    fst (login env req w)
    = Sent (sendSuccessResponse 200
              (DataLogin (User._id u) (generateToken env (User._id u)))
              "Login successful") /\
    exists u',
      storedUser (after (login env) req w) (User._id u) = Some u' /\
      User.lastLogin u' = Some (now env) /\
      User.role u' = User.role u /\
      User.customPermissions u' = User.customPermissions u /\
      (0 < User.loginAttempts u ->
       User.loginAttempts u' = 0 /\ User.lockUntil u' = None) /\
      (User.loginAttempts u <= 0 ->
       User.loginAttempts u' = User.loginAttempts u
       /\ User.lockUntil u' = User.lockUntil u).
Proof.
  intros env req w u Hok Hf Hs Hl Ha Hc. unfold after.
  rewrite (login_found env req w u Hok Hf), Hl, Ha, Hc. cbn [negb fst snd].
  split; [reflexivity|].
  destruct w as [d cs]. cbn [db calls] in *.
  destruct (0 <? User.loginAttempts u) eqn:E.
  - apply Z.ltb_lt in E.
    pose proof (storedUser_updateUser d cs (User._id u) u
                  (fun stored => updateOne stored (resetLoginAttempts u))
                  eq_refl (fun v => eq_refl) Hs cs) as H1.
    pose proof (storedUser_updateUser _ cs (User._id u)
                  (updateOne u (resetLoginAttempts u))
                  (fun stored => withLastLogin stored (Some (now env)))
                  eq_refl (fun v => eq_refl) H1) as H2.
    eexists. split; [apply H2|]. cbn. repeat split; lia.
  - apply Z.ltb_ge in E.
    pose proof (storedUser_updateUser d cs (User._id u) u
                  (fun stored => withLastLogin stored (Some (now env)))
                  eq_refl (fun v => eq_refl) Hs) as H2.
    eexists. split; [apply H2|]. cbn. repeat split; lia.
Qed.

Lemma login_success_witness :
  fst (login (lenientClock 5000) (loginRequest "ann@example.org" "secret")
         (worldOf [account true 3 (Some 2000)]))
  = Sent (sendSuccessResponse 200
            (DataLogin (User._id (account true 3 (Some 2000)))
               (generateToken (lenientClock 5000) (User._id (account true 3 (Some 2000)))))
            "Login successful") /\
  exists u',
    storedUser (after (login (lenientClock 5000))
                  (loginRequest "ann@example.org" "secret")
                  (worldOf [account true 3 (Some 2000)]))
               (User._id (account true 3 (Some 2000))) = Some u' /\
    User.lastLogin u' = Some (now (lenientClock 5000)) /\
    User.role u' = User.role (account true 3 (Some 2000)) /\
    User.customPermissions u' = User.customPermissions (account true 3 (Some 2000)) /\
    (0 < User.loginAttempts (account true 3 (Some 2000)) ->
     User.loginAttempts u' = 0 /\ User.lockUntil u' = None) /\
    (User.loginAttempts (account true 3 (Some 2000)) <= 0 ->
     User.loginAttempts u' = User.loginAttempts (account true 3 (Some 2000))
     /\ User.lockUntil u' = User.lockUntil (account true 3 (Some 2000))).
Proof.
  exact (login_success (lenientClock 5000) (loginRequest "ann@example.org" "secret")
           (worldOf [account true 3 (Some 2000)]) (account true 3 (Some 2000))
           eq_refl eq_refl eq_refl eq_refl eq_refl eq_refl).
Defined.





(** With an expired lock the failure restarts the counter at 1 and sets no
    lock, whatever the threshold: the next login with the right password
    goes through. *)
Example login_after_expired_lock :
  fst (login (mkEnv 5000 (Some 1) None (jwt_verify (clock 5000))
                    (fun candidate hash => false) (fun id => id))
             (loginRequest "ann@example.org" "guess")
             (worldOf [account true 7 (Some 2000)]))
  = Sent (sendErrorResponse 401 "Invalid email or password") /\
  storedUser (after (login (mkEnv 5000 (Some 1) None (jwt_verify (clock 5000))
                                  (fun candidate hash => false) (fun id => id)))
                (loginRequest "ann@example.org" "guess")
                (worldOf [account true 7 (Some 2000)]))
             "650000000000000000000010"
  = Some (account true 1 None).
Proof. split; reflexivity. Qed.

(* ================================================================== *)
(** ** Further properties of the user controller *)

Lemma removeCustomPermissions_found
      (req : Request) (w : World) (u : UserDoc) (perms : list string) :
  findById (db w) (paramsId req) = Normal (Some u) ->
  bodyPermissions req = Some perms ->
  perms <> [] ->
  removeCustomPermissions req w =
  (let cp' :=
     mkCustom (filter (fun permId => negb (includes perms (toString permId)))
                      (granted (User.customPermissions u)))
              (filter (fun permId => negb (includes perms (toString permId)))
                      (revoked (User.customPermissions u))) in
   (Sent (sendSuccessResponse 200 (DataUser (withCustomPermissions u cp'))
            "Custom permissions removed successfully"),
    mkWorld (updateUser (User._id u) (fun stored => withCustomPermissions stored cp') (db w))
            (calls w ++ [CallSave (User._id u)])%list)).
Proof.
  intros Hf Hb Hne. destruct (findById_valid _ _ _ Hf) as [Hv _].
  unfold removeCustomPermissions, asyncHandler, bind, ret, readDb.
  rewrite Hv, Hb. cbn [negb].
  destruct perms as [|p ps]; [now contradiction Hne|].
  change (List.length (p :: ps) =? 0)%nat with false. cbn [negb].
  rewrite Hf. reflexivity.
Qed.

Lemma filter_not_included (perms : list string) (l : list ObjectId) (x : ObjectId) :
  In x (filter (fun permId => negb (includes perms (toString permId))) l)
  <-> In x l /\ ~ In x perms.
Proof.
  rewrite filter_In, negb_true_iff, <- not_true_iff_false.
  unfold toString. now rewrite includes_In.
Qed.

(** X23.  [removeCustomPermissions] on a user it finds always answers 200.
    It compares the strings of the request with the ids as [toString()]
    prints them: a stored id leaves the granted and the revoked list exactly
    when its printed form is one of the strings of the request, every other
    override stays, so lists that were disjoint stay disjoint, and the role
    is not touched.  An id that the request names in another spelling only
    (upper-case hex digits) is therefore not removed, although the answer is
    200 all the same. *)
Theorem removeCustomPermissions_clears_both :
  forall (req : Request) (w : World) (u : UserDoc) (perms : list string),
    findById (db w) (paramsId req) = Normal (Some u) ->
    bodyPermissions req = Some perms ->
    perms <> [] ->
    exists r u',
      fst (removeCustomPermissions req w) = Sent r /\
      status r = 200 /\ success r = true /\
      message r = "Custom permissions removed successfully" /\
      storedUser (after removeCustomPermissions req w) (User._id u) = Some u' /\
      User.role u' = User.role u /\
      (forall x, In x (granted (User.customPermissions u'))
                 <-> In x (granted (User.customPermissions u))
                     /\ ~ In (toString x) perms) /\
      (forall x, In x (revoked (User.customPermissions u'))
                 <-> In x (revoked (User.customPermissions u))
                     /\ ~ In (toString x) perms) /\
      (forall s, In s perms ->
                 ~ In (toString (castObjectId s)) perms ->
                 (In (castObjectId s) (granted (User.customPermissions u)) ->
                  In (castObjectId s) (granted (User.customPermissions u'))) /\
                 (In (castObjectId s) (revoked (User.customPermissions u)) ->
                  In (castObjectId s) (revoked (User.customPermissions u')))) /\
      (disjoint (granted (User.customPermissions u)) (revoked (User.customPermissions u)) ->
       disjoint (granted (User.customPermissions u')) (revoked (User.customPermissions u'))).
Proof.
  intros req w u perms Hf Hb Hne. unfold after.
  rewrite (removeCustomPermissions_found req w u perms Hf Hb Hne). cbv zeta.
  cbn [fst snd]. eexists. eexists. split; [reflexivity|].
  split; [reflexivity|]. split; [reflexivity|]. split; [reflexivity|]. split.
  - destruct w as [d cs].
    destruct (storedUser_after_save (mkWorld d cs) (paramsId req) u
                (fun stored =>
                   withCustomPermissions stored
                     (mkCustom
                        (filter (fun permId => negb (includes perms (toString permId)))
                                (granted (User.customPermissions u)))
                        (filter (fun permId => negb (includes perms (toString permId)))
                                (revoked (User.customPermissions u)))))
                (cs ++ [CallSave (User._id u)])%list (fun v => eq_refl) Hf) as [_ H].
    exact H.
  - cbn [withCustomPermissions User.role User.customPermissions granted revoked].
    split; [reflexivity|]. split; [intros x; apply filter_not_included|].
    split; [intros x; apply filter_not_included|]. split.
    + intros s0 _ Hout. split; intros Hin; apply filter_not_included; now split.
    + intros Hd x Hx Hr. apply filter_not_included in Hx. apply filter_not_included in Hr.
      exact (Hd x (proj1 Hx) (proj1 Hr)).
Qed.

(** The request names post.delete in upper case: the answer is 200 and the
    override is still stored. *)
Lemma removeCustomPermissions_clears_both_witness :
  storedUser (after removeCustomPermissions (overrideRequest ["65000000000000000000000A"])
                (worldOf [member ["65000000000000000000000a"] []]))
             "650000000000000000000010"
  = Some (member ["65000000000000000000000a"] []) /\
  exists r u',
    fst (removeCustomPermissions (overrideRequest ["65000000000000000000000A"])
           (worldOf [member ["65000000000000000000000a"] []])) = Sent r /\
    status r = 200 /\
    storedUser (after removeCustomPermissions (overrideRequest ["65000000000000000000000A"])
                  (worldOf [member ["65000000000000000000000a"] []]))
               (User._id (member ["65000000000000000000000a"] [])) = Some u' /\
    In (castObjectId "65000000000000000000000A") (granted (User.customPermissions u')).
Proof.
  split; [reflexivity|].
  destruct (removeCustomPermissions_clears_both
              (overrideRequest ["65000000000000000000000A"])
              (worldOf [member ["65000000000000000000000a"] []])
              (member ["65000000000000000000000a"] [])
              ["65000000000000000000000A"] eq_refl eq_refl ltac:(discriminate))
    as [r [u' [Hr [Hs [_ [_ [Hst [_ [_ [_ [Hkeep _]]]]]]]]]]].
  exists r, u'. split; [exact Hr|]. split; [exact Hs|]. split; [exact Hst|].
  apply (Hkeep "65000000000000000000000A").
  - left. reflexivity.
  - intros [H|[]]. discriminate H.
  - left. reflexivity.
Defined.

Lemma findRoleById_valid (d : Database) (id : string) (r : RoleDoc) :
  findRoleById d id = Normal (Some r) ->
  isValidObjectId id = true /\
  find (fun x => Role._id x === castObjectId id) (rolesColl d) = Some r.
Proof.
  unfold findRoleById. destruct (isValidObjectId id); [|discriminate].
  intros H. injection H as H. now split.
Qed.

(** What [assignRole] does once user and role are found. *)
Lemma assignRole_found
      (areq : AssignRoleRequest) (w : World) (target : UserDoc) (role : RoleDoc)
      (roleId : string) :
  bodyRoleId areq = Some roleId ->
  findById (db w) (paramsId (assignBase areq)) = Normal (Some target) ->
  findRoleById (db w) roleId = Normal (Some role) ->
  assignRole areq w =
  (let assigned :=
     (match roleOf (db w) target with
      | None => NextError "TypeError"
      | Some old =>
          Sent (sendSuccessResponse 200
                  (DataUser (withRole target (castObjectId roleId)))
                  ("Role assigned successfully. Changed from "
                     ++ Role.name old ++ " to " ++ Role.name role)%string)
      end,
      mkWorld (updateUser (User._id target)
                 (fun stored => withRole stored (castObjectId roleId)) (db w))
              (calls w ++ [CallSave (User._id target)])%list) in
   if Role.name role === "SuperAdmin"
   then match requesterIsNotSuperAdmin (assignBase areq) with
        | Throw name => (NextError name, w)
        | Normal true =>
            (Sent (sendErrorResponse 403 "Only SuperAdmin can assign SuperAdmin role"), w)
        | Normal false => assigned
        end
   else assigned).
Proof.
  intros Hb Hf Hr. destruct (findById_valid _ _ _ Hf) as [Hv _].
  destruct (findRoleById_valid _ _ _ Hr) as [Hvr _].
  unfold assignRole, asyncHandlerOf, bind, ret, readDb.
  rewrite Hb, Hv. cbn [isValidObjectIdOpt getOr]. rewrite Hvr. cbn [negb orb].
  rewrite Hf, Hr. cbv zeta.
  unfold awaitSave, bind, invoke, writeDb, ret. cbn [db calls].
  destruct (Role.name role === "SuperAdmin").
  - destruct (requesterIsNotSuperAdmin (assignBase areq)) as [[|]|name];
      try reflexivity.
    destruct (roleOf (db w) target); reflexivity.
  - destruct (roleOf (db w) target); reflexivity.
Qed.

(** X24.  Only a SuperAdmin can hand out the SuperAdmin role.  When the
    role to assign is named 'SuperAdmin': if the requester's role is not
    'SuperAdmin' the answer is 403, and unless the requester's role is
    'SuperAdmin' (it is another one, or reading it throws) nothing is
    stored.  The guard is about that role only: any other role is assigned
    for any requester (X25). *)
Theorem assignRole_superadmin_guard :
  forall (areq : AssignRoleRequest) (w : World) (target : UserDoc) (role : RoleDoc)
         (roleId : string),
    bodyRoleId areq = Some roleId ->
    findById (db w) (paramsId (assignBase areq)) = Normal (Some target) ->
    findRoleById (db w) roleId = Normal (Some role) ->
    Role.name role = "SuperAdmin" ->
    (requesterIsNotSuperAdmin (assignBase areq) <> Normal false ->
     snd (assignRole areq w) = w) /\
    (requesterIsNotSuperAdmin (assignBase areq) = Normal true ->
     fst (assignRole areq w)
     = Sent (sendErrorResponse 403 "Only SuperAdmin can assign SuperAdmin role")).
Proof.
  intros areq w target role roleId Hb Hf Hr Hn.
  rewrite (assignRole_found areq w target role roleId Hb Hf Hr). cbv zeta.
  rewrite Hn, String.eqb_refl.
  destruct (requesterIsNotSuperAdmin (assignBase areq)) as [[|]|name]; split;
    try reflexivity; try discriminate.
  intros H. now contradiction H.
Qed.

(** X25.  When [assignRole] goes through (the role is not 'SuperAdmin', or
    the requester is SuperAdmin), the stored user refers to the new role and
    is otherwise unchanged.  The answer is 200 naming the old and the new
    role; if the reference to the old role dangles, the new role has been
    saved all the same but the handler throws a TypeError instead of
    answering. *)
Theorem assignRole_assigns :
  forall (areq : AssignRoleRequest) (w : World) (target : UserDoc) (role : RoleDoc)
         (roleId : string),
    bodyRoleId areq = Some roleId ->
    findById (db w) (paramsId (assignBase areq)) = Normal (Some target) ->
    findRoleById (db w) roleId = Normal (Some role) ->
    Role.name role <> "SuperAdmin"
    \/ requesterIsNotSuperAdmin (assignBase areq) = Normal false ->
    storedUser (snd (assignRole areq w)) (User._id target)
    = Some (withRole target (castObjectId roleId)) /\
    roleOf (db (snd (assignRole areq w))) (withRole target (castObjectId roleId))
    = Some role /\
    (forall old, roleOf (db w) target = Some old ->
       fst (assignRole areq w)
       = Sent (sendSuccessResponse 200
                 (DataUser (withRole target (castObjectId roleId)))
                 ("Role assigned successfully. Changed from "
                    ++ Role.name old ++ " to " ++ Role.name role)%string)) /\
    (roleOf (db w) target = None ->
     fst (assignRole areq w) = NextError "TypeError").
Proof.
  intros areq w target role roleId Hb Hf Hr Hcase.
  rewrite (assignRole_found areq w target role roleId Hb Hf Hr). cbv zeta.
  assert (Hgo : (if Role.name role === "SuperAdmin"
                 then match requesterIsNotSuperAdmin (assignBase areq) with
                      | Normal true | Throw _ => false
                      | Normal false => true
                      end
                 else true) = true).
  { destruct Hcase as [Hne|Hsa].
    - apply String.eqb_neq in Hne. now rewrite Hne.
    - rewrite Hsa. now destruct (Role.name role === "SuperAdmin"). }
  destruct (storedUser_after_save w (paramsId (assignBase areq)) target
              (fun stored => withRole stored (castObjectId roleId)) []
              (fun v => eq_refl) Hf) as [_ Hst].
  destruct (findRoleById_valid _ _ _ Hr) as [_ Hfr].
  destruct (Role.name role === "SuperAdmin");
    [destruct (requesterIsNotSuperAdmin (assignBase areq)) as [[|]|name];
     try discriminate Hgo|];
    cbn [fst snd db]; (split; [exact Hst|]); (split; [exact Hfr|]);
    (split; [intros old Ho; now rewrite Ho | intros Ho; now rewrite Ho]).
Qed.

Lemma assignRole_superadmin_guard_witness :
  (requesterIsNotSuperAdmin
     (assignBase (assignRequest editor "650000000000000000000010"
                                "650000000000000000000022")) <> Normal false ->
   snd (assignRole (assignRequest editor "650000000000000000000010"
                                  "650000000000000000000022") office) = office) /\
  (requesterIsNotSuperAdmin
     (assignBase (assignRequest editor "650000000000000000000010"
                                "650000000000000000000022")) = Normal true ->
   fst (assignRole (assignRequest editor "650000000000000000000010"
                                  "650000000000000000000022") office)
   = Sent (sendErrorResponse 403 "Only SuperAdmin can assign SuperAdmin role")).
Proof.
  apply (assignRole_superadmin_guard
           (assignRequest editor "650000000000000000000010" "650000000000000000000022")
           office (member [] []) systemRole "650000000000000000000022");
    reflexivity.
Defined.

Lemma assignRole_assigns_witness :
  storedUser
    (snd (assignRole (assignRequest administrator "650000000000000000000010"
                                    "650000000000000000000022") office))
    "650000000000000000000010"
  = Some (withRole (member [] []) "650000000000000000000022").
Proof.
  apply (assignRole_assigns
           (assignRequest administrator "650000000000000000000010"
                          "650000000000000000000022")
           office (member [] []) systemRole "650000000000000000000022");
    try reflexivity.
  right. reflexivity.
Defined.

(* ================================================================== *)
(** ** userController.js: deleteUser *)

Lemma removeFirstBy_keeps {A : Type} (key : A -> ObjectId) (id : ObjectId)
      (l : list A) (t v : A) :
  find (fun a => key a === id) l = Some t ->
  In v l -> v <> t -> In v (removeFirstBy key id l).
Proof.
  induction l as [|a r IH]; cbn [find removeFirstBy]; [discriminate|].
  destruct (key a === id).
  - intros Ht [Hv|Hv] Hne; [|exact Hv].
    injection Ht as Ht. subst. now contradiction Hne.
  - intros Ht [Hv|Hv] Hne; [now left | right; now apply IH].
Qed.

(** What [deleteUser] does once the user to delete and its role are found. *)
Lemma deleteUser_found
      (req : Request) (w : World) (requester : LoadedUser) (target : UserDoc)
      (targetRole : RoleDoc) :
  user req = Some requester ->
  (toString (User._id requester) === paramsId req) = false ->
  findById (db w) (paramsId req) = Normal (Some target) ->
  roleOf (db w) target = Some targetRole ->
  deleteUser req w =
  (let deleted :=
     (Sent (sendSuccessResponse 200 NoExtra "User deleted successfully"),
      mkWorld (mkDb (permissionsColl (db w)) (rolesColl (db w))
                    (removeFirstBy (@User._id _ _) (castObjectId (paramsId req))
                                   (usersColl (db w))))
              (calls w)) in
   if Role.name targetRole === "SuperAdmin"
   then match requesterIsNotSuperAdmin req with
        | Throw name => (NextError name, w)
        | Normal true =>
            (Sent (sendErrorResponse 403
                     "Only SuperAdmin can delete other SuperAdmin accounts"), w)
        | Normal false => deleted
        end
   else deleted).
Proof.
  intros Hu Hne Hf Hr. destruct (findById_valid _ _ _ Hf) as [Hv _].
  unfold deleteUser, asyncHandler, bind, ret, readDb.
  rewrite Hv, Hu. cbn [negb]. rewrite Hne, Hf, Hr. cbv zeta.
  unfold writeDb, bind, ret. cbn [db calls].
  destruct (Role.name targetRole === "SuperAdmin");
    [destruct (requesterIsNotSuperAdmin req) as [[|]|name]|]; reflexivity.
Qed.

(** The store after [deleteUser]: untouched, or without the found user, and
    the latter only if the found user's role is not 'SuperAdmin' or the
    requester's is. *)
Lemma deleteUser_world (req : Request) (w : World) :
  snd (deleteUser req w) = w \/
  exists target targetRole,
    findById (db w) (paramsId req) = Normal (Some target) /\
    roleOf (db w) target = Some targetRole /\
    (Role.name targetRole = "SuperAdmin" ->
     requesterIsNotSuperAdmin req = Normal false) /\
    snd (deleteUser req w)
    = mkWorld (mkDb (permissionsColl (db w)) (rolesColl (db w))
                    (removeFirstBy (@User._id _ _) (castObjectId (paramsId req))
                                   (usersColl (db w))))
              (calls w).
Proof.
  destruct (isValidObjectId (paramsId req)) eqn:Hv.
  2:{ left. unfold deleteUser, asyncHandler, bind, ret. now rewrite Hv. }
  destruct (user req) as [requester|] eqn:Hu.
  2:{ left. unfold deleteUser, asyncHandler, bind, ret. now rewrite Hv, Hu. }
  destruct (toString (User._id requester) === paramsId req) eqn:Hself.
  { left. unfold deleteUser, asyncHandler, bind, ret. rewrite Hv, Hu. cbn [negb].
    now rewrite Hself. }
  destruct (findById (db w) (paramsId req)) as [[target|]|name] eqn:Hf.
  2,3: left; unfold deleteUser, asyncHandler, bind, ret, readDb;
       rewrite Hv, Hu; cbn [negb]; now rewrite Hself, Hf.
  destruct (roleOf (db w) target) as [targetRole|] eqn:Hr.
  2:{ left. unfold deleteUser, asyncHandler, bind, ret, readDb.
      rewrite Hv, Hu. cbn [negb]. now rewrite Hself, Hf, Hr. }
  rewrite (deleteUser_found req w requester target targetRole Hu Hself Hf Hr).
  cbv zeta.
  destruct (Role.name targetRole === "SuperAdmin") eqn:Hn.
  - destruct (requesterIsNotSuperAdmin req) as [[|]|name] eqn:Hq;
      [now left| |now left].
    right. exists target, targetRole. now repeat split.
  - right. exists target, targetRole. repeat split; try assumption.
    intros Hsa. apply String.eqb_neq in Hn. now contradiction Hn.
Qed.

(** X26.  Whatever the request, [deleteUser] run for a requester whose role
    is not 'SuperAdmin' leaves every stored user whose role is 'SuperAdmin'
    in the store. *)
Theorem deleteUser_keeps_superadmins :
  forall (req : Request) (w : World) (v : UserDoc) (r : RoleDoc),
    requesterIsNotSuperAdmin req <> Normal false ->
    In v (usersColl (db w)) ->
    roleOf (db w) v = Some r ->
    Role.name r = "SuperAdmin" ->
    In v (usersColl (db (snd (deleteUser req w)))) /\
    roleOf (db (snd (deleteUser req w))) v = Some r.
Proof.
  intros req w v r Hq Hin Hr Hn.
  destruct (deleteUser_world req w) as [Hw|(target & targetRole & Hf & Htr & Hsa & Hw)];
    rewrite Hw; [now split|].
  cbn [db usersColl]. split; [|exact Hr].
  destruct (findById_valid _ _ _ Hf) as [_ Hfind].
  apply (removeFirstBy_keeps (@User._id _ _) _ _ target v Hfind Hin).
  intros ->. rewrite Hr in Htr. injection Htr as <-.
  apply Hq, Hsa, Hn.
Qed.

Lemma deleteUser_keeps_superadmins_witness :
  In adminAccount
     (usersColl (db (snd (deleteUser
                            (requestBy editor "65000000000000000000000b" None) office)))) /\
  roleOf (db (snd (deleteUser (requestBy editor "65000000000000000000000b" None) office)))
         adminAccount = Some systemRole.
Proof.
  apply (deleteUser_keeps_superadmins
           (requestBy editor "65000000000000000000000b" None) office
           adminAccount systemRole).
  - discriminate.
  - right. left. reflexivity.
  - reflexivity.
  - reflexivity.
Defined.

(** X27.  [deleteUser] refuses the requester's own account when the route
    parameter is the id as [toString()] prints it.  The comparison is made
    on the raw parameter, though: a parameter that is another spelling of
    the requester's id (upper-case hex digits) passes it, and the handler
    then deletes the stored user with the requester's id. *)
Theorem deleteUser_own_account :
  forall (req : Request) (w : World) (requester : LoadedUser),
    user req = Some requester ->
    isValidObjectId (paramsId req) = true ->
    (paramsId req = toString (User._id requester) ->
     deleteUser req w
     = (Sent (sendErrorResponse 400 "You cannot delete your own account"), w)) /\
    (paramsId req <> toString (User._id requester) ->
     castObjectId (paramsId req) = User._id requester ->
     forall target targetRole,
       findById (db w) (paramsId req) = Normal (Some target) ->
       roleOf (db w) target = Some targetRole ->
       (Role.name targetRole = "SuperAdmin" ->
        requesterIsNotSuperAdmin req = Normal false) ->
       User._id target = User._id requester /\
       deleteUser req w
       = (Sent (sendSuccessResponse 200 NoExtra "User deleted successfully"),
          mkWorld (mkDb (permissionsColl (db w)) (rolesColl (db w))
                        (removeFirstBy (@User._id _ _) (User._id requester)
                                       (usersColl (db w))))
                  (calls w))).
Proof.
  intros req w requester Hu Hv. split.
  - intros Hid. unfold deleteUser, asyncHandler, bind, ret.
    rewrite Hv, Hu. cbn [negb]. rewrite Hid, String.eqb_refl. reflexivity.
  - intros Hne Hcast target targetRole Hf Hr Hsa.
    assert (Hself : (toString (User._id requester) === paramsId req) = false).
    { apply String.eqb_neq. intros E. now apply Hne. }
    destruct (findById_valid _ _ _ Hf) as [_ Hfind].
    apply find_some in Hfind. destruct Hfind as [_ Hkey].
    apply String.eqb_eq in Hkey. split; [now rewrite Hkey|].
    rewrite (deleteUser_found req w requester target targetRole Hu Hself Hf Hr).
    cbv zeta. rewrite Hcast.
    destruct (Role.name targetRole === "SuperAdmin") eqn:Hn; [|reflexivity].
    apply String.eqb_eq in Hn. now rewrite (Hsa Hn).
Qed.

Lemma deleteUser_own_account_witness :
  User._id adminAccount = User._id administrator /\
  deleteUser (requestBy administrator "65000000000000000000000B" None) office
  = (Sent (sendSuccessResponse 200 NoExtra "User deleted successfully"),
     mkWorld (mkDb (permissionsColl (db office)) (rolesColl (db office))
                   (removeFirstBy (@User._id _ _) (User._id administrator)
                                  (usersColl (db office))))
             (calls office)).
Proof.
  apply (proj2 (deleteUser_own_account
                  (requestBy administrator "65000000000000000000000B" None) office
                  administrator eq_refl eq_refl)
               ltac:(discriminate) eq_refl adminAccount systemRole eq_refl eq_refl).
  reflexivity.
Defined.

(* ================================================================== *)
(** ** roleController.js *)

Lemma find_removeFirstBy_other {A : Type} (key : A -> ObjectId) (id k : ObjectId)
      (l : list A) :
  k <> id ->
  find (fun a => key a === k) (removeFirstBy key id l)
  = find (fun a => key a === k) l.
Proof.
  intros Hne. induction l as [|a r IH]; cbn [find removeFirstBy]; [reflexivity|].
  destruct (key a === id) eqn:Ha.
  - apply String.eqb_eq in Ha.
    destruct (key a === k) eqn:Hk; [|reflexivity].
    apply String.eqb_eq in Hk. congruence.
  - cbn [find]. now rewrite IH.
Qed.

(** X28.  A system role is protected: [deleteRole] always answers 403 for
    it; [addPermissionsToRole] and [removePermissionsFromRole] leave the
    store as it is unless the requester's role is 'SuperAdmin', and for a
    requester with another role both answer 403 "Only SuperAdmin can modify
    system roles" once the request has passed the checks of its permission
    list that precede the look-up of the role. *)
Theorem system_roles_protected :
  forall (req : Request) (w : World) (role : RoleDoc),
    findRoleById (db w) (paramsId req) = Normal (Some role) ->
    Role.isSystemRole role = true ->
    deleteRole req w = (roleError 403 "System roles cannot be deleted", w) /\
    (requesterIsNotSuperAdmin req <> Normal false ->
     snd (addPermissionsToRole req w) = w /\
     snd (removePermissionsFromRole req w) = w) /\
    (requesterIsNotSuperAdmin req = Normal true ->
     forall permissions,
       bodyPermissions req = Some permissions ->
       permissions <> [] ->
       removePermissionsFromRole req w
       = (roleError 403 "Only SuperAdmin can modify system roles", w) /\
       (forallb isValidObjectId permissions = true ->
        addPermissionsToRole req w
        = (roleError 403 "Only SuperAdmin can modify system roles", w))).
Proof.
  intros req w role Hf Hsys.
  destruct (findRoleById_valid _ _ _ Hf) as [Hv _].
  split; [|split].
  - unfold deleteRole, bind, ret, readDb. rewrite Hv. cbn [negb].
    now rewrite Hf, Hsys.
  - intros Hq. split.
    + unfold addPermissionsToRole, bind, ret, readDb. rewrite Hv. cbn [negb].
      destruct (bodyPermissions req) as [permissions|]; [|reflexivity].
      destruct (List.length permissions =? 0)%nat; [reflexivity|].
      destruct (0 <? List.length
                       (filter (fun permId => negb (isValidObjectId permId)) permissions))%nat;
        [reflexivity|].
      rewrite Hf, Hsys. cbv zeta.
      destruct (requesterIsNotSuperAdmin req) as [[|]|name];
        [reflexivity| now contradiction Hq | reflexivity].
    + unfold removePermissionsFromRole, bind, ret, readDb. rewrite Hv. cbn [negb].
      destruct (bodyPermissions req) as [permissions|]; [|reflexivity].
      destruct (List.length permissions =? 0)%nat; [reflexivity|].
      rewrite Hf, Hsys. cbv zeta.
      destruct (requesterIsNotSuperAdmin req) as [[|]|name];
        [reflexivity| now contradiction Hq | reflexivity].
  - intros Hq permissions Hb Hne.
    destruct permissions as [|p ps]; [now contradiction Hne|]. split.
    + unfold removePermissionsFromRole, bind, ret, readDb. rewrite Hv, Hb. cbn [negb].
      change (List.length (p :: ps) =? 0)%nat with false. cbn [negb].
      rewrite Hf, Hsys. cbv zeta. now rewrite Hq.
    + intros Hvalid.
      unfold addPermissionsToRole, bind, ret, readDb. rewrite Hv, Hb. cbn [negb].
      change (List.length (p :: ps) =? 0)%nat with false. cbn [negb].
      rewrite no_invalid_ids, Hvalid. cbn [negb].
      rewrite Hf, Hsys. cbv zeta. now rewrite Hq.
Qed.

Lemma system_roles_protected_witness :
  deleteRole (requestBy editor "650000000000000000000022" None) office
  = (roleError 403 "System roles cannot be deleted", office) /\
  addPermissionsToRole
    (requestBy editor "650000000000000000000022" (Some ["650000000000000000000002"]))
    office
  = (roleError 403 "Only SuperAdmin can modify system roles", office).
Proof.
  split.
  - apply (system_roles_protected
             (requestBy editor "650000000000000000000022" None) office systemRole);
      reflexivity.
  - apply (proj2 (proj2 (system_roles_protected
                           (requestBy editor "650000000000000000000022"
                                      (Some ["650000000000000000000002"]))
                           office systemRole eq_refl eq_refl))
                 eq_refl ["650000000000000000000002"] eq_refl ltac:(discriminate)).
    reflexivity.
Defined.

(** X29.  [deleteRole] never leaves a user without its role: whatever the
    request, a stored user whose role reference resolved before the call
    resolves to the same role after it, and the users are untouched. *)
Theorem deleteRole_keeps_roles_in_use :
  forall (req : Request) (w : World) (u : UserDoc) (r : RoleDoc),
    In u (usersColl (db w)) ->
    roleOf (db w) u = Some r ->
    roleOf (db (snd (deleteRole req w))) u = Some r /\
    usersColl (db (snd (deleteRole req w))) = usersColl (db w).
Proof.
  intros req w u r Hin Hr.
  unfold deleteRole, bind, ret, readDb.
  destruct (isValidObjectId (paramsId req)); cbn [negb]; [|now split].
  destruct (findRoleById (db w) (paramsId req)) as [[role|]|name]; try now split.
  destruct (Role.isSystemRole role); [now split|].
  cbv zeta.
  destruct (0 <? List.length
                   (filter (fun u0 => User.role u0 === castObjectId (paramsId req))
                           (usersColl (db w))))%nat eqn:Hused; [now split|].
  unfold writeDb. cbn [snd db usersColl]. split; [|reflexivity].
  unfold roleOf. cbn [rolesColl]. rewrite find_removeFirstBy_other; [exact Hr|].
  intros Heq.
  assert (Hf : In u (filter (fun u0 => User.role u0 === castObjectId (paramsId req))
                            (usersColl (db w)))).
  { apply filter_In. split; [exact Hin|]. now apply String.eqb_eq. }
  destruct (filter (fun u0 => User.role u0 === castObjectId (paramsId req))
                   (usersColl (db w))); [destruct Hf | discriminate Hused].
Qed.

Lemma deleteRole_keeps_roles_in_use_witness :
  roleOf (db (snd (deleteRole (requestBy administrator "650000000000000000000020" None)
                              office)))
         (member [] []) = Some sampleRole /\
  usersColl (db (snd (deleteRole (requestBy administrator "650000000000000000000020" None)
                                 office)))
  = usersColl (db office).
Proof.
  apply (deleteRole_keeps_roles_in_use
           (requestBy administrator "650000000000000000000020" None) office
           (member [] []) sampleRole).
  - left. reflexivity.
  - reflexivity.
Defined.

Lemma find_updateFirstBy {A : Type} (key : A -> ObjectId) (id : ObjectId)
      (f : A -> A) (l : list A) (t : A) :
  key (f t) = key t ->
  find (fun a => key a === id) l = Some t ->
  find (fun a => key a === id) (updateFirstBy key id f l) = Some (f t).
Proof.
  intros Hkey. induction l as [|a r IH]; cbn [find updateFirstBy]; [discriminate|].
  destruct (key a === id) eqn:Ha; cbn [find].
  - intros H. injection H as H. subst a. now rewrite Hkey, Ha.
  - now rewrite Ha.
Qed.

Lemma filter_shorter {A : Type} (f : A -> bool) (l : list A) :
  (List.length l - List.length (filter f l) =? 0)%nat = false
  <-> exists x, In x l /\ f x = false.
Proof.
  induction l as [|a r IH]; cbn [filter List.length].
  - split; [discriminate | intros [x [[] _]]].
  - pose proof (filter_length_le f r) as Hle.
    destruct (f a) eqn:Ha; cbn [List.length].
    + change (S (List.length r) - S (List.length (filter f r)))%nat
        with (List.length r - List.length (filter f r))%nat.
      rewrite IH. split.
      * intros [x [Hx Hf]]. exists x. split; [now right | exact Hf].
      * intros [x [[Hx|Hx] Hf]]; [subst; congruence | now exists x].
    + split.
      * intros _. exists a. split; [now left | exact Ha].
      * intros _. apply Nat.eqb_neq. lia.
Qed.

(** X30.  [removePermissionsFromRole] on a role the requester may modify:
    when none of the role's permission ids, as printed, is in the list it
    answers 400 and stores nothing; otherwise it stores the role with
    exactly the permissions not in the list, in their order, and reports
    how many were removed. *)
Theorem removePermissionsFromRole_effect :
  forall (req : Request) (w : World) (role : RoleDoc) (permissions : list string),
    bodyPermissions req = Some permissions ->
    permissions <> [] ->
    findRoleById (db w) (paramsId req) = Normal (Some role) ->
    (Role.isSystemRole role = true -> requesterIsNotSuperAdmin req = Normal false) ->
    ((forall x, In x (Role.permissions role) -> ~ In x permissions) ->
     removePermissionsFromRole req w
     = (roleError 400 "None of the specified permissions were found in this role", w)) /\
    ((exists x, In x (Role.permissions role) /\ In x permissions) ->
     exists kept,
       (forall x, In x kept <-> In x (Role.permissions role) /\ ~ In x permissions) /\
       kept = filter (fun x => negb (includes permissions x)) (Role.permissions role) /\
       (List.length kept < List.length (Role.permissions role))%nat /\
       fst (removePermissionsFromRole req w)
       = Normal (sendSuccessResponse 200 NoExtra
                   (showNat (List.length (Role.permissions role) - List.length kept)
                      ++ " permissions removed from role successfully")%string,
                 RoleData_role (withPermissions role kept)) /\
       storedRole (snd (removePermissionsFromRole req w)) (Role._id role)
       = Some (withPermissions role kept) /\
       usersColl (db (snd (removePermissionsFromRole req w))) = usersColl (db w)).
Proof.
  intros req w role permissions Hb Hne Hf Hsys.
  destruct (findRoleById_valid _ _ _ Hf) as [Hv Hfind].
  assert (Hid : castObjectId (paramsId req) = Role._id role).
  { apply find_some in Hfind. destruct Hfind as [_ Hk].
    apply String.eqb_eq in Hk. now symmetry. }
  assert (Hrun :
    removePermissionsFromRole req w
    = (if (List.length (Role.permissions role)
           - List.length (filter (fun permId => negb (includes permissions (toString permId)))
                                 (Role.permissions role)) =? 0)%nat
       then (roleError 400 "None of the specified permissions were found in this role", w)
       else
         (Normal (sendSuccessResponse 200 NoExtra
                    (showNat (List.length (Role.permissions role)
                              - List.length
                                  (filter (fun permId =>
                                             negb (includes permissions (toString permId)))
                                          (Role.permissions role)))
                       ++ " permissions removed from role successfully")%string,
                  RoleData_role
                    (withPermissions role
                       (filter (fun permId => negb (includes permissions (toString permId)))
                               (Role.permissions role)))),
          mkWorld (mkDb (permissionsColl (db w))
                        (updateFirstBy (@Role._id _) (Role._id role)
                           (fun stored =>
                              withPermissions stored
                                (filter (fun permId =>
                                           negb (includes permissions (toString permId)))
                                        (Role.permissions role)))
                           (rolesColl (db w)))
                        (usersColl (db w)))
                  (calls w)))).
  { unfold removePermissionsFromRole, bind, ret, readDb. rewrite Hv, Hb. cbn [negb].
    destruct permissions as [|p ps]; [now contradiction Hne|].
    change (List.length (p :: ps) =? 0)%nat with false. cbn [negb].
    rewrite Hf. cbv zeta. unfold saveRole, writeDb, bind, ret.
    destruct (Role.isSystemRole role) eqn:Hs.
    - rewrite (Hsys eq_refl).
      destruct (_ =? 0)%nat; reflexivity.
    - destruct (_ =? 0)%nat; reflexivity. }
  rewrite Hrun. clear Hrun.
  destruct (List.length (Role.permissions role)
            - List.length (filter (fun permId => negb (includes permissions (toString permId)))
                                  (Role.permissions role)) =? 0)%nat eqn:Hcount.
  - split; [reflexivity|].
    intros [x [Hx Hp]]. exfalso.
    apply not_false_iff_true in Hcount. apply Hcount.
    apply filter_shorter. exists x. split; [exact Hx|].
    apply negb_false_iff. unfold toString. now apply includes_In.
  - split.
    + intros Hnone. exfalso.
      apply filter_shorter in Hcount. destruct Hcount as [x [Hx Hfx]].
      apply negb_false_iff in Hfx. unfold toString in Hfx.
      apply includes_In in Hfx. exact (Hnone x Hx Hfx).
    + intros _.
      exists (filter (fun permId => negb (includes permissions (toString permId)))
                     (Role.permissions role)).
      split; [intros x; apply filter_not_included|].
      split; [reflexivity|].
      split.
      { pose proof (filter_length_le
                      (fun permId => negb (includes permissions (toString permId)))
                      (Role.permissions role)) as Hle.
        apply Nat.eqb_neq in Hcount. lia. }
      split; [reflexivity|].
      split; [|reflexivity].
      unfold storedRole. cbn [snd db rolesColl].
      apply (find_updateFirstBy (@Role._id ObjectId) (Role._id role)
               (fun stored =>
                  withPermissions stored
                    (filter (fun permId => negb (includes permissions (toString permId)))
                            (Role.permissions role))));
        [reflexivity|]. now rewrite <- Hid.
Qed.

Lemma removePermissionsFromRole_effect_witness :
  removePermissionsFromRole
    (requestBy administrator "650000000000000000000020"
               (Some ["65000000000000000000000A"])) office
  = (roleError 400 "None of the specified permissions were found in this role", office).
Proof.
  apply (proj1 (removePermissionsFromRole_effect
                  (requestBy administrator "650000000000000000000020"
                             (Some ["65000000000000000000000A"]))
                  office sampleRole ["65000000000000000000000A"]
                  eq_refl ltac:(discriminate) eq_refl ltac:(discriminate))).
  intros x [Hx|[Hx|[]]] [Hp|[]]; subst x; discriminate Hp.
Defined.
